(** * Library-Management-System: allocation and subscription ledger

    A shallow embedding of the server side of the repository:

    - the relational schema of [shared/schema.ts] (the tables [libraries],
      [shifts], [seats], [seat_allocations], [students], [subscriptions]
      and [payments], their serial primary keys, their foreign keys and the
      unique constraint on [students.student_id]);
    - the storage layer [DatabaseStorage] of [server/storage.ts];
    - the request handlers of [server/routes.ts] that make up the ledger:
      [POST /api/students], [POST /api/subscriptions/renew/:studentId],
      [PATCH /api/subscriptions/:id/cancel], [POST /api/payments],
      [GET /api/seats/vacant/:libraryId] and
      [GET /api/seats/grid/:libraryId].

    Modelling decisions.

    - A table is a finite map from the primary key to the row, paired with
      the next value of its [serial] sequence.  A sequence value is consumed
      by every attempted insert, also by one that a constraint rejects.
    - Money columns are [decimal(10,2)].  A column value is the integer
      number of hundredths it denotes, so [100000] is 1000.00.  The handlers
      compute on JavaScript numbers, obtained with [parseFloat]/[Number]
      from the request and from the columns, and write the results back
      through [String].  A column rounds the number it is given to two
      decimals, half away from zero, and the statement fails when the
      rounded value has more than eight digits before the point; both are
      modelled, per column.  A JavaScript number is modelled by the rational
      number it stands for ([Q]): a request may carry an amount with any
      number of decimals.  The rounding of binary floating point itself is
      not modelled.  It does not reach the columns for amounts with at most
      two decimals that fit them, to which the general theorems about
      amounts are restricted, nor for the eighths used in the
      counterexamples, on which the arithmetic of the handlers is exact.
      [NaN], infinities and malformed numerals are not modelled.
    - Keys and other integers are in [Z]; statuses, dates and times are the
      strings the code stores; [shiftIds], which the code keeps as JSON
      text, is the list it denotes.
    - A request body has the fields its handler reads, already parsed.
      Columns the handler does not set take the defaults of the schema
      ([status] "active", [isActive] true).
    - The audit columns ([createdOn], [createdBy], [modifiedOn],
      [modifiedBy], [description], ...) take part in no decision and are
      left out.
    - A statement that the driver rejects makes the storage method throw;
      the handlers catch every exception and answer 500.  No handler runs in
      a transaction, so the writes made before the exception stay.  Storage
      methods are therefore computations in a state-and-error monad.
    - One request is handled at a time.
    - The server has no route and no storage method that closes a
      subscription; [PATCH /api/subscriptions/:id/close], which the client
      calls, is not served. *)

From Stdlib Require Import ZArith String Ascii List Lia QArith Qround Lqa.
From stdpp Require Import base option list gmap strings sorting pretty.

Close Scope Q_scope.
Local Open Scope string_scope.
Local Open Scope Z_scope.

(** ** Rows *)

Record Library := mkLibrary {
  lib_name : string;
  lib_totalSeats : Z;
  lib_isActive : bool
}.

Record Shift := mkShift {
  shift_libraryId : Z;
  shift_name : string;
  shift_startTime : string;
  shift_endTime : string;
  shift_totalHours : Z;
  shift_isActive : bool
}.

Record Seat := mkSeat {
  seat_libraryId : Z;
  seat_seatNumber : Z;
  seat_status : string;
  seat_isActive : bool
}.

Record SeatAllocation := mkSeatAllocation {
  alloc_seatId : Z;
  alloc_shiftId : Z;
  alloc_studentId : option Z;
  alloc_status : string;
  alloc_gender : option string;
  alloc_isActive : bool
}.

Record Student := mkStudent {
  stu_libraryId : Z;
  stu_studentId : string;
  stu_studentName : string;
  stu_mobileNo : string;
  stu_gender : string;
  stu_status : string;
  stu_admissionDate : string;
  stu_isActive : bool
}.

Record Subscription := mkSubscription {
  sub_libraryId : Z;
  sub_studentId : Z;
  sub_seatId : Z;
  sub_planName : string;
  sub_shiftIds : list Z;
  sub_totalHours : Z;
  sub_shiftStart : string;
  sub_shiftEnd : string;
  sub_planStartDate : string;
  sub_planEndDate : string;
  sub_subscriptionCost : Z;
  sub_paidAmount : Z;
  sub_discount : Z;
  sub_pendingAmount : Z;
  sub_status : string;
  sub_isActive : bool
}.

Record Payment := mkPayment {
  pay_libraryId : Z;
  pay_studentId : Z;
  pay_subscriptionId : Z;
  pay_amount : Z;
  pay_paymentDate : string;
  pay_paymentMode : string;
  pay_status : string;
  pay_isActive : bool
}.

(** The values of an insert ([InsertSubscription], [InsertPayment]): as
    the rows, with the amounts as the numbers that the caller passes, not
    yet rounded by the columns. *)
Record InsertSubscription := mkInsertSubscription {
  isub_libraryId : Z;
  isub_studentId : Z;
  isub_seatId : Z;
  isub_planName : string;
  isub_shiftIds : list Z;
  isub_totalHours : Z;
  isub_shiftStart : string;
  isub_shiftEnd : string;
  isub_planStartDate : string;
  isub_planEndDate : string;
  isub_subscriptionCost : Q;
  isub_paidAmount : Q;
  isub_discount : Q;
  isub_pendingAmount : Q;
  isub_status : string;
  isub_isActive : bool
}.

Record InsertPayment := mkInsertPayment {
  ipay_libraryId : Z;
  ipay_studentId : Z;
  ipay_subscriptionId : Z;
  ipay_amount : Q;
  ipay_paymentDate : string;
  ipay_paymentMode : string;
  ipay_status : string;
  ipay_isActive : bool
}.

(** ** Tables and the store *)

Record Table (A : Type) := mkTable {
  rows : gmap Z A;
  next_id : Z
}.
Arguments mkTable {A} _ _.
Arguments rows {A} _.
Arguments next_id {A} _.

Definition empty_table {A} : Table A := mkTable ∅ 1.

Record Store := mkStore {
  libraries : Table Library;
  shifts : Table Shift;
  seats : Table Seat;
  seatAllocations : Table SeatAllocation;
  students : Table Student;
  subscriptions : Table Subscription;
  payments : Table Payment
}.

Definition empty_store : Store :=
  mkStore empty_table empty_table empty_table empty_table
          empty_table empty_table empty_table.

Definition set_libraries (t : Table Library) (st : Store) : Store :=
  mkStore t (shifts st) (seats st) (seatAllocations st) (students st)
          (subscriptions st) (payments st).
Definition set_shifts (t : Table Shift) (st : Store) : Store :=
  mkStore (libraries st) t (seats st) (seatAllocations st) (students st)
          (subscriptions st) (payments st).
Definition set_seats (t : Table Seat) (st : Store) : Store :=
  mkStore (libraries st) (shifts st) t (seatAllocations st) (students st)
          (subscriptions st) (payments st).
Definition set_seatAllocations (t : Table SeatAllocation) (st : Store) : Store :=
  mkStore (libraries st) (shifts st) (seats st) t (students st)
          (subscriptions st) (payments st).
Definition set_students (t : Table Student) (st : Store) : Store :=
  mkStore (libraries st) (shifts st) (seats st) (seatAllocations st) t
          (subscriptions st) (payments st).
Definition set_subscriptions (t : Table Subscription) (st : Store) : Store :=
  mkStore (libraries st) (shifts st) (seats st) (seatAllocations st)
          (students st) t (payments st).
Definition set_payments (t : Table Payment) (st : Store) : Store :=
  mkStore (libraries st) (shifts st) (seats st) (seatAllocations st)
          (students st) (subscriptions st) t.

(** ** Statements *)

Inductive DbError :=
  | ForeignKeyViolation (column : string)
  | UniqueViolation (column : string)
  | NumericOverflow (column : string).

Inductive result (A : Type) :=
  | Ok (a : A)
  | Err (e : DbError).
Arguments Ok {A} _.
Arguments Err {A} _.

(** [INSERT ... RETURNING]: the sequence advances, then the constraints
    [check] and the primary key are tested. *)
Definition insert_row {A} (check : option DbError) (r : A) (t : Table A)
  : Table A * result (Z * A) :=
  let id := next_id t in
  match check with
  | Some e => (mkTable (rows t) (id + 1), Err e)
  | None =>
      match rows t !! id with
      | Some _ => (mkTable (rows t) (id + 1), Err (UniqueViolation "id"))
      | None => (mkTable (<[id := r]> (rows t)) (id + 1), Ok (id, r))
      end
  end.

(** [UPDATE ... SET ... WHERE]: [upd] is applied to the rows [cond] selects. *)
Definition update_where {A} (cond : Z → A → bool) (upd : A → A) (t : Table A)
  : Table A :=
  mkTable (map_imap (λ k r, Some (if cond k r then upd r else r)) (rows t))
          (next_id t).

(** [SELECT ... WHERE]: the rows [cond] selects, with their keys, in the
    order the table yields them. *)
Definition select_where {A} (cond : Z → A → bool) (t : Table A) : list (Z * A) :=
  filter (λ kr, cond kr.1 kr.2 = true) (map_to_list (rows t)).

(** A foreign key: the referenced row must exist. *)
Definition references {A} (column : string) (t : Table A) (k : Z)
  : option DbError :=
  match rows t !! k with
  | Some _ => None
  | None => Some (ForeignKeyViolation column)
  end.

Definition first_error (a b : option DbError) : option DbError :=
  match a with Some e => Some e | None => b end.

(** ** The storage monad *)

Definition M (A : Type) : Type := Store → Store * result A.

Definition ret {A} (a : A) : M A := λ st, (st, Ok a).

Definition bind {A B} (m : M A) (k : A → M B) : M B :=
  λ st, match m st with
        | (st', Ok a) => k a st'
        | (st', Err e) => (st', Err e)
        end.

Notation "'let*' x ':=' m 'in' k" := (bind m (λ x, k))
  (at level 10, x pattern, m at level 100, k at level 200).

Definition read {A} (f : Store → A) : M A := λ st, (st, Ok (f st)).
Definition write (f : Store → Store) : M unit := λ st, (f st, Ok tt).
Definition throw {A} (e : DbError) : M A := λ st, (st, Err e).

Definition insert_into {A} (get : Store → Table A)
    (set : Table A → Store → Store) (check : Store → option DbError) (r : A)
  : M (Z * A) :=
  λ st, let '(t, res) := insert_row (check st) r (get st) in (set t st, res).

(** ** Numbers *)

(** [Number(s)] of the text [s] of a column value. *)
Definition of_column (h : Z) : Q := h # 100.

(** The hundredths that a [decimal(10,2)] column makes of a number: the
    nearest, and of two nearest the one away from zero. *)
Definition round_half_away (q : Q) : Z :=
  if Qle_bool 0 q then Qfloor (q * 100 + (1 # 2))%Q
  else - Qfloor (- q * 100 + (1 # 2))%Q.

(** Ten digits, two of them after the point. *)
Definition fits (h : Z) : bool := bool_decide (Z.abs h < 10000000000).

(** The error of a statement that gives [q] to [column]. *)
Definition numeric (column : string) (q : Q) : option DbError :=
  if fits (round_half_away q) then None else Some (NumericOverflow column).

(** [Math.max(0, q)] *)
Definition max0 (q : Q) : Q := if Qle_bool q 0 then 0%Q else q.

#[global] Instance Qlt_dec (x y : Q) : Decision (x < y)%Q.
Proof. unfold Qlt. apply _. Defined.

(** ** JavaScript helpers *)

(** [String.prototype.padStart(n, c)] with a one-character filler. *)
Fixpoint replicate_string (n : nat) (c : ascii) : string :=
  match n with
  | O => EmptyString
  | S n' => String c (replicate_string n' c)
  end.

Definition padStart (n : nat) (c : ascii) (s : string) : string :=
  replicate_string (n - String.length s) c +:+ s.

(** [x || d] on strings: the empty string is falsy. *)
Definition or_else (x : option string) (d : string) : string :=
  match x with
  | Some s => if bool_decide (s = "") then d else s
  | None => d
  end.

(** Orderings used by [ORDER BY] and by [Array.prototype.sort].  Strings
    are compared by their character codes, which is how [localeCompare]
    and the column collation order times written as HH:MM. *)
Definition le_on_string {A} (f : A → string) (a b : A) : Prop :=
  String.leb (f a) (f b) = true.
Definition le_on_Z {A} (f : A → Z) (a b : A) : Prop := f a ≤ f b.

#[global] Instance le_on_string_dec {A} (f : A → string) :
  RelDecision (le_on_string f).
Proof. intros a b. unfold le_on_string. apply _. Defined.

#[global] Instance le_on_Z_dec {A} (f : A → Z) : RelDecision (le_on_Z f).
Proof. intros a b. unfold le_on_Z. apply _. Defined.

Definition sort_by_asc {A} (f : A → string) (l : list A) : list A :=
  merge_sort (le_on_string f) l.
Definition sort_by_desc {A} (f : A → string) (l : list A) : list A :=
  merge_sort (flip (le_on_string f)) l.

(** ** The storage layer ([DatabaseStorage]) *)

(** A row as [returning()] and [select()] deliver it: the key and the
    other columns. *)
Definition Row (A : Type) : Type := (Z * A)%type.

(** *** Libraries, shifts, seats *)

Definition libraries_constraints (library : Library) (st : Store)
  : option DbError := None.

Definition createLibrary (library : Library) : M (Row Library) :=
  insert_into libraries set_libraries (libraries_constraints library) library.

Definition getShiftsByLibrary (libraryId : Z) : M (list (Row Shift)) :=
  read (λ st,
    merge_sort (le_on_string (λ s : Row Shift, shift_startTime s.2))
      (select_where
         (λ _ s, bool_decide (shift_libraryId s = libraryId) && shift_isActive s)
         (shifts st))).

Definition shifts_constraints (shift : Shift) (st : Store) : option DbError :=
  references "library_id" (libraries st) (shift_libraryId shift).

Definition createShift (shift : Shift) : M (Row Shift) :=
  insert_into shifts set_shifts (shifts_constraints shift) shift.

Definition getSeatsByLibrary (libraryId : Z) : M (list (Row Seat)) :=
  read (λ st,
    merge_sort (le_on_Z (λ s : Row Seat, seat_seatNumber s.2))
      (select_where
         (λ _ s, bool_decide (seat_libraryId s = libraryId) && seat_isActive s)
         (seats st))).

Definition seats_constraints (seat : Seat) (st : Store) : option DbError :=
  references "library_id" (libraries st) (seat_libraryId seat).

Definition createSeat (seat : Seat) : M (Row Seat) :=
  insert_into seats set_seats (seats_constraints seat) seat.

(** The one caller passes a non-empty [shiftIds]; what [inArray] does
    with an empty list is not relied upon. *)
Definition getVacantSeatsForShifts (libraryId : Z) (shiftIds : list Z)
  : M (list (Row Seat)) :=
  let* allSeats := getSeatsByLibrary libraryId in
  let* occupiedAllocations :=
    read (λ st,
      select_where
        (λ _ a, bool_decide (alloc_shiftId a ∈ shiftIds)
                && bool_decide (alloc_status a = "occupied")
                && alloc_isActive a)
        (seatAllocations st)) in
  let occupiedSeatIds : gset Z :=
    list_to_set ((λ a : Row SeatAllocation, alloc_seatId a.2)
                   <$> occupiedAllocations) in
  ret (filter (λ s : Row Seat,
                 (s.1 ∉ occupiedSeatIds) ∧ (seat_status s.2 = "vacant"))
              allSeats).

Definition seatAllocations_constraints (data : SeatAllocation) (st : Store)
  : option DbError :=
  first_error (references "seat_id" (seats st) (alloc_seatId data))
 (first_error (references "shift_id" (shifts st) (alloc_shiftId data))
    match alloc_studentId data with
    | Some s => references "student_id" (students st) s
    | None => None
    end).

Definition createSeatAllocation (data : SeatAllocation)
  : M (Row SeatAllocation) :=
  insert_into seatAllocations set_seatAllocations
    (seatAllocations_constraints data) data.

Definition alloc_deactivate (a : SeatAllocation) : SeatAllocation :=
  mkSeatAllocation (alloc_seatId a) (alloc_shiftId a) (alloc_studentId a)
                   (alloc_status a) (alloc_gender a) false.

Definition deleteSeatAllocationsForStudent (studentId : Z) : M unit :=
  write (λ st,
    set_seatAllocations
      (update_where
         (λ _ a, bool_decide (alloc_studentId a = Some studentId))
         alloc_deactivate (seatAllocations st))
      st).

(** *** Students *)

Definition students_constraints (student : Student) (st : Store)
  : option DbError :=
  first_error (references "library_id" (libraries st) (stu_libraryId student))
    match select_where
            (λ _ s, bool_decide (stu_studentId s = stu_studentId student))
            (students st)
    with
    | [] => None
    | _ :: _ => Some (UniqueViolation "student_id")
    end.

Definition createStudent (student : Student) : M (Row Student) :=
  insert_into students set_students (students_constraints student) student.

(** [COALESCE(MAX(id), 0)] over the whole [students] table. *)
Definition max_id {A} (t : Table A) : Z :=
  match map_to_list (rows t) with
  | [] => 0
  | kr :: l => foldr (λ x m, Z.max x.1 m) kr.1 l
  end.

(** [libraryId] is a parameter of the method and is not used by it. *)
Definition generateStudentId (libraryId : Z) : M string :=
  let* maxId := read (λ st, max_id (students st)) in
  let nextId := maxId + 1 in
  ret ("STD" +:+ padStart 6 "0" (pretty nextId)).

(** *** Subscriptions *)

Definition getActiveSubscriptionByStudent (studentId : Z)
  : M (option (Row Subscription)) :=
  read (λ st,
    head (select_where
            (λ _ s, bool_decide (sub_studentId s = studentId)
                    && bool_decide (sub_status s = "active")
                    && sub_isActive s)
            (subscriptions st))).

Definition subscriptions_constraints (sub : Subscription) (st : Store)
  : option DbError :=
  first_error (references "library_id" (libraries st) (sub_libraryId sub))
 (first_error (references "student_id" (students st) (sub_studentId sub))
              (references "seat_id" (seats st) (sub_seatId sub))).

(** The row that the columns make of the values of an insert, and the
    error when one of the amounts does not fit its column. *)
Definition subscription_row (sub : InsertSubscription) : Subscription :=
  mkSubscription (isub_libraryId sub) (isub_studentId sub) (isub_seatId sub)
    (isub_planName sub) (isub_shiftIds sub) (isub_totalHours sub)
    (isub_shiftStart sub) (isub_shiftEnd sub) (isub_planStartDate sub)
    (isub_planEndDate sub)
    (round_half_away (isub_subscriptionCost sub))
    (round_half_away (isub_paidAmount sub))
    (round_half_away (isub_discount sub))
    (round_half_away (isub_pendingAmount sub))
    (isub_status sub) (isub_isActive sub).

Definition subscription_overflow (sub : InsertSubscription) : option DbError :=
  first_error (numeric "subscription_cost" (isub_subscriptionCost sub))
 (first_error (numeric "paid_amount" (isub_paidAmount sub))
 (first_error (numeric "discount" (isub_discount sub))
              (numeric "pending_amount" (isub_pendingAmount sub)))).

Definition createSubscription (sub : InsertSubscription)
  : M (Row Subscription) :=
  insert_into subscriptions set_subscriptions
    (λ st, first_error (subscription_overflow sub)
                       (subscriptions_constraints (subscription_row sub) st))
    (subscription_row sub).

Definition sub_set_status (status : string) (s : Subscription) : Subscription :=
  mkSubscription (sub_libraryId s) (sub_studentId s) (sub_seatId s)
    (sub_planName s) (sub_shiftIds s) (sub_totalHours s) (sub_shiftStart s)
    (sub_shiftEnd s) (sub_planStartDate s) (sub_planEndDate s)
    (sub_subscriptionCost s) (sub_paidAmount s) (sub_discount s)
    (sub_pendingAmount s) status (sub_isActive s).

Definition sub_set_amounts (paid pending : Z) (s : Subscription) : Subscription :=
  mkSubscription (sub_libraryId s) (sub_studentId s) (sub_seatId s)
    (sub_planName s) (sub_shiftIds s) (sub_totalHours s) (sub_shiftStart s)
    (sub_shiftEnd s) (sub_planStartDate s) (sub_planEndDate s)
    (sub_subscriptionCost s) paid (sub_discount s)
    pending (sub_status s) (sub_isActive s).

(** [UPDATE subscriptions SET status = 'cancelled' WHERE id = $1] *)
Definition cancelSubscription (id : Z) : M unit :=
  write (λ st,
    set_subscriptions
      (update_where (λ k _, bool_decide (k = id))
                    (sub_set_status "cancelled") (subscriptions st))
      st).

(** Marks the student's rows with status "active" as "expired", then
    inserts [data]. *)
Definition renewSubscription (studentId : Z) (data : InsertSubscription)
  : M (Row Subscription) :=
  let* _ := write (λ st,
    set_subscriptions
      (update_where
         (λ _ s, bool_decide (sub_studentId s = studentId)
                 && bool_decide (sub_status s = "active"))
         (sub_set_status "expired") (subscriptions st))
      st) in
  createSubscription data.

(** *** Payments *)

Definition payments_constraints (payment : Payment) (st : Store)
  : option DbError :=
  first_error (references "library_id" (libraries st) (pay_libraryId payment))
 (first_error (references "student_id" (students st) (pay_studentId payment))
              (references "subscription_id" (subscriptions st)
                          (pay_subscriptionId payment))).

Definition payment_row (payment : InsertPayment) : Payment :=
  mkPayment (ipay_libraryId payment) (ipay_studentId payment)
    (ipay_subscriptionId payment) (round_half_away (ipay_amount payment))
    (ipay_paymentDate payment) (ipay_paymentMode payment)
    (ipay_status payment) (ipay_isActive payment).

(** The numbers that [createPayment] computes for the subscription
    [sub0].  The amount of the payment enters as it was passed, not as the
    column [amount] has rounded it. *)
Definition newPaid (payment : InsertPayment) (sub0 : Subscription) : Q :=
  (of_column (sub_paidAmount sub0) + ipay_amount payment)%Q.

Definition newPending (payment : InsertPayment) (sub0 : Subscription) : Q :=
  (of_column (sub_subscriptionCost sub0) - newPaid payment sub0
   - of_column (sub_discount sub0))%Q.

(** Inserts the payment, then adds its amount to the paid amount of the
    subscription it names and recomputes the pending amount.  The
    [UPDATE] fails, after the [INSERT], when a new amount does not fit its
    column. *)
Definition createPayment (payment : InsertPayment) : M (Row Payment) :=
  let* created :=
    insert_into payments set_payments
      (λ st, first_error (numeric "amount" (ipay_amount payment))
                         (payments_constraints (payment_row payment) st))
      (payment_row payment) in
  let* _ :=
    if bool_decide (ipay_subscriptionId payment ≠ 0) then
      let* sub := read (λ st,
        select_where (λ k _, bool_decide (k = ipay_subscriptionId payment))
                     (subscriptions st)) in
      match sub with
      | sub0 :: _ =>
          match first_error
                  (numeric "paid_amount" (newPaid payment sub0.2))
                  (numeric "pending_amount"
                           (max0 (newPending payment sub0.2)))
          with
          | Some e => throw e
          | None =>
              write (λ st,
                set_subscriptions
                  (update_where
                     (λ k _, bool_decide (k = ipay_subscriptionId payment))
                     (sub_set_amounts
                        (round_half_away (newPaid payment sub0.2))
                        (round_half_away
                           (max0 (newPending payment sub0.2))))
                     (subscriptions st))
                  st)
          end
      | [] => ret tt
      end
    else ret tt in
  ret created.

(** *** Onboarding *)

(** [onboardLibrary], up to the creation of the admin user ([users] is
    outside this model; it is the last statement and touches no table
    modelled here). *)
Definition shiftData : list (string * string * string * Z) :=
  [ ("Morning", "06:00", "12:00", 6);
    ("Afternoon", "12:00", "18:00", 6);
    ("Evening", "18:00", "00:00", 6);
    ("Night", "00:00", "06:00", 6) ].

Fixpoint for_each {A} (l : list A) (body : A → M unit) : M unit :=
  match l with
  | [] => ret tt
  | x :: l' => let* _ := body x in for_each l' body
  end.

Definition onboardLibrary (name : string) (totalSeats : Z) : M (Row Library) :=
  let* library := createLibrary (mkLibrary name totalSeats true) in
  let* _ := for_each shiftData (λ s,
    let '(n, startTime, endTime, totalHours) := s in
    let* _ := createShift
      (mkShift library.1 n startTime endTime totalHours true) in
    ret tt) in
  let* _ := for_each (seqZ 1 totalSeats) (λ i,
    let* _ := createSeat (mkSeat library.1 i "vacant" true) in
    ret tt) in
  ret library.

(** ** The request handlers ([registerRoutes]) *)

Inductive Response (A : Type) :=
  | Json (body : A)
  | Failure (status : Z) (message : string).
Arguments Json {A} _.
Arguments Failure {A} _ _.

(** [try { ... } catch (error) { res.status(500).json({ message }) }] *)
Definition try_catch {A} (m : M (Response A)) (message : string)
  : Store → Store * Response A :=
  λ st, match m st with
        | (st', Ok r) => (st', r)
        | (st', Err _) => (st', Failure 500 message)
        end.

Record StudentData := mkStudentData {
  sd_studentName : string;
  sd_mobileNo : string;
  sd_gender : string;
  sd_admissionDate : string
}.

Record RegistrationBody := mkRegistrationBody {
  reg_libraryId : Z;
  reg_shiftIds : list Z;
  reg_seatId : Z;
  reg_planStartDate : string;
  reg_planEndDate : string;
  reg_subscriptionCost : Q;
  reg_paidAmount : Q;
  reg_discount : Q;
  reg_studentData : StudentData
}.

Record RenewalBody := mkRenewalBody {
  ren_libraryId : Z;
  ren_planStartDate : string;
  ren_planEndDate : string;
  ren_subscriptionCost : Q;
  ren_paidAmount : Q;
  ren_discount : Q
}.

(** [GET /api/seats/vacant/:libraryId?shiftIds=[...]] *)
Definition getSeatsVacant (libraryId : Z) (shiftIds : list Z)
  : Store → Store * Response (list (Z * Z)) :=
  try_catch
    (if bool_decide (libraryId = 0) || bool_decide (length shiftIds = 0%nat)
     then ret (Json [])
     else
       let* seats := getVacantSeatsForShifts libraryId shiftIds in
       ret (Json (map (λ s : Row Seat, (s.1, seat_seatNumber s.2)) seats)))
    "Failed to fetch vacant seats".

(** [POST /api/students] *)

(** The student row of a registration: the fields of the request, the
    generated code, and the defaults of the schema. *)
Definition registration_student (body : RegistrationBody) (studentId : string)
  : Student :=
  let studentData := reg_studentData body in
  mkStudent (reg_libraryId body) studentId (sd_studentName studentData)
    (sd_mobileNo studentData) (sd_gender studentData) "active"
    (sd_admissionDate studentData) true.

(** The subscription row of a registration, computed from the request,
    the key of the new student and the shifts of the library. *)
Definition registration_row (body : RegistrationBody) (student : Z)
    (allShifts : list (Row Shift)) : InsertSubscription :=
  let shiftIds := reg_shiftIds body in
  let selectedShifts :=
    filter (λ s : Row Shift, s.1 ∈ shiftIds) allShifts in
  let totalHours :=
    foldl (λ sum (s : Row Shift), sum + shift_totalHours s.2) 0
          selectedShifts in
  let byStart :=
    sort_by_asc (λ s : Row Shift, shift_startTime s.2) selectedShifts in
  let shiftStart :=
    or_else ((λ s : Row Shift, shift_startTime s.2) <$> head byStart)
            "06:00" in
  let byEnd :=
    sort_by_desc (λ s : Row Shift, shift_endTime s.2) byStart in
  let shiftEnd :=
    or_else ((λ s : Row Shift, shift_endTime s.2) <$> head byEnd)
            "12:00" in
  let cost := reg_subscriptionCost body in
  let paid := reg_paidAmount body in
  let disc := reg_discount body in
  let pending := max0 (cost - paid - disc)%Q in
  mkInsertSubscription (reg_libraryId body) student (reg_seatId body)
    (pretty totalHours +:+ "h Plan") shiftIds totalHours
    shiftStart shiftEnd (reg_planStartDate body) (reg_planEndDate body)
    cost paid disc pending "active" true.

Definition postStudents (body : RegistrationBody)
  : Store → Store * Response (Row Student * Row Subscription) :=
  try_catch
    (let libraryId := reg_libraryId body in
     let paid := reg_paidAmount body in
     let* studentId := generateStudentId libraryId in
     let* student := createStudent (registration_student body studentId) in
     let* allShifts := getShiftsByLibrary libraryId in
     let* subscription :=
       createSubscription (registration_row body student.1 allShifts) in
     let* _ :=
       if bool_decide (0 < paid)%Q then
         let* _ := createPayment
           (mkInsertPayment libraryId student.1 subscription.1 paid
              (reg_planStartDate body) "cash" "completed" true) in
         ret tt
       else ret tt in
     ret (Json (student, subscription)))
    "Failed to register student".

(** [POST /api/subscriptions/renew/:studentId] *)

(** The row the handler passes to [renewSubscription]: seat, plan and
    shifts of the active subscription, dates and amounts of the request. *)
Definition renewal_row (studentId : Z) (body : RenewalBody)
    (activeSub : Subscription) : InsertSubscription :=
  let cost := ren_subscriptionCost body in
  let paid := ren_paidAmount body in
  let disc := ren_discount body in
  let pending := max0 (cost - paid - disc)%Q in
  mkInsertSubscription (ren_libraryId body) studentId (sub_seatId activeSub)
    (sub_planName activeSub) (sub_shiftIds activeSub)
    (sub_totalHours activeSub) (sub_shiftStart activeSub)
    (sub_shiftEnd activeSub) (ren_planStartDate body)
    (ren_planEndDate body) cost paid disc pending "active" true.

Definition postSubscriptionsRenew (studentId : Z) (body : RenewalBody)
  : Store → Store * Response (Row Subscription) :=
  try_catch
    (let libraryId := ren_libraryId body in
     let* activeSub := getActiveSubscriptionByStudent studentId in
     match activeSub with
     | None => ret (Failure 404 "No active subscription found")
     | Some activeSub =>
         let paid := ren_paidAmount body in
         let* subscription :=
           renewSubscription studentId (renewal_row studentId body activeSub.2) in
         let* _ :=
           if bool_decide (0 < paid)%Q then
             let* _ := createPayment
               (mkInsertPayment libraryId studentId subscription.1 paid
                  (ren_planStartDate body) "cash" "completed" true) in
             ret tt
           else ret tt in
         ret (Json subscription)
     end)
    "Failed to renew subscription".

(** [PATCH /api/subscriptions/:id/cancel] *)
Definition patchSubscriptionsCancel (id : Z) : Store → Store * Response string :=
  try_catch
    (let* _ := cancelSubscription id in
     ret (Json "Subscription cancelled"))
    "Failed to cancel subscription".

(** [POST /api/payments] *)
Definition postPayments (body : InsertPayment)
  : Store → Store * Response (Row Payment) :=
  try_catch
    (let* payment := createPayment body in
     ret (Json payment))
    "Failed to create payment".

(** ** The ledger as a transition system *)

(** The calls that change the tables: the four ledger requests, the
    onboarding of a library, and the storage methods for seats and seat
    allocations, which [IStorage] exports and no request handler calls. *)
Inductive Request :=
  | Register (body : RegistrationBody)
  | Pay (body : InsertPayment)
  | Renew (studentId : Z) (body : RenewalBody)
  | Cancel (id : Z)
  | Onboard (name : string) (totalSeats : Z)
  | AddSeat (seat : Seat)
  | Allocate (data : SeatAllocation)
  | Release (studentId : Z).

Definition step (r : Request) (st : Store) : Store :=
  match r with
  | Register body => (postStudents body st).1
  | Pay body => (postPayments body st).1
  | Renew studentId body => (postSubscriptionsRenew studentId body st).1
  | Cancel id => (patchSubscriptionsCancel id st).1
  | Onboard name totalSeats => (onboardLibrary name totalSeats st).1
  | AddSeat seat => (createSeat seat st).1
  | Allocate data => (createSeatAllocation data st).1
  | Release studentId => (deleteSeatAllocationsForStudent studentId st).1
  end.

Definition run (rs : list Request) (st : Store) : Store :=
  foldl (λ s r, step r s) st rs.

Inductive reachable : Store → Prop :=
  | reachable_empty : reachable empty_store
  | reachable_step st r : reachable st → reachable (step r st).

(** ** Properties of stores *)

(** The pending amount of a subscription row agrees with its other money
    columns. *)
Definition pending_ok (s : Subscription) : Prop :=
  sub_pendingAmount s
  = Z.max 0 (sub_subscriptionCost s - sub_paidAmount s - sub_discount s).

Definition ledger_ok (st : Store) : Prop :=
  map_Forall (λ _ s, pending_ok s) (rows (subscriptions st)).

(** Keys come from the sequence: they are positive and below its next
    value. *)
Definition table_ok {A} (t : Table A) : Prop :=
  0 < next_id t ∧ map_Forall (λ k _, 0 < k < next_id t) (rows t).

(** The foreign key [f] of table [src] resolves in table [dst]. *)
Definition fk {A B} (f : A → option Z) (src : Table A) (dst : Table B) : Prop :=
  map_Forall (λ _ r, ∀ k, f r = Some k → is_Some (rows dst !! k)) (rows src).

Record consistent (st : Store) : Prop := mkConsistent {
  ok_libraries : table_ok (libraries st);
  ok_shifts : table_ok (shifts st);
  ok_seats : table_ok (seats st);
  ok_seatAllocations : table_ok (seatAllocations st);
  ok_students : table_ok (students st);
  ok_subscriptions : table_ok (subscriptions st);
  ok_payments : table_ok (payments st);
  fk_shift_library :
    fk (λ s, Some (shift_libraryId s)) (shifts st) (libraries st);
  fk_seat_library :
    fk (λ s, Some (seat_libraryId s)) (seats st) (libraries st);
  fk_alloc_seat :
    fk (λ a, Some (alloc_seatId a)) (seatAllocations st) (seats st);
  fk_alloc_shift :
    fk (λ a, Some (alloc_shiftId a)) (seatAllocations st) (shifts st);
  fk_alloc_student :
    fk alloc_studentId (seatAllocations st) (students st);
  fk_student_library :
    fk (λ s, Some (stu_libraryId s)) (students st) (libraries st);
  fk_sub_library :
    fk (λ s, Some (sub_libraryId s)) (subscriptions st) (libraries st);
  fk_sub_student :
    fk (λ s, Some (sub_studentId s)) (subscriptions st) (students st);
  fk_sub_seat :
    fk (λ s, Some (sub_seatId s)) (subscriptions st) (seats st);
  fk_pay_library :
    fk (λ p, Some (pay_libraryId p)) (payments st) (libraries st);
  fk_pay_student :
    fk (λ p, Some (pay_studentId p)) (payments st) (students st);
  fk_pay_subscription :
    fk (λ p, Some (pay_subscriptionId p)) (payments st) (subscriptions st)
}.

(** Row [k] is an active subscription of the student, in the sense of
    [getActiveSubscriptionByStudent]. *)
Definition active_subscription (st : Store) (studentId k : Z)
    (s : Subscription) : Prop :=
  rows (subscriptions st) !! k = Some s
  ∧ sub_studentId s = studentId
  ∧ sub_status s = "active"
  ∧ sub_isActive s = true.

(** The terminal states of the specification's glossary. *)
Definition terminal (status : string) : Prop :=
  status ∈ ["cancelled"; "closed"; "renewed"; "expired"].

(** Seat [seatId] has an active allocation with status occupied in the
    shift. *)
Definition occupied (st : Store) (seatId shiftId : Z) : Prop :=
  ∃ k a, rows (seatAllocations st) !! k = Some a
         ∧ alloc_seatId a = seatId
         ∧ alloc_shiftId a = shiftId
         ∧ alloc_status a = "occupied"
         ∧ alloc_isActive a = true.

(** Every state a computation can end in is related to the state it
    started from. *)
Definition steps_in {X} (R : relation Store) (m : Store → Store * X) : Prop :=
  ∀ st, R st (m st).1.

(** Rows of [subscriptions] stay, and a row that is not active does not
    become active. *)
Definition no_reactivation (st st' : Store) : Prop :=
  ∀ k s, rows (subscriptions st) !! k = Some s →
    ∃ s', rows (subscriptions st') !! k = Some s'
          ∧ (sub_status s ≠ "active" → sub_status s' ≠ "active").

Definition keeps (P : Store → Prop) (st st' : Store) : Prop := P st → P st'.

Definition same_allocations (st st' : Store) : Prop :=
  seatAllocations st' = seatAllocations st.

(** The error of the [UPDATE] of [createPayment], if it is reached and
    fails. *)
Definition pay_overflow (payment : InsertPayment) (t : Table Subscription)
  : option DbError :=
  if bool_decide (ipay_subscriptionId payment ≠ 0) then
    match rows t !! ipay_subscriptionId payment with
    | Some sub0 =>
        first_error (numeric "paid_amount" (newPaid payment sub0))
                    (numeric "pending_amount" (max0 (newPending payment sub0)))
    | None => None
    end
  else None.

(** What [createPayment] does to [subscriptions] once the payment row is
    in: the row the payment names gets the new paid and pending amounts,
    unless they do not fit. *)
Definition pay_into (payment : InsertPayment) (t : Table Subscription)
  : Table Subscription :=
  match pay_overflow payment t with
  | Some _ => t
  | None =>
      if bool_decide (ipay_subscriptionId payment ≠ 0) then
        match rows t !! ipay_subscriptionId payment with
        | Some sub0 =>
            update_where (λ k _, bool_decide (k = ipay_subscriptionId payment))
              (sub_set_amounts
                 (round_half_away (newPaid payment sub0))
                 (round_half_away (max0 (newPending payment sub0)))) t
        | None => t
        end
      else t
  end.

(** The amounts of a request that the general statements about amounts
    speak of: with at most two decimals. *)
Definition two_decimals (q : Q) : Prop := ∃ h : Z, (q == of_column h)%Q.

(** Amounts below ten million, in absolute value: no statement of a
    registration or of a renewal with such amounts exceeds a column. *)
Definition moderate (q : Q) : Prop := (-10000000 < q < 10000000)%Q.

(** The amounts of the request have at most two decimals. *)
Definition exact_request (r : Request) : Prop :=
  match r with
  | Register body =>
      two_decimals (reg_subscriptionCost body)
      ∧ two_decimals (reg_paidAmount body)
      ∧ two_decimals (reg_discount body)
  | Pay body => two_decimals (ipay_amount body)
  | Renew _ body =>
      two_decimals (ren_subscriptionCost body)
      ∧ two_decimals (ren_paidAmount body)
      ∧ two_decimals (ren_discount body)
  | _ => True
  end.

(** What the [UPDATE] of [renewSubscription] makes of a row. *)
Definition expired_for (studentId : Z) (s : Subscription) : Subscription :=
  if bool_decide (sub_studentId s = studentId)
     && bool_decide (sub_status s = "active")
  then sub_set_status "expired" s else s.

(** ** Scenarios *)

(** Library L1 of the specification's example: one seat, and the four
    shifts of the onboarding (Morning has id 1, Evening id 3). *)
Definition library_L1 : Store := step (Onboard "L1" 1) empty_store.

(** Student S registers for Morning on seat 1: cost 1000.00, paid 400.00,
    no discount. *)
Definition body_S : RegistrationBody :=
  mkRegistrationBody 1 [1] 1 "2024-01-01" "2024-01-31" 1000 400 0
    (mkStudentData "S" "9000000001" "male" "2024-01-01").

Definition after_S : Store := step (Register body_S) library_L1.

(** The subscription row of S as it is stored after the registration. *)
Definition subscription_S : Subscription :=
  mkSubscription 1 1 1 "6h Plan" [1] 6 "06:00" "12:00"
    "2024-01-01" "2024-01-31" 100000 80000 0 20000 "active" true.

(** Seat 1 is occupied by S in Morning. *)
Definition seat1_occupied : Store :=
  step (Allocate (mkSeatAllocation 1 1 (Some 1) "occupied" (Some "male") true))
       after_S.

(** Another student asks for Morning on seat 1. *)
Definition body_T : RegistrationBody :=
  mkRegistrationBody 1 [1] 1 "2024-02-01" "2024-02-29" 1000 1000 0
    (mkStudentData "T" "9000000002" "female" "2024-02-01").

(** S renews: subscription 1 is expired, subscription 2 is active. *)
Definition renewal_S : RenewalBody :=
  mkRenewalBody 1 "2024-02-01" "2024-02-29" 1000 0 0.

Definition after_renewal : Store := step (Renew 1 renewal_S) after_S.

(** A further payment of 100.00 on the subscription of S. *)
Definition payment_S : InsertPayment :=
  mkInsertPayment 1 1 1 100 "2024-01-15" "cash" "completed" true.

(** S and T are registered on seat 1 for Morning, and the active
    allocation of that seat and shift belongs to T. *)
Definition seat1_taken_by_T : Store :=
  run [Onboard "L1" 1; Register body_S; Register body_T;
       Allocate (mkSeatAllocation 1 1 (Some 2) "occupied" (Some "female") true)]
      empty_store.

(** S cancels instead: no subscription of S is active. *)
Definition after_cancel : Store := step (Cancel 1) after_S.

(** A second seat of L1 whose status column says occupied, with no
    allocation. *)
Definition with_seat2 : Store :=
  step (AddSeat (mkSeat 1 2 "occupied" true)) library_L1.

(** Two libraries; the only student belongs to the first. *)
Definition two_libraries : Store :=
  run [Onboard "L1" 1; Onboard "L2" 1; Register body_S] empty_store.

(** Student R registers for Morning on seat 1 of L1: cost 10.00, nothing
    paid, no discount. *)
Definition body_R : RegistrationBody :=
  mkRegistrationBody 1 [1] 1 "2024-01-01" "2024-01-31" 10 0 0
    (mkStudentData "R" "9000000004" "male" "2024-01-01").

Definition after_R : Store := step (Register body_R) library_L1.

Definition subscription_R : Subscription :=
  mkSubscription 1 1 1 "6h Plan" [1] 6 "06:00" "12:00"
    "2024-01-01" "2024-01-31" 1000 0 0 1000 "active" true.

(** A payment of 0.125 on the subscription of R, and one of 99999999.99. *)
Definition payment_eighth : InsertPayment :=
  mkInsertPayment 1 1 1 0.125 "2024-01-15" "cash" "completed" true.

Definition payment_huge : InsertPayment :=
  mkInsertPayment 1 1 1 99999999.99 "2024-01-16" "cash" "completed" true.

(** A renewal, for the student with key 1, that names a library that
    does not exist. *)
Definition renewal_elsewhere : RenewalBody :=
  mkRenewalBody 9 "2024-02-01" "2024-02-29" 1000 0 0.

(** ** Further storage methods and handlers *)

Definition getLibrary (id : Z) : M (option (Row Library)) :=
  read (λ st, head (select_where (λ k _, bool_decide (k = id)) (libraries st))).

Definition getSeatGrid (libraryId : Z)
  : M (list (Row Seat) * list (Row SeatAllocation)) :=
  let* librarySeats := getSeatsByLibrary libraryId in
  let seatIds := (λ s : Row Seat, s.1) <$> librarySeats in
  if bool_decide (length seatIds = 0%nat) then ret (librarySeats, [])
  else
    let* allocations :=
      read (λ st,
        select_where
          (λ _ a, bool_decide (alloc_seatId a ∈ seatIds) && alloc_isActive a)
          (seatAllocations st)) in
    ret (librarySeats, allocations).

(** [GET /api/seats/grid/:libraryId] *)

Record GridCell := mkGridCell {
  cell_seatId : Z;
  cell_seatNumber : Z;
  cell_status : string;
  cell_gender : option string;
  cell_shiftId : Z
}.

Record GridBody := mkGridBody {
  grid_totalSeats : Z;
  grid_shifts : list (Row Shift);
  grid_allocations : list GridCell
}.

(** [seats.find(s => s.id === id)] *)
Definition find_seat (seats : list (Row Seat)) (id : Z) : option (Row Seat) :=
  head (filter (λ s : Row Seat, s.1 = id) seats).

Definition getSeatsGrid (libraryId : Z) : Store → Store * Response GridBody :=
  try_catch
    (if bool_decide (libraryId = 0)
     then ret (Failure 400 "Library ID required")
     else
       let* library := getLibrary libraryId in
       let* shifts := getShiftsByLibrary libraryId in
       let* grid := getSeatGrid libraryId in
       let seats := grid.1 in
       let allocations := grid.2 in
       let allocationsWithDetails :=
         (λ a : Row SeatAllocation,
            let seat := find_seat seats (alloc_seatId a.2) in
            mkGridCell (alloc_seatId a.2)
              (from_option (λ s : Row Seat, seat_seatNumber s.2) 0 seat)
              (alloc_status a.2) (alloc_gender a.2) (alloc_shiftId a.2))
         <$> allocations in
       ret (Json (mkGridBody
                    (from_option (λ l : Row Library, lib_totalSeats l.2) 0 library)
                    shifts allocationsWithDetails)))
    "Failed to fetch seat grid".

(** [getDashboardStats] *)

Record DashboardStats := mkDashboardStats {
  stat_totalSeats : Z;
  stat_occupiedSeats : nat;
  stat_activeStudents : nat;
  stat_totalBoys : nat;
  stat_totalGirls : nat
}.

(** The rows of [seat_allocations INNER JOIN seats] with the seat in the
    library and the allocation's status "occupied". *)
Definition occupied_in_library (libraryId : Z) (st : Store)
  : list (Row SeatAllocation) :=
  select_where
    (λ _ a,
       match rows (seats st) !! alloc_seatId a with
       | Some s => bool_decide (seat_libraryId s = libraryId)
       | None => false
       end
       && bool_decide (alloc_status a = "occupied"))
    (seatAllocations st).

Definition getDashboardStats (libraryId : Z) : M DashboardStats :=
  let* library := getLibrary libraryId in
  let totalSeats :=
    from_option (λ l : Row Library, lib_totalSeats l.2) 0 library in
  let* activeStudentsList :=
    read (λ st,
      select_where
        (λ _ s, bool_decide (stu_libraryId s = libraryId)
                && bool_decide (stu_status s = "active")
                && stu_isActive s)
        (students st)) in
  let* occupiedSeats :=
    read (λ st,
      size (list_to_set
              ((λ a : Row SeatAllocation, alloc_seatId a.2)
               <$> occupied_in_library libraryId st) : gset Z)) in
  let totalBoys :=
    length (filter (λ s : Row Student, stu_gender s.2 = "male")
                   activeStudentsList) in
  let totalGirls :=
    length (filter (λ s : Row Student, stu_gender s.2 = "female")
                   activeStudentsList) in
  ret (mkDashboardStats totalSeats occupiedSeats (length activeStudentsList)
                        totalBoys totalGirls).

(** The code of the student with serial [n], as [generateStudentId]
    formats it. *)
Definition student_code (n : Z) : string :=
  "STD" +:+ padStart 6 "0" (pretty n).

(** Every student carries the code of a serial that is positive and at
    most the key of the row. *)
Definition codes_ok (st : Store) : Prop :=
  map_Forall
    (λ k s, ∃ n, 0 < n ≤ k ∧ stu_studentId s = student_code n)
    (rows (students st)).

Definition same_students (st st' : Store) : Prop :=
  students st' = students st.

(** Leading zeros removed. *)
Fixpoint strip_zeros (s : string) : string :=
  match s with
  | String "0" s' => strip_zeros s'
  | _ => s
  end.

(** No two student rows carry the same code. *)
Definition codes_unique (st : Store) : Prop :=
  ∀ k1 k2 s1 s2,
    rows (students st) !! k1 = Some s1 →
    rows (students st) !! k2 = Some s2 →
    stu_studentId s1 = stu_studentId s2 → k1 = k2.

(** What a registration that succeeds leaves behind: [st'] is [st] with
    one more student, one more subscription and, when the paid amount is
    positive, one more payment, whose amount [createPayment] has added to
    the paid amount of the new row once more. *)
Definition registered (st : Store) (body : RegistrationBody) (st' : Store)
  : Prop :=
  let ks := next_id (students st) in
  let kb := next_id (subscriptions st) in
  let kp := next_id (payments st) in
  let student :=
    registration_student body (student_code (max_id (students st) + 1)) in
  let paid := reg_paidAmount body in
  let payment :=
    mkInsertPayment (reg_libraryId body) ks kb paid (reg_planStartDate body)
                    "cash" "completed" true in
  ∃ allShifts,
    let subscription := subscription_row (registration_row body ks allShifts) in
    getShiftsByLibrary (reg_libraryId body) st = (st, Ok allShifts)
    ∧ postStudents body st = (st', Json ((ks, student), (kb, subscription)))
    ∧ rows (students st) !! ks = None
    ∧ rows (students st') = <[ks := student]> (rows (students st))
    ∧ rows (subscriptions st) !! kb = None
    ∧ (∀ j, j ≠ kb →
            rows (subscriptions st') !! j = rows (subscriptions st) !! j)
    ∧ (if bool_decide (0 < paid)%Q
       then
         rows (subscriptions st') !! kb
         = Some (sub_set_amounts
                   (round_half_away (newPaid payment subscription))
                   (round_half_away (max0 (newPending payment subscription)))
                   subscription)
         ∧ rows (payments st) !! kp = None
         ∧ rows (payments st') = <[kp := payment_row payment]> (rows (payments st))
       else
         rows (subscriptions st') !! kb = Some subscription
         ∧ rows (payments st') = rows (payments st))
    ∧ seatAllocations st' = seatAllocations st.

(** A registration for a seat that does not exist. *)
Definition body_no_seat : RegistrationBody :=
  mkRegistrationBody 1 [1] 7 "2024-03-01" "2024-03-31" 1000 0 0
    (mkStudentData "U" "9000000003" "male" "2024-03-01").

(** A registration in a library that does not exist. *)
Definition body_no_library : RegistrationBody :=
  mkRegistrationBody 9 [1] 1 "2024-03-01" "2024-03-31" 1000 0 0
    (mkStudentData "V" "9000000004" "male" "2024-03-01").

(** Times as the shifts of this application write them: HH:MM. *)
Definition is_digit (c : ascii) : bool :=
  (48 <=? N_of_ascii c)%N && (N_of_ascii c <=? 57)%N.

Definition is_time (s : string) : bool :=
  match s with
  | String h1 (String h2 (String c (String m1 (String m2 EmptyString)))) =>
      is_digit h1 && is_digit h2 && Ascii.eqb c ":" && is_digit m1
      && is_digit m2
  | _ => false
  end.


(** ** One active subscription per student *)

(** No two subscription rows of one student have status "active". *)
Definition unique_active (st : Store) : Prop :=
  ∀ k1 k2 s1 s2,
    rows (subscriptions st) !! k1 = Some s1 →
    rows (subscriptions st) !! k2 = Some s2 →
    sub_studentId s1 = sub_studentId s2 →
    sub_status s1 = "active" → sub_status s2 = "active" →
    k1 = k2.

Definition same_subscriptions (st st' : Store) : Prop :=
  subscriptions st' = subscriptions st.

(** The columns of a subscription that no payment changes. *)
Definition same_owner (s s' : Subscription) : Prop :=
  sub_studentId s' = sub_studentId s ∧ sub_status s' = sub_status s.

(** S renews with a request that names a library that does not exist. *)
Definition renewal_no_library : RenewalBody :=
  mkRenewalBody 9 "2024-02-01" "2024-02-29" 1000 500 0.

(** S renews and pays 500.00 of 1000.00. *)
Definition renewal_paid : RenewalBody :=
  mkRenewalBody 1 "2024-02-01" "2024-02-29" 1000 500 0.

(** A payment that names a subscription that does not exist. *)
Definition payment_no_subscription : InsertPayment :=
  mkInsertPayment 1 1 7 100 "2024-01-15" "cash" "completed" true.

(** ** Onboarding *)

(** [rs] inserted one after the other, each under the next value of the
    sequence. *)
Definition insert_all {A} (rs : list A) (t : Table A) : Table A :=
  foldl (λ t r, mkTable (<[next_id t := r]> (rows t)) (next_id t + 1)) t rs.

(** [rs] with the keys [k], [k + 1], ... *)
Definition keyed {A} (k : Z) (rs : list A) : list (Z * A) :=
  imap (λ i r, (k + Z.of_nat i, r)) rs.

(** The rows that [onboardLibrary] writes for library [id]. *)
Definition onboarded_shifts (id : Z) : list Shift :=
  (λ s : string * string * string * Z,
     let '(n, startTime, endTime, totalHours) := s in
     mkShift id n startTime endTime totalHours true) <$> shiftData.

Definition onboarded_seats (id totalSeats : Z) : list Seat :=
  (λ i, mkSeat id i "vacant" true) <$> seqZ 1 totalSeats.

(** ** What no request changes *)

(** Every row of [t] is still in [t'], unchanged. *)
Definition persists {A} (t t' : Table A) : Prop :=
  ∀ k r, rows t !! k = Some r → rows t' !! k = Some r.

(** [s'] is [s] up to the status and the paid and pending amounts. *)
Definition same_terms (s s' : Subscription) : Prop :=
  sub_set_status (sub_status s)
    (sub_set_amounts (sub_paidAmount s) (sub_pendingAmount s) s') = s.

(** [a'] is [a] up to the flag [isActive], which is not raised. *)
Definition same_seat (a a' : SeatAllocation) : Prop :=
  mkSeatAllocation (alloc_seatId a') (alloc_shiftId a') (alloc_studentId a')
                   (alloc_status a') (alloc_gender a') (alloc_isActive a) = a
  ∧ (alloc_isActive a' = true → alloc_isActive a = true).

Definition append_only (st st' : Store) : Prop :=
  persists (shifts st) (shifts st')
  ∧ persists (seats st) (seats st')
  ∧ persists (payments st) (payments st')
  ∧ (∀ k s, rows (subscriptions st) !! k = Some s →
            ∃ s', rows (subscriptions st') !! k = Some s' ∧ same_terms s s')
  ∧ (∀ k a, rows (seatAllocations st) !! k = Some a →
            ∃ a', rows (seatAllocations st') !! k = Some a' ∧ same_seat a a').

(** ** Two payments *)

(** Two further payments on the subscription of S: 700.00, which pays
    more than is pending, and a correction of -200.00. *)
Definition payment_over : InsertPayment :=
  mkInsertPayment 1 1 1 700 "2024-01-20" "cash" "completed" true.
Definition payment_back : InsertPayment :=
  mkInsertPayment 1 1 1 (-200) "2024-01-21" "cash" "completed" true.

(** * Properties *)

(** ** Numbers and columns *)

#[global] Instance round_half_away_proper :
  Proper (Qeq ==> eq) round_half_away.
Proof.
  intros q q' Heq. unfold round_half_away.
  assert (Qle_bool 0 q = Qle_bool 0 q') as ->.
  { apply eq_true_iff_eq. rewrite !Qle_bool_iff. by rewrite Heq. }
  destruct (Qle_bool 0 q'); [|f_equal]; apply Qfloor_comp; by rewrite Heq.
Qed.

#[global] Instance max0_proper : Proper (Qeq ==> Qeq) max0.
Proof.
  intros q q' Heq. unfold max0.
  assert (Qle_bool q 0 = Qle_bool q' 0) as ->.
  { apply eq_true_iff_eq. rewrite !Qle_bool_iff. by rewrite Heq. }
  by destruct (Qle_bool q' 0).
Qed.

#[global] Instance numeric_proper column :
  Proper (Qeq ==> eq) (numeric column).
Proof. intros q q' Heq. unfold numeric. by rewrite Heq. Qed.

Lemma Qfloor_half (h : Z) : Qfloor (inject_Z h + (1 # 2))%Q = h.
Proof.
  pose proof (Qfloor_le (inject_Z h + (1 # 2))%Q) as H1.
  pose proof (Qlt_floor (inject_Z h + (1 # 2))%Q) as H2.
  set (f := Qfloor _) in *. clearbody f.
  unfold Qle, Qlt in *. cbn in *. lia.
Qed.

(** A column stores an amount with two decimals as it is. *)
Lemma round_of_column (h : Z) : round_half_away (of_column h) = h.
Proof.
  unfold round_half_away, of_column.
  destruct (Qle_bool 0 (h # 100)) eqn:E.
  - assert ((h # 100) * 100 + (1 # 2) == inject_Z h + (1 # 2))%Q as ->.
    { unfold Qeq, inject_Z. cbn. lia. }
    apply Qfloor_half.
  - assert (- (h # 100) * 100 + (1 # 2) == inject_Z (- h) + (1 # 2))%Q as ->.
    { unfold Qeq, inject_Z. cbn. lia. }
    rewrite Qfloor_half. lia.
Qed.

Lemma of_column_add (a b : Z) :
  (of_column a + of_column b == of_column (a + b))%Q.
Proof. unfold of_column, Qeq. cbn. lia. Qed.

Lemma of_column_sub (a b : Z) :
  (of_column a - of_column b == of_column (a - b))%Q.
Proof. unfold of_column, Qeq. cbn. lia. Qed.

Lemma max0_of_column (h : Z) : (max0 (of_column h) == of_column (Z.max 0 h))%Q.
Proof.
  unfold max0. destruct (Qle_bool (of_column h) 0) eqn:E.
  - apply Qle_bool_iff in E. unfold of_column, Qle, Qeq in *. cbn in *. lia.
  - assert (¬ (of_column h <= 0)%Q) as E'
      by (rewrite <- Qle_bool_iff; congruence).
    unfold of_column, Qle, Qeq in *. cbn in *. lia.
Qed.

Lemma of_column_pos (h : Z) : (0 < of_column h)%Q ↔ 0 < h.
Proof. unfold of_column, Qlt. cbn. lia. Qed.

(** The pending amount that the handlers compute, for amounts with two
    decimals. *)
Lemma pending_of_column (cost paid disc : Q) (c p d : Z) :
  (cost == of_column c)%Q → (paid == of_column p)%Q → (disc == of_column d)%Q →
  (max0 (cost - paid - disc) == of_column (Z.max 0 (c - p - d)))%Q.
Proof.
  intros -> -> ->. by rewrite !of_column_sub, max0_of_column.
Qed.

Lemma first_error_None a b : first_error a b = None ↔ a = None ∧ b = None.
Proof. destruct a; cbn; [split; [done|by intros [? _]]|tauto]. Qed.

Lemma numeric_None column q :
  numeric column q = None ↔ Z.abs (round_half_away q) < 10000000000.
Proof.
  unfold numeric, fits. case_bool_decide; split; done.
Qed.

Lemma round_bounded (q : Q) (B : Z) :
  (- inject_Z B <= q <= inject_Z B)%Q →
  Z.abs (round_half_away q) ≤ 100 * B.
Proof.
  intros [Hlo Hhi]. unfold round_half_away.
  destruct (Qle_bool 0 q) eqn:E.
  - apply Qle_bool_iff in E.
    assert (0 ≤ Qfloor (q * 100 + (1 # 2))%Q).
    { rewrite <- (Qfloor_Z 0). apply Qfloor_resp_le.
      change (inject_Z 0) with 0%Q. lra. }
    assert (Qfloor (q * 100 + (1 # 2))%Q ≤ 100 * B).
    { rewrite <- (Qfloor_half (100 * B)). apply Qfloor_resp_le.
      rewrite inject_Z_mult. change (inject_Z 100) with 100%Q. lra. }
    lia.
  - assert (¬ (0 <= q)%Q) as E' by (rewrite <- Qle_bool_iff; congruence).
    assert (0 ≤ Qfloor (- q * 100 + (1 # 2))%Q).
    { rewrite <- (Qfloor_Z 0). apply Qfloor_resp_le.
      change (inject_Z 0) with 0%Q. lra. }
    assert (Qfloor (- q * 100 + (1 # 2))%Q ≤ 100 * B).
    { rewrite <- (Qfloor_half (100 * B)). apply Qfloor_resp_le.
      rewrite inject_Z_mult. change (inject_Z 100) with 100%Q. lra. }
    lia.
Qed.

Lemma of_column_bounded (h B : Z) :
  Z.abs h ≤ 100 * B → (- inject_Z B <= of_column h <= inject_Z B)%Q.
Proof. intros H. unfold of_column, Qle, inject_Z. cbn. lia. Qed.

Lemma max0_bounds (q : Q) :
  (0 <= max0 q)%Q
  ∧ ∀ b, (0 <= b)%Q → (q <= b)%Q → (max0 q <= b)%Q.
Proof.
  unfold max0. destruct (Qle_bool q 0) eqn:E.
  - apply Qle_bool_iff in E. split; [lra|]. intros; lra.
  - assert (¬ (q <= 0)%Q) as E' by (rewrite <- Qle_bool_iff; congruence).
    split; [lra|]. intros; lra.
Qed.

Lemma max0_pos (q : Q) : (0 < q)%Q → max0 q = q.
Proof.
  intros Hq. unfold max0. destruct (Qle_bool q 0) eqn:E; [|done].
  apply Qle_bool_iff in E. lra.
Qed.

(** A way to check [moderate] by computation. *)
Lemma moderate_intro (q : Q) :
  Qle_bool q (-10000000) = false → Qle_bool 10000000 q = false → moderate q.
Proof.
  intros H1 H2. split.
  - destruct (Qlt_le_dec (-10000000) q) as [|H]; [done|].
    apply Qle_bool_iff in H. congruence.
  - destruct (Qlt_le_dec q 10000000) as [|H]; [done|].
    apply Qle_bool_iff in H. congruence.
Qed.

(** No statement with amounts below ten million exceeds a column: the
    rows of a registration or a renewal with such amounts fit, and so
    does what [createPayment] computes from such a row and such a
    payment. *)
Lemma moderate_column (q : Q) :
  moderate q → Z.abs (round_half_away q) ≤ 1000000000.
Proof.
  intros [Hlo Hhi]. apply (round_bounded q 10000000).
  change (inject_Z 10000000) with 10000000%Q. lra.
Qed.

Lemma moderate_pending (cost paid disc : Q) :
  moderate cost → moderate paid → moderate disc →
  Z.abs (round_half_away (max0 (cost - paid - disc))) ≤ 3000000000.
Proof.
  intros [? ?] [? ?] [? ?].
  destruct (max0_bounds (cost - paid - disc)) as [Hm0 Hb].
  apply (round_bounded _ 30000000).
  change (inject_Z 30000000) with 30000000%Q.
  split; [lra|]. apply Hb; lra.
Qed.

Lemma moderate_subscription_overflow (sub : InsertSubscription) :
  moderate (isub_subscriptionCost sub) →
  moderate (isub_paidAmount sub) →
  moderate (isub_discount sub) →
  isub_pendingAmount sub
  = max0 (isub_subscriptionCost sub - isub_paidAmount sub
          - isub_discount sub)%Q →
  subscription_overflow sub = None.
Proof.
  intros Hc Hp Hd Hpending. unfold subscription_overflow.
  rewrite !first_error_None, !numeric_None, Hpending.
  pose proof (moderate_column _ Hc). pose proof (moderate_column _ Hp).
  pose proof (moderate_column _ Hd).
  pose proof (moderate_pending _ _ _ Hc Hp Hd). lia.
Qed.

Lemma moderate_payment (payment : InsertPayment) (sub0 : Subscription) :
  moderate (ipay_amount payment) →
  Z.abs (sub_subscriptionCost sub0) ≤ 1000000000 →
  Z.abs (sub_paidAmount sub0) ≤ 1000000000 →
  Z.abs (sub_discount sub0) ≤ 1000000000 →
  Z.abs (round_half_away (newPaid payment sub0)) < 10000000000
  ∧ Z.abs (round_half_away (max0 (newPending payment sub0))) < 10000000000.
Proof.
  intros [? ?] Hc Hp Hd.
  apply (of_column_bounded _ 10000000) in Hc, Hp, Hd.
  change (inject_Z 10000000) with 10000000%Q in *.
  destruct Hc, Hp, Hd.
  destruct (max0_bounds (newPending payment sub0)) as [Hm0 Hb].
  unfold newPending, newPaid in *.
  assert (Z.abs (round_half_away
                   (of_column (sub_paidAmount sub0) + ipay_amount payment))
          ≤ 100 * 20000000).
  { apply round_bounded. change (inject_Z 20000000) with 20000000%Q. lra. }
  assert (Z.abs (round_half_away
                   (max0 (of_column (sub_subscriptionCost sub0)
                          - (of_column (sub_paidAmount sub0)
                             + ipay_amount payment)
                          - of_column (sub_discount sub0))))
          ≤ 100 * 40000000).
  { apply round_bounded. change (inject_Z 40000000) with 40000000%Q.
    split; [lra|]. apply Hb; lra. }
  lia.
Qed.

(** ** Statements on one table *)

Lemma list_singleton_NoDup {B} (l : list B) (x : B) :
  NoDup l → x ∈ l → (∀ y, y ∈ l → y = x) → l = [x].
Proof.
  intros Hnd Hx Hall. destruct l as [|a [|b l]].
  - by apply elem_of_nil in Hx.
  - f_equal. apply Hall. left.
  - exfalso. assert (a = x) as -> by (apply Hall; left).
    assert (b = x) as -> by (apply Hall; right; left).
    apply NoDup_cons in Hnd as [Hnotin _]. apply Hnotin. left.
Qed.

Section table_lemmas.
Context {A : Type}.
Implicit Types (t : Table A) (r : A) (c : option DbError).

Lemma insert_row_fresh r t :
  rows t !! next_id t = None →
  insert_row None r t
  = (mkTable (<[next_id t := r]> (rows t)) (next_id t + 1), Ok (next_id t, r)).
Proof. unfold insert_row. by intros ->. Qed.

Lemma insert_row_cases c r t :
  (∃ e, insert_row c r t = (mkTable (rows t) (next_id t + 1), Err e))
  ∨ (c = None ∧ rows t !! next_id t = None
     ∧ insert_row c r t
       = (mkTable (<[next_id t := r]> (rows t)) (next_id t + 1),
          Ok (next_id t, r))).
Proof.
  unfold insert_row. destruct c; [left; eauto|].
  destruct (rows t !! next_id t) eqn:E; [left; eauto|right; auto].
Qed.

Lemma insert_row_lookup c r t k x :
  rows t !! k = Some x → rows (insert_row c r t).1 !! k = Some x.
Proof.
  intros Hk. destruct (insert_row_cases c r t) as [[e ->]|(_ & Hfresh & ->)];
    cbn; [done|].
  rewrite lookup_insert_ne; [done|]. intros <-. congruence.
Qed.

Lemma insert_row_lookup_inv c r t k x :
  rows (insert_row c r t).1 !! k = Some x →
  rows t !! k = Some x
  ∨ (k = next_id t ∧ x = r ∧ c = None ∧ rows t !! k = None).
Proof.
  destruct (insert_row_cases c r t) as [[e ->]|(-> & Hfresh & ->)];
    cbn; [auto|].
  destruct (decide (k = next_id t)) as [->|Hne].
  - rewrite lookup_insert_eq. intros [= <-]. auto.
  - rewrite lookup_insert_ne by done. auto.
Qed.

Lemma insert_row_next_id c r t :
  next_id (insert_row c r t).1 = next_id t + 1.
Proof.
  by destruct (insert_row_cases c r t) as [[e ->]|(_ & _ & ->)].
Qed.

Lemma lookup_update_where (cond : Z → A → bool) (upd : A → A) t k :
  rows (update_where cond upd t) !! k
  = (λ r, if cond k r then upd r else r) <$> rows t !! k.
Proof.
  unfold update_where; cbn. rewrite map_lookup_imap.
  by destruct (rows t !! k).
Qed.

Lemma elem_of_select_where (cond : Z → A → bool) t k r :
  (k, r) ∈ select_where cond t ↔ rows t !! k = Some r ∧ cond k r = true.
Proof.
  unfold select_where. rewrite list_elem_of_filter, elem_of_map_to_list.
  cbn. tauto.
Qed.

Lemma NoDup_select_where (cond : Z → A → bool) t :
  NoDup (select_where cond t).
Proof. apply NoDup_filter, NoDup_map_to_list. Qed.

Lemma select_where_nil (cond : Z → A → bool) t :
  (∀ k r, rows t !! k = Some r → cond k r = false) →
  select_where cond t = [].
Proof.
  intros H. destruct (select_where cond t) as [|[k r] l] eqn:E; [done|].
  assert ((k, r) ∈ select_where cond t) as Hin by (rewrite E; left).
  apply elem_of_select_where in Hin as [Hk Hc].
  rewrite (H _ _ Hk) in Hc. done.
Qed.

Lemma select_where_unique (cond : Z → A → bool) t k r :
  rows t !! k = Some r → cond k r = true →
  (∀ k' r', rows t !! k' = Some r' → cond k' r' = true → k' = k) →
  select_where cond t = [(k, r)].
Proof.
  intros Hk Hc Huniq. apply list_singleton_NoDup.
  - apply NoDup_select_where.
  - by apply elem_of_select_where.
  - intros [k' r'] [Hk' Hc']%elem_of_select_where.
    assert (k' = k) as -> by eauto. congruence.
Qed.

(** Selecting by primary key. *)
Lemma select_where_id t id :
  select_where (λ k _, bool_decide (k = id)) t
  = match rows t !! id with Some r => [(id, r)] | None => [] end.
Proof.
  destruct (rows t !! id) as [r|] eqn:E.
  - apply select_where_unique; [done|by apply bool_decide_eq_true|].
    intros k' r' _ Hk'. by apply bool_decide_eq_true in Hk'.
  - apply select_where_nil. intros k r Hk.
    apply bool_decide_eq_false. intros ->. congruence.
Qed.

Lemma table_ok_fresh t : table_ok t → rows t !! next_id t = None.
Proof.
  intros [_ H]. destruct (rows t !! next_id t) eqn:E; [|done].
  apply H in E. lia.
Qed.

Lemma table_ok_lookup t k r : table_ok t → rows t !! k = Some r → k ≠ 0.
Proof. intros [_ H] Hk. apply H in Hk. lia. Qed.

Lemma table_ok_insert_row c r t :
  table_ok t → table_ok (insert_row c r t).1.
Proof.
  intros [Hpos H]. split.
  - rewrite insert_row_next_id. lia.
  - intros k x Hk. rewrite insert_row_next_id.
    apply insert_row_lookup_inv in Hk as [Hk|(-> & _)].
    + apply H in Hk. lia.
    + lia.
Qed.

Lemma table_ok_update_where (cond : Z → A → bool) (upd : A → A) t :
  table_ok t → table_ok (update_where cond upd t).
Proof.
  intros [Hpos H]. split; [done|].
  intros k x Hk. rewrite lookup_update_where in Hk.
  destruct (rows t !! k) as [y|] eqn:E; [|done].
  apply H in E. done.
Qed.

Lemma table_ok_empty : table_ok (@empty_table A).
Proof. split; [done|]. apply map_Forall_empty. Qed.
End table_lemmas.

(** ** Computations and relations between their end points *)

Section steps.
Context (R : relation Store) (HR : PreOrder R).

Lemma steps_in_ret {A} (a : A) : steps_in R (ret a).
Proof. intros st. reflexivity. Qed.

Lemma steps_in_read {A} (f : Store → A) : steps_in R (read f).
Proof. intros st. reflexivity. Qed.

Lemma steps_in_bind {A B} (m : M A) (k : A → M B) :
  steps_in R m → (∀ a, steps_in R (k a)) → steps_in R (bind m k).
Proof.
  intros Hm Hk st. unfold bind. specialize (Hm st).
  destruct (m st) as [st' [a|e]]; cbn in *; [|done].
  etrans; [done|apply Hk].
Qed.

Lemma steps_in_for_each {A} (l : list A) (body : A → M unit) :
  (∀ x, steps_in R (body x)) → steps_in R (for_each l body).
Proof.
  intros Hbody. induction l as [|x l IH]; cbn.
  - apply steps_in_ret.
  - apply steps_in_bind; auto.
Qed.

Lemma steps_in_insert_into {A} (get : Store → Table A)
    (set : Table A → Store → Store) (check : Store → option DbError) (r : A) :
  (∀ st, R st (set (insert_row (check st) r (get st)).1 st)) →
  steps_in R (insert_into get set check r).
Proof.
  intros H st. specialize (H st). unfold insert_into.
  by destruct (insert_row (check st) r (get st)).
Qed.

Lemma steps_in_try_catch {A} (m : M (Response A)) (message : string) :
  steps_in R m → steps_in R (try_catch m message).
Proof.
  intros Hm st. specialize (Hm st). unfold try_catch.
  by destruct (m st) as [st' [a|e]].
Qed.
End steps.

Lemma createPayment_run (payment : InsertPayment) (st : Store) :
  createPayment payment st
  = match insert_row
            (first_error (numeric "amount" (ipay_amount payment))
                         (payments_constraints (payment_row payment) st))
            (payment_row payment) (payments st)
    with
    | (tp, Ok created) =>
        (set_subscriptions (pay_into payment (subscriptions st))
                           (set_payments tp st),
         match pay_overflow payment (subscriptions st) with
         | Some e => Err e
         | None => Ok created
         end)
    | (tp, Err e) => (set_payments tp st, Err e)
    end.
Proof.
  unfold createPayment, bind, insert_into, pay_into, pay_overflow.
  destruct (insert_row _ (payment_row payment) (payments st))
    as [tp [created|e]]; [|done].
  destruct (bool_decide (ipay_subscriptionId payment ≠ 0)); cbn;
    [|by destruct st].
  unfold read, bind; cbn. rewrite select_where_id.
  destruct (rows (subscriptions st) !! ipay_subscriptionId payment) as [sub0|];
    cbn; [|by destruct st].
  destruct (first_error _ _); cbn; [by destruct st|done].
Qed.

#[global] Instance keeps_preorder (P : Store → Prop) : PreOrder (keeps P).
Proof. split; unfold keeps; [intros st|intros st1 st2 st3]; tauto. Qed.

#[global] Instance same_allocations_preorder : PreOrder same_allocations.
Proof.
  split; unfold same_allocations; [done|]. intros st1 st2 st3. congruence.
Qed.

#[global] Instance no_reactivation_preorder : PreOrder no_reactivation.
Proof.
  split.
  - intros st k s Hk. eauto.
  - intros st1 st2 st3 H12 H23 k s Hk.
    destruct (H12 _ _ Hk) as (s2 & Hk2 & Hs2).
    destruct (H23 _ _ Hk2) as (s3 & Hk3 & Hs3). eauto.
Qed.

(** Takes a handler apart along its binds and case distinctions and
    leaves the statements that write, to be closed with the hints of the
    given database. *)
Ltac steps_bind := apply steps_in_bind; [apply _| |].
Ltac steps_insert := apply steps_in_insert_into.
Ltac steps_try_catch := apply steps_in_try_catch.

Ltac steps_with db :=
  cbv zeta;
  repeat first
    [ apply steps_in_ret; apply _
    | apply steps_in_read; apply _
    | solve [eauto with db]
    | steps_bind; [|intros ?]
    | apply steps_in_for_each; [apply _|intros ?]
    | match goal with
      | |- steps_in _ (match ?x with _ => _ end) => destruct x
      end ].

Create HintDb ledger_db.
Create HintDb alloc_db.
Create HintDb status_db.
Create HintDb consistent_db.

(** ** The pending amount (claims C2 and C3) *)

Lemma ledger_ok_update_status cond status t :
  map_Forall (λ _ s, pending_ok s) (rows t) →
  map_Forall (λ _ s, pending_ok s)
             (rows (update_where cond (sub_set_status status) t)).
Proof.
  intros H k s Hk. rewrite lookup_update_where in Hk.
  destruct (rows t !! k) as [s0|] eqn:E; [|done]. injection Hk as <-.
  apply H in E. by destruct (cond k s0).
Qed.

(** What [pay_into] makes of a row: nothing, or the row the payment
    names with its new amounts. *)
Lemma pay_into_lookup payment t j :
  rows (pay_into payment t) !! j = rows t !! j
  ∨ (j = ipay_subscriptionId payment
     ∧ j ≠ 0
     ∧ pay_overflow payment t = None
     ∧ ∃ sub0,
         rows t !! j = Some sub0
         ∧ rows (pay_into payment t) !! j
           = Some (sub_set_amounts
                     (round_half_away (newPaid payment sub0))
                     (round_half_away (max0 (newPending payment sub0)))
                     sub0)).
Proof.
  unfold pay_into. destruct (pay_overflow payment t) as [e|] eqn:Ho; [by left|].
  case_bool_decide as Hid; [|by left].
  destruct (rows t !! ipay_subscriptionId payment) as [sub0|] eqn:E0;
    [|by left].
  rewrite lookup_update_where.
  destruct (decide (j = ipay_subscriptionId payment)) as [->|Hj].
  - right. split_and!; try done. exists sub0. split; [done|].
    by rewrite E0, bool_decide_eq_true_2.
  - left. rewrite bool_decide_eq_false_2 by done.
    by destruct (rows t !! j).
Qed.

Lemma newPaid_of_column payment sub0 h :
  (ipay_amount payment == of_column h)%Q →
  (newPaid payment sub0 == of_column (sub_paidAmount sub0 + h))%Q.
Proof. intros Hh. unfold newPaid. by rewrite Hh, of_column_add. Qed.

Lemma newPending_of_column payment sub0 h :
  (ipay_amount payment == of_column h)%Q →
  (max0 (newPending payment sub0)
   == of_column (Z.max 0 (sub_subscriptionCost sub0
                          - (sub_paidAmount sub0 + h)
                          - sub_discount sub0)))%Q.
Proof.
  intros Hh. unfold newPending.
  by rewrite (newPaid_of_column _ _ _ Hh), !of_column_sub, max0_of_column.
Qed.

Lemma round_newPaid payment sub0 h :
  (ipay_amount payment == of_column h)%Q →
  round_half_away (newPaid payment sub0) = sub_paidAmount sub0 + h.
Proof.
  intros Hh. by rewrite (newPaid_of_column _ _ _ Hh), round_of_column.
Qed.

Lemma round_newPending payment sub0 h :
  (ipay_amount payment == of_column h)%Q →
  round_half_away (max0 (newPending payment sub0))
  = Z.max 0 (sub_subscriptionCost sub0 - (sub_paidAmount sub0 + h)
             - sub_discount sub0).
Proof.
  intros Hh. by rewrite (newPending_of_column _ _ _ Hh), round_of_column.
Qed.

Lemma ledger_ok_pay_into payment t :
  two_decimals (ipay_amount payment) →
  map_Forall (λ _ s, pending_ok s) (rows t) →
  map_Forall (λ _ s, pending_ok s) (rows (pay_into payment t)).
Proof.
  intros [h Hh] H k s Hk.
  destruct (pay_into_lookup payment t k)
    as [Heq|(_ & _ & _ & sub0 & Hsub0 & Heq)]; rewrite Heq in Hk.
  - by apply H in Hk.
  - injection Hk as <-. unfold pending_ok. cbn.
    by rewrite (round_newPaid _ _ _ Hh), (round_newPending _ _ _ Hh).
Qed.

Lemma ledger_insert_other {A} (get : Store → Table A)
    (set : Table A → Store → Store) check (r : A) :
  (∀ t st, subscriptions (set t st) = subscriptions st) →
  steps_in (keeps ledger_ok) (insert_into get set check r).
Proof.
  intros Hframe. steps_insert.
  intros st. unfold keeps, ledger_ok. by rewrite Hframe.
Qed.

Lemma ledger_createLibrary l : steps_in (keeps ledger_ok) (createLibrary l).
Proof. by apply ledger_insert_other. Qed.
Lemma ledger_createShift s : steps_in (keeps ledger_ok) (createShift s).
Proof. by apply ledger_insert_other. Qed.
Lemma ledger_createSeat s : steps_in (keeps ledger_ok) (createSeat s).
Proof. by apply ledger_insert_other. Qed.
Lemma ledger_createSeatAllocation a :
  steps_in (keeps ledger_ok) (createSeatAllocation a).
Proof. by apply ledger_insert_other. Qed.
Lemma ledger_createStudent s : steps_in (keeps ledger_ok) (createStudent s).
Proof. by apply ledger_insert_other. Qed.

Lemma ledger_deleteSeatAllocationsForStudent studentId :
  steps_in (keeps ledger_ok) (deleteSeatAllocationsForStudent studentId).
Proof. intros st H. exact H. Qed.

Lemma ledger_createSubscription sub :
  pending_ok (subscription_row sub) →
  steps_in (keeps ledger_ok) (createSubscription sub).
Proof.
  intros Hsub. steps_insert.
  intros st H k s Hk. cbn in Hk.
  apply insert_row_lookup_inv in Hk as [Hk|(_ & -> & _)]; [|done].
  by apply H in Hk.
Qed.

Lemma ledger_cancelSubscription id :
  steps_in (keeps ledger_ok) (cancelSubscription id).
Proof. intros st H. by apply ledger_ok_update_status. Qed.

Lemma ledger_renewSubscription studentId data :
  pending_ok (subscription_row data) →
  steps_in (keeps ledger_ok) (renewSubscription studentId data).
Proof.
  intros Hdata. steps_bind.
  - intros st H. by apply ledger_ok_update_status.
  - intros _. by apply ledger_createSubscription.
Qed.

Lemma ledger_createPayment payment :
  two_decimals (ipay_amount payment) →
  steps_in (keeps ledger_ok) (createPayment payment).
Proof.
  intros Hexact st H. rewrite createPayment_run.
  destruct (insert_row _ (payment_row payment) (payments st))
    as [tp [created|e]]; [|done].
  by apply ledger_ok_pay_into.
Qed.

Lemma pending_ok_registration_row body student allShifts :
  two_decimals (reg_subscriptionCost body) →
  two_decimals (reg_paidAmount body) →
  two_decimals (reg_discount body) →
  pending_ok (subscription_row (registration_row body student allShifts)).
Proof.
  intros [c Hc] [p Hp] [d Hd]. unfold pending_ok. cbn.
  by rewrite (pending_of_column _ _ _ _ _ _ Hc Hp Hd), Hc, Hp, Hd,
    !round_of_column.
Qed.

Lemma pending_ok_renewal_row studentId body activeSub :
  two_decimals (ren_subscriptionCost body) →
  two_decimals (ren_paidAmount body) →
  two_decimals (ren_discount body) →
  pending_ok (subscription_row (renewal_row studentId body activeSub)).
Proof.
  intros [c Hc] [p Hp] [d Hd]. unfold pending_ok. cbn.
  by rewrite (pending_of_column _ _ _ _ _ _ Hc Hp Hd), Hc, Hp, Hd,
    !round_of_column.
Qed.

#[global] Hint Resolve ledger_createLibrary ledger_createShift
  ledger_createSeat ledger_createSeatAllocation ledger_createStudent
  ledger_deleteSeatAllocationsForStudent ledger_createSubscription
  ledger_cancelSubscription ledger_renewSubscription ledger_createPayment
  pending_ok_registration_row pending_ok_renewal_row
  : ledger_db.

Lemma ledger_postStudents body :
  exact_request (Register body) →
  steps_in (keeps ledger_ok) (postStudents body).
Proof.
  intros (Hc & Hp & Hd).
  unfold postStudents, generateStudentId, getShiftsByLibrary.
  steps_try_catch. steps_with ledger_db.
Qed.

Lemma ledger_postSubscriptionsRenew studentId body :
  exact_request (Renew studentId body) →
  steps_in (keeps ledger_ok) (postSubscriptionsRenew studentId body).
Proof.
  intros (Hc & Hp & Hd).
  unfold postSubscriptionsRenew, getActiveSubscriptionByStudent.
  steps_try_catch. steps_with ledger_db.
Qed.

Lemma ledger_patchSubscriptionsCancel id :
  steps_in (keeps ledger_ok) (patchSubscriptionsCancel id).
Proof. unfold patchSubscriptionsCancel. steps_try_catch. steps_with ledger_db. Qed.

Lemma ledger_postPayments body :
  exact_request (Pay body) →
  steps_in (keeps ledger_ok) (postPayments body).
Proof.
  intros Hexact. unfold postPayments. steps_try_catch. steps_with ledger_db.
Qed.

Lemma ledger_onboardLibrary name totalSeats :
  steps_in (keeps ledger_ok) (onboardLibrary name totalSeats).
Proof. unfold onboardLibrary. steps_with ledger_db. Qed.

Lemma ledger_ok_step r st :
  exact_request r → ledger_ok st → ledger_ok (step r st).
Proof.
  intros Hexact. destruct r; cbn [step].
  - by apply ledger_postStudents.
  - by apply ledger_postPayments.
  - by apply ledger_postSubscriptionsRenew.
  - apply ledger_patchSubscriptionsCancel.
  - apply ledger_onboardLibrary.
  - apply ledger_createSeat.
  - apply ledger_createSeatAllocation.
  - apply ledger_deleteSeatAllocationsForStudent.
Qed.

Lemma ledger_ok_empty : ledger_ok empty_store.
Proof. apply map_Forall_empty. Qed.

Lemma ledger_ok_run rs st :
  Forall exact_request rs → ledger_ok st → ledger_ok (run rs st).
Proof.
  intros Hexact. revert st.
  induction Hexact as [|r rs Hr _ IH]; intros st Hst; [done|].
  cbn. by apply IH, ledger_ok_step.
Qed.

(** ** Consistency of the store *)

Arguments insert_row : simpl never.
Arguments update_where : simpl never.

Lemma references_None {A} column (t : Table A) k :
  references column t k = None → is_Some (rows t !! k).
Proof. unfold references. destruct (rows t !! k); [eauto|done]. Qed.

Lemma references_is_Some {A} column (t : Table A) k :
  is_Some (rows t !! k) → references column t k = None.
Proof. unfold references. by intros [x ->]. Qed.

Section fk_lemmas.
Context {A B : Type} (f : A → option Z).
Implicit Types (src : Table A) (dst : Table B).

Lemma fk_insert_dst c r src dst :
  fk f src dst → fk f src (insert_row c r dst).1.
Proof.
  intros H k x Hk j Hj. destruct (H k x Hk j Hj) as [y Hy].
  exists y. by apply insert_row_lookup.
Qed.

Lemma fk_insert_src c r src dst :
  (c = None → ∀ k, f r = Some k → is_Some (rows dst !! k)) →
  fk f src dst → fk f (insert_row c r src).1 dst.
Proof.
  intros Hr H k x Hk.
  apply insert_row_lookup_inv in Hk as [Hk|(_ & -> & Hc & _)].
  - by apply (H k).
  - by apply Hr.
Qed.

Lemma fk_update_dst cond upd src dst :
  fk f src dst → fk f src (update_where cond upd dst).
Proof.
  intros H k x Hk j Hj. destruct (H k x Hk j Hj) as [y Hy].
  rewrite lookup_update_where, Hy. eauto.
Qed.

Lemma fk_update_src cond upd src dst :
  (∀ r, f (upd r) = f r) →
  fk f src dst → fk f (update_where cond upd src) dst.
Proof.
  intros Hupd H k x Hk. rewrite lookup_update_where in Hk.
  destruct (rows src !! k) as [x0|] eqn:E; [|done]. injection Hk as <-.
  specialize (H k x0 E). destruct (cond k x0); [|done].
  intros j Hj. apply H. by rewrite <- Hupd.
Qed.

Lemma fk_empty dst : fk f empty_table dst.
Proof. apply map_Forall_empty. Qed.
End fk_lemmas.

Ltac constraint_side :=
  let Hc := fresh "Hc" in
  let k := fresh "k" in
  let Hk := fresh "Hk" in
  intros Hc k Hk; cbn in Hk;
  repeat match goal with
         | H : first_error _ _ = None |- _ =>
             apply first_error_None in H as [? ?]
         | H : ?c _ _ = None |- _ =>
             progress unfold c in H
         end;
  repeat match goal with
         | H : Some _ = Some _ |- _ => injection H as <-
         | H : ?x = Some _, H' : context [match ?x with _ => _ end] |- _ =>
             rewrite H in H'
         end;
  eauto using references_None.

Ltac consistent_insert :=
  intros [];
  constructor; cbn;
  first
    [ assumption
    | by apply table_ok_insert_row
    | by apply fk_insert_dst
    | apply fk_insert_src; [constraint_side|assumption] ].

Lemma consistent_insert_libraries r st :
  consistent st →
  consistent (set_libraries
                (insert_row (libraries_constraints r st) r (libraries st)).1 st).
Proof. consistent_insert. Qed.

Lemma consistent_insert_shifts r st :
  consistent st →
  consistent (set_shifts (insert_row (shifts_constraints r st) r (shifts st)).1 st).
Proof. consistent_insert. Qed.

Lemma consistent_insert_seats r st :
  consistent st →
  consistent (set_seats (insert_row (seats_constraints r st) r (seats st)).1 st).
Proof. consistent_insert. Qed.

Lemma consistent_insert_seatAllocations r st :
  consistent st →
  consistent (set_seatAllocations
                (insert_row (seatAllocations_constraints r st) r
                            (seatAllocations st)).1 st).
Proof. consistent_insert. Qed.

Lemma consistent_insert_students r st :
  consistent st →
  consistent (set_students
                (insert_row (students_constraints r st) r (students st)).1 st).
Proof. consistent_insert. Qed.

Lemma consistent_insert_subscriptions o r st :
  consistent st →
  consistent (set_subscriptions
                (insert_row (first_error o (subscriptions_constraints r st)) r
                            (subscriptions st)).1 st).
Proof. consistent_insert. Qed.

Lemma consistent_insert_payments o r st :
  consistent st →
  consistent (set_payments
                (insert_row (first_error o (payments_constraints r st)) r
                            (payments st)).1 st).
Proof. consistent_insert. Qed.

Lemma consistent_update_subscriptions cond upd st :
  (∀ s, sub_libraryId (upd s) = sub_libraryId s) →
  (∀ s, sub_studentId (upd s) = sub_studentId s) →
  (∀ s, sub_seatId (upd s) = sub_seatId s) →
  consistent st →
  consistent (set_subscriptions (update_where cond upd (subscriptions st)) st).
Proof.
  intros H1 H2 H3 []. constructor; cbn;
    first
      [ assumption
      | by apply table_ok_update_where
      | by apply fk_update_dst
      | apply fk_update_src; [intros s; cbn; congruence|assumption] ].
Qed.

Lemma consistent_set_status cond status st :
  consistent st →
  consistent (set_subscriptions
                (update_where cond (sub_set_status status) (subscriptions st)) st).
Proof. by apply consistent_update_subscriptions. Qed.

Lemma consistent_pay_into payment st :
  consistent st →
  consistent (set_subscriptions (pay_into payment (subscriptions st)) st).
Proof.
  intros H. unfold pay_into.
  assert (set_subscriptions (subscriptions st) st = st) as Hid by by destruct st.
  destruct (pay_overflow payment (subscriptions st)); [by rewrite Hid|].
  case_bool_decide; [|by rewrite Hid].
  destruct (rows (subscriptions st) !! ipay_subscriptionId payment);
    [|by rewrite Hid].
  by apply consistent_update_subscriptions.
Qed.

Lemma consistent_deactivate cond st :
  consistent st →
  consistent (set_seatAllocations
                (update_where cond alloc_deactivate (seatAllocations st)) st).
Proof.
  intros []. constructor; cbn;
    first
      [ assumption
      | by apply table_ok_update_where
      | by apply fk_update_dst
      | apply fk_update_src; [intros s; reflexivity|assumption] ].
Qed.

Lemma consistent_empty : consistent empty_store.
Proof. constructor; cbn; (apply table_ok_empty || apply fk_empty). Qed.

Lemma consistent_createLibrary l : steps_in (keeps consistent) (createLibrary l).
Proof. steps_insert. intros st H. by apply consistent_insert_libraries. Qed.
Lemma consistent_createShift s : steps_in (keeps consistent) (createShift s).
Proof. steps_insert. intros st H. by apply consistent_insert_shifts. Qed.
Lemma consistent_createSeat s : steps_in (keeps consistent) (createSeat s).
Proof. steps_insert. intros st H. by apply consistent_insert_seats. Qed.
Lemma consistent_createSeatAllocation a :
  steps_in (keeps consistent) (createSeatAllocation a).
Proof. steps_insert. intros st H. by apply consistent_insert_seatAllocations. Qed.
Lemma consistent_createStudent s : steps_in (keeps consistent) (createStudent s).
Proof. steps_insert. intros st H. by apply consistent_insert_students. Qed.
Lemma consistent_createSubscription s :
  steps_in (keeps consistent) (createSubscription s).
Proof. steps_insert. intros st H. by apply consistent_insert_subscriptions. Qed.

Lemma consistent_deleteSeatAllocationsForStudent studentId :
  steps_in (keeps consistent) (deleteSeatAllocationsForStudent studentId).
Proof. intros st H. by apply consistent_deactivate. Qed.

Lemma consistent_cancelSubscription id :
  steps_in (keeps consistent) (cancelSubscription id).
Proof. intros st H. by apply consistent_set_status. Qed.

Lemma consistent_renewSubscription studentId data :
  steps_in (keeps consistent) (renewSubscription studentId data).
Proof.
  steps_bind.
  - intros st H. by apply consistent_set_status.
  - intros _. apply consistent_createSubscription.
Qed.

Lemma consistent_createPayment payment :
  steps_in (keeps consistent) (createPayment payment).
Proof.
  intros st H. rewrite createPayment_run.
  pose proof (consistent_insert_payments
                (numeric "amount" (ipay_amount payment))
                (payment_row payment) st H) as H'.
  destruct (insert_row _ (payment_row payment) (payments st))
    as [tp [created|e]]; [|done].
  by apply (consistent_pay_into payment) in H'.
Qed.

#[global] Hint Resolve consistent_createLibrary consistent_createShift
  consistent_createSeat consistent_createSeatAllocation
  consistent_createStudent consistent_deleteSeatAllocationsForStudent
  consistent_createSubscription consistent_cancelSubscription
  consistent_renewSubscription consistent_createPayment : consistent_db.

Lemma consistent_postStudents body :
  steps_in (keeps consistent) (postStudents body).
Proof.
  unfold postStudents, generateStudentId, getShiftsByLibrary.
  steps_try_catch. steps_with consistent_db.
Qed.

Lemma consistent_postSubscriptionsRenew studentId body :
  steps_in (keeps consistent) (postSubscriptionsRenew studentId body).
Proof.
  unfold postSubscriptionsRenew, getActiveSubscriptionByStudent.
  steps_try_catch. steps_with consistent_db.
Qed.

Lemma consistent_patchSubscriptionsCancel id :
  steps_in (keeps consistent) (patchSubscriptionsCancel id).
Proof.
  unfold patchSubscriptionsCancel. steps_try_catch. steps_with consistent_db.
Qed.

Lemma consistent_postPayments body :
  steps_in (keeps consistent) (postPayments body).
Proof. unfold postPayments. steps_try_catch. steps_with consistent_db. Qed.

Lemma consistent_onboardLibrary name totalSeats :
  steps_in (keeps consistent) (onboardLibrary name totalSeats).
Proof. unfold onboardLibrary. steps_with consistent_db. Qed.

Lemma consistent_step r st : consistent st → consistent (step r st).
Proof.
  destruct r; cbn [step].
  - apply consistent_postStudents.
  - apply consistent_postPayments.
  - apply consistent_postSubscriptionsRenew.
  - apply consistent_patchSubscriptionsCancel.
  - apply consistent_onboardLibrary.
  - apply consistent_createSeat.
  - apply consistent_createSeatAllocation.
  - apply consistent_deleteSeatAllocationsForStudent.
Qed.

Lemma reachable_consistent st : reachable st → consistent st.
Proof.
  induction 1 as [|st r _ IH]; [apply consistent_empty|by apply consistent_step].
Qed.

Lemma reachable_run rs st : reachable st → reachable (run rs st).
Proof.
  revert st. induction rs as [|r rs IH]; intros st H; cbn; [done|].
  apply IH. by constructor.
Qed.

(** ** Payments *)

Lemma payments_constraints_None payment st :
  is_Some (rows (libraries st) !! pay_libraryId payment) →
  is_Some (rows (students st) !! pay_studentId payment) →
  is_Some (rows (subscriptions st) !! pay_subscriptionId payment) →
  payments_constraints payment st = None.
Proof.
  intros H1 H2 H3. unfold payments_constraints.
  by rewrite !first_error_None, !references_is_Some.
Qed.

Lemma lookup_pay_into payment t s :
  table_ok t →
  rows t !! ipay_subscriptionId payment = Some s →
  pay_overflow payment t = None →
  ∀ j, rows (pay_into payment t) !! j
       = if bool_decide (j = ipay_subscriptionId payment)
         then Some (sub_set_amounts
                      (round_half_away (newPaid payment s))
                      (round_half_away (max0 (newPending payment s)))
                      s)
         else rows t !! j.
Proof.
  intros Hok Hs Ho j. unfold pay_into. rewrite Ho.
  rewrite bool_decide_eq_true_2 by by eapply table_ok_lookup.
  rewrite Hs, lookup_update_where. case_bool_decide as Hj.
  - subst j. by rewrite Hs.
  - by destruct (rows t !! j).
Qed.

(** The [UPDATE] of [createPayment] goes through when the new amounts fit
    their columns. *)
Lemma pay_overflow_None payment t s :
  rows t !! ipay_subscriptionId payment = Some s →
  Z.abs (round_half_away (newPaid payment s)) < 10000000000 →
  Z.abs (round_half_away (max0 (newPending payment s))) < 10000000000 →
  pay_overflow payment t = None.
Proof.
  intros Hs H1 H2. unfold pay_overflow. rewrite Hs.
  case_bool_decide; [|done].
  apply first_error_None. by rewrite !numeric_None.
Qed.




(** C3. In every state reached from the empty store by registrations,
    payments, renewals and cancellations (and by onboarding and the seat
    operations of the storage layer) whose amounts have at most two
    decimals, every subscription row has
    pendingAmount = max(0, subscriptionCost - paidAmount - discount). *)
Theorem pending_amount_invariant
    (rs : list Request) (k : Z) (s : Subscription) :
  Forall exact_request rs →
  rows (subscriptions (run rs empty_store)) !! k = Some s →
  sub_pendingAmount s
  = Z.max 0 (sub_subscriptionCost s - sub_paidAmount s - sub_discount s).
Proof.
  intros Hexact Hk.
  by apply (ledger_ok_run rs empty_store Hexact ledger_ok_empty k s).
Qed.

Lemma pending_amount_invariant_witness :
  Forall exact_request [Onboard "L1" 1; Register body_S; Pay payment_S]
  ∧ rows (subscriptions
            (run [Onboard "L1" 1; Register body_S; Pay payment_S] empty_store))
      !! 1
    = Some (sub_set_amounts 90000 10000 subscription_S)
  ∧ sub_pendingAmount (sub_set_amounts 90000 10000 subscription_S)
    = Z.max 0 (sub_subscriptionCost (sub_set_amounts 90000 10000 subscription_S)
               - sub_paidAmount (sub_set_amounts 90000 10000 subscription_S)
               - sub_discount (sub_set_amounts 90000 10000 subscription_S)).
Proof.
  assert (Forall exact_request
            [Onboard "L1" 1; Register body_S; Pay payment_S]) as Hexact.
  { repeat constructor.
    - by exists 100000.
    - by exists 40000.
    - by exists 0.
    - by exists 10000. }
  assert (rows (subscriptions
                  (run [Onboard "L1" 1; Register body_S; Pay payment_S]
                       empty_store)) !! 1
          = Some (sub_set_amounts 90000 10000 subscription_S)) as Hs
    by (vm_compute; reflexivity).
  split; [exact Hexact|]. split; [exact Hs|].
  exact (pending_amount_invariant _ 1 _ Hexact Hs).
Defined.

(** C3, as the specification has it, fails: after the payment of 0.125
    on the subscription of R the stored row has cost 10.00, paidAmount
    0.13, no discount and pendingAmount 9.88. *)
Lemma pending_amount_off_by_a_cent :
  reachable (step (Pay payment_eighth) after_R)
  ∧ ∃ s, rows (subscriptions (step (Pay payment_eighth) after_R)) !! 1 = Some s
         ∧ sub_subscriptionCost s = 1000
         ∧ sub_paidAmount s = 13
         ∧ sub_discount s = 0
         ∧ sub_pendingAmount s = 988
         ∧ sub_pendingAmount s
           ≠ Z.max 0 (sub_subscriptionCost s - sub_paidAmount s
                      - sub_discount s).
Proof.
  split; [repeat constructor|].
  eexists. split; [vm_compute; reflexivity|]. by vm_compute.
Qed.

(** ** Vacant seats (claim C9) *)

(** C9, as amended.  For every library and non-empty list of requested
    shift ids, [getVacantSeatsForShifts] returns, without repetition,
    exactly the active seats of the library whose status column is
    "vacant" and that have no active allocation with status "occupied" in
    any requested shift.  So a seat occupied in one requested shift is
    excluded, and a seat whose status is "blocked", or anything else than
    "vacant", is never returned. *)
Theorem getVacantSeatsForShifts_spec
    (st : Store) (libraryId : Z) (shiftIds : list Z) :
  shiftIds ≠ [] →
  ∃ l, getVacantSeatsForShifts libraryId shiftIds st = (st, Ok l)
       ∧ NoDup l
       ∧ ∀ k s, (k, s) ∈ l ↔
           rows (seats st) !! k = Some s
           ∧ seat_libraryId s = libraryId
           ∧ seat_isActive s = true
           ∧ seat_status s = "vacant"
           ∧ ∀ shiftId, shiftId ∈ shiftIds → ¬ occupied st k shiftId.
Proof.
  intros _. unfold getVacantSeatsForShifts, getSeatsByLibrary, bind, read, ret.
  eexists. split; [reflexivity|]. split.
  - apply NoDup_filter. rewrite merge_sort_Permutation.
    apply NoDup_select_where.
  - intros k s. rewrite list_elem_of_filter, merge_sort_Permutation.
    rewrite elem_of_select_where, elem_of_list_to_set, list_elem_of_fmap.
    rewrite andb_true_iff, bool_decide_eq_true. cbn.
    split.
    + intros ((Hfree & Hvacant) & Hk & Hlib & Hact).
      split_and!; try done.
      intros shiftId Hshift (ka & a & Hka & Hseat & Hsh & Hocc & Hon).
      apply Hfree. exists (ka, a). split; [done|].
      apply elem_of_select_where. split; [done|].
      rewrite !andb_true_iff, !bool_decide_eq_true. by subst.
    + intros (Hk & Hlib & Hact & Hvacant & Hfree).
      split_and!; try done.
      intros ([ka a] & Hseat & Hin). cbn in Hseat.
      apply elem_of_select_where in Hin as [Hka Hc].
      rewrite !andb_true_iff, !bool_decide_eq_true in Hc.
      destruct Hc as [[Hsh Hocc] Hon].
      apply (Hfree (alloc_shiftId a) Hsh). by exists ka, a.
Qed.

Lemma getVacantSeatsForShifts_spec_witness :
  [1; 3] ≠ []
  ∧ ∃ l, getVacantSeatsForShifts 1 [1; 3] seat1_occupied
         = (seat1_occupied, Ok l)
         ∧ NoDup l
         ∧ ∀ k s, (k, s) ∈ l ↔
             rows (seats seat1_occupied) !! k = Some s
             ∧ seat_libraryId s = 1
             ∧ seat_isActive s = true
             ∧ seat_status s = "vacant"
             ∧ ∀ shiftId, shiftId ∈ [1; 3] →
                          ¬ occupied seat1_occupied k shiftId.
Proof.
  assert ([1; 3] ≠ @nil Z) as Hne by done.
  split; [exact Hne|].
  exact (getVacantSeatsForShifts_spec seat1_occupied 1 [1; 3] Hne).
Defined.

(** C9, as stated, fails: seat 2 of L1 is active and has no allocation at
    all, yet it is not returned for Morning, because its status column is
    not "vacant". *)
Lemma getVacantSeatsForShifts_counterexample :
  rows (seats with_seat2) !! 2 = Some (mkSeat 1 2 "occupied" true)
  ∧ (∀ shiftId, ¬ occupied with_seat2 2 shiftId)
  ∧ getVacantSeatsForShifts 1 [1] with_seat2
    = (with_seat2, Ok [(1, mkSeat 1 1 "vacant" true)]).
Proof.
  split; [by vm_compute|]. split; [|by vm_compute].
  intros shiftId (k & a & Hk & _).
  assert (rows (seatAllocations with_seat2) = ∅) as Hempty by by vm_compute.
  rewrite Hempty in Hk. by rewrite lookup_empty in Hk.
Qed.

(** ** Student codes (claim C10) *)

Lemma generateStudentId_any_library (l1 l2 : Z) (st : Store) :
  generateStudentId l1 st = generateStudentId l2 st.
Proof. reflexivity. Qed.

(** C10 at its failing input.  Library 2 has no student, so the serial of
    its first student should be 1; the code takes the maximum over the
    students of all libraries and returns serial 2. *)
Lemma generateStudentId_not_per_library :
  select_where (λ _ s, bool_decide (stu_libraryId s = 2))
               (students two_libraries) = []
  ∧ generateStudentId 2 two_libraries = (two_libraries, Ok "STD000002").
Proof. split; by vm_compute. Qed.

(** ** Registration (claims C1, C4 and C5) *)

Lemma alloc_insert_other {A} (get : Store → Table A)
    (set : Table A → Store → Store) check (r : A) :
  (∀ t st, seatAllocations (set t st) = seatAllocations st) →
  steps_in same_allocations (insert_into get set check r).
Proof. intros Hframe. steps_insert. intros st. apply Hframe. Qed.

Lemma alloc_createStudent s : steps_in same_allocations (createStudent s).
Proof. by apply alloc_insert_other. Qed.
Lemma alloc_createSubscription s :
  steps_in same_allocations (createSubscription s).
Proof. by apply alloc_insert_other. Qed.
Lemma alloc_cancelSubscription id :
  steps_in same_allocations (cancelSubscription id).
Proof. by intros st. Qed.
Lemma alloc_renewSubscription studentId data :
  steps_in same_allocations (renewSubscription studentId data).
Proof.
  steps_bind; [by intros st|]. intros _. apply alloc_createSubscription.
Qed.
Lemma alloc_createPayment payment :
  steps_in same_allocations (createPayment payment).
Proof.
  intros st. rewrite createPayment_run.
  by destruct (insert_row _ (payment_row payment) (payments st))
    as [tp [created|e]].
Qed.

#[global] Hint Resolve alloc_createStudent alloc_createSubscription
  alloc_cancelSubscription alloc_renewSubscription alloc_createPayment
  : alloc_db.

(** No ledger request reads or writes [seat_allocations]. *)
Lemma postStudents_same_allocations body st :
  seatAllocations (postStudents body st).1 = seatAllocations st.
Proof.
  revert st. change (steps_in same_allocations (postStudents body)).
  unfold postStudents, generateStudentId, getShiftsByLibrary.
  steps_try_catch. steps_with alloc_db.
Qed.

Lemma postSubscriptionsRenew_same_allocations studentId body st :
  seatAllocations (postSubscriptionsRenew studentId body st).1
  = seatAllocations st.
Proof.
  revert st.
  change (steps_in same_allocations (postSubscriptionsRenew studentId body)).
  unfold postSubscriptionsRenew, getActiveSubscriptionByStudent.
  steps_try_catch. steps_with alloc_db.
Qed.

Lemma patchSubscriptionsCancel_same_allocations id st :
  seatAllocations (patchSubscriptionsCancel id st).1 = seatAllocations st.
Proof. reflexivity. Qed.

(** Every registration that succeeds with a positive paid amount P, the
    amounts having at most two decimals, ends with the stored paidAmount
    2P: the handler writes P into the row and [createPayment] adds P
    again. *)
Lemma postStudents_stored_amounts st body st' student subscription
    (C P D : Z) :
  consistent st →
  postStudents body st = (st', Json (student, subscription)) →
  (reg_subscriptionCost body == of_column C)%Q →
  (reg_paidAmount body == of_column P)%Q →
  (reg_discount body == of_column D)%Q →
  0 < P →
  ∃ s, rows (subscriptions st') !! subscription.1 = Some s
       ∧ sub_subscriptionCost s = C
       ∧ sub_discount s = D
       ∧ sub_paidAmount s = 2 * P
       ∧ sub_pendingAmount s = Z.max 0 (C - 2 * P - D).
Proof.
  intros Hc Hrun HC HP HD Hpaid. revert Hrun.
  unfold postStudents, try_catch. cbv zeta.
  unfold bind at 1. unfold generateStudentId at 1, bind at 1, read at 1, ret at 1.
  cbn [fst snd]. unfold bind at 1.
  unfold createStudent, insert_into.
  set (stu := registration_student body _).
  destruct (insert_row_cases (students_constraints stu st) stu (students st))
    as [[e ->]|(_ & _ & ->)]; [done|].
  cbn [fst snd]. unfold bind at 1. unfold getShiftsByLibrary at 1, read at 1.
  cbn [fst snd]. unfold bind at 1.
  unfold createSubscription, insert_into. cbn [subscriptions set_students].
  set (st1 := set_students _ st).
  set (data := registration_row body _ _).
  set (new := subscription_row data).
  destruct (insert_row_cases
              (first_error (subscription_overflow data)
                           (subscriptions_constraints new st1))
              new (subscriptions st)) as [[e ->]|(_ & Hfresh & ->)]; [done|].
  cbn [fst snd].
  rewrite bool_decide_eq_true_2 by (rewrite HP; by apply of_column_pos).
  unfold bind at 1. unfold bind at 1. rewrite createPayment_run.
  destruct (insert_row _ _ _) as [tp [created|e]]; [|done].
  set (payment := mkInsertPayment _ _ _ _ _ _ _ _).
  cbn [fst snd subscriptions set_subscriptions].
  set (t2 := mkTable _ _).
  destruct (pay_overflow payment t2) eqn:Ho; [done|].
  unfold bind, ret. intros [= <- <- <-].
  cbn [fst snd subscriptions set_subscriptions].
  assert (table_ok t2) as Hok2.
  { replace t2 with (insert_row None new (subscriptions st)).1
      by (by rewrite insert_row_fresh).
    apply table_ok_insert_row, Hc. }
  assert (rows t2 !! next_id (subscriptions st) = Some new) as Hn
    by apply lookup_insert_eq.
  rewrite (lookup_pay_into payment t2 new Hok2 Hn Ho).
  rewrite bool_decide_eq_true_2 by done.
  rewrite (round_newPaid payment new P HP), (round_newPending payment new P HP).
  eexists. split; [done|]. cbn.
  rewrite HC, HP, HD, !round_of_column.
  split_and!; try done; f_equal; lia.
Qed.

(** C1 at its failing input.  S registers in L1 with cost 1000.00, paid
    400.00 and no discount.  The handler stores paidAmount 400.00 and
    pendingAmount 600.00 and answers with that row, then records the
    payment with [createPayment], which adds the 400.00 once more: the
    stored row ends with paidAmount 800.00 and pendingAmount 200.00. *)
Lemma registration_counts_payment_twice :
  (∃ student subscription,
     (postStudents body_S library_L1).2 = Json (student, (1, subscription))
     ∧ sub_paidAmount subscription = 40000
     ∧ sub_pendingAmount subscription = 60000)
  ∧ rows (subscriptions (postStudents body_S library_L1).1) !! 1
    = Some subscription_S
  ∧ sub_paidAmount subscription_S = 80000
  ∧ sub_pendingAmount subscription_S = 20000.
Proof. split_and!; try by vm_compute. eexists _, _. by vm_compute. Qed.

(** C4 at its failing input.  Seat 1 has an active allocation with status
    occupied in Morning; a registration of T for Morning on seat 1 is
    answered with 200 and leaves a student row, an active subscription row
    for seat 1 and a payment row. *)
Lemma registration_on_occupied_seat :
  occupied seat1_occupied 1 1
  ∧ (∃ student subscription,
       (postStudents body_T seat1_occupied).2 = Json (student, subscription))
  ∧ rows (students seat1_occupied) !! 2 = None
  ∧ stu_studentName
      <$> rows (students (postStudents body_T seat1_occupied).1) !! 2
    = Some "T"
  ∧ rows (subscriptions seat1_occupied) !! 2 = None
  ∧ (λ s, (sub_seatId s, sub_shiftIds s, sub_status s))
      <$> rows (subscriptions (postStudents body_T seat1_occupied).1) !! 2
    = Some (1, [1], "active")
  ∧ rows (payments seat1_occupied) !! 2 = None
  ∧ pay_subscriptionId
      <$> rows (payments (postStudents body_T seat1_occupied).1) !! 2
    = Some 2.
Proof.
  split_and!; try by vm_compute.
  - exists 1, (mkSeatAllocation 1 1 (Some 1) "occupied" (Some "male") true).
    by vm_compute.
  - eexists _, _. by vm_compute.
Qed.

(** C5 at its failing input.  The registration of S for the shift set
    {Morning} succeeds and persists the student, the active subscription
    and the payment dated at plan start, but no seat allocation row. *)
Lemma registration_allocates_no_seat :
  (∃ student subscription,
     (postStudents body_S library_L1).2 = Json (student, subscription))
  ∧ stu_studentId <$> rows (students after_S) !! 1 = Some "STD000001"
  ∧ sub_status <$> rows (subscriptions after_S) !! 1 = Some "active"
  ∧ rows (payments after_S) !! 1
    = Some (mkPayment 1 1 1 40000 "2024-01-01" "cash" "completed" true)
  ∧ rows (seatAllocations after_S) = ∅.
Proof.
  split_and!; try by vm_compute. eexists _, _. by vm_compute.
Qed.

(** ** Cancellation (claim C8) *)

(** C8 at its failing input.  S holds seat 1 in Morning through an active
    allocation.  Cancelling the subscription of S sets its status to
    "cancelled"; the allocation stays active, seat 1 stays occupied in
    Morning and is not offered as vacant. *)
Lemma cancel_keeps_seat_occupied :
  sub_status <$> rows (subscriptions seat1_occupied) !! 1 = Some "active"
  ∧ (patchSubscriptionsCancel 1 seat1_occupied).2
    = Json "Subscription cancelled"
  ∧ sub_status
      <$> rows (subscriptions (patchSubscriptionsCancel 1 seat1_occupied).1) !! 1
    = Some "cancelled"
  ∧ rows (seatAllocations (patchSubscriptionsCancel 1 seat1_occupied).1) !! 1
    = Some (mkSeatAllocation 1 1 (Some 1) "occupied" (Some "male") true)
  ∧ occupied (patchSubscriptionsCancel 1 seat1_occupied).1 1 1
  ∧ (getVacantSeatsForShifts 1 [1]
       (patchSubscriptionsCancel 1 seat1_occupied).1).2 = Ok [].
Proof.
  split_and!; try by vm_compute.
  exists 1, (mkSeatAllocation 1 1 (Some 1) "occupied" (Some "male") true).
  by vm_compute.
Qed.

(** ** Renewal (claim C6) *)

Lemma subscriptions_constraints_None sub st :
  is_Some (rows (libraries st) !! sub_libraryId sub) →
  is_Some (rows (students st) !! sub_studentId sub) →
  is_Some (rows (seats st) !! sub_seatId sub) →
  subscriptions_constraints sub st = None.
Proof.
  intros H1 H2 H3. unfold subscriptions_constraints.
  by rewrite !first_error_None, !references_is_Some.
Qed.

Lemma getActiveSubscriptionByStudent_unique st studentId k s :
  active_subscription st studentId k s →
  (∀ k' s', active_subscription st studentId k' s' → k' = k) →
  getActiveSubscriptionByStudent studentId st = (st, Ok (Some (k, s))).
Proof.
  intros (Hk & Hstu & Hstatus & Hon) Huniq.
  unfold getActiveSubscriptionByStudent, read.
  erewrite select_where_unique; [done|done| |].
  - by rewrite !andb_true_iff, !bool_decide_eq_true.
  - intros k' s' Hk' Hc. rewrite !andb_true_iff, !bool_decide_eq_true in Hc.
    apply (Huniq k' s'). unfold active_subscription. tauto.
Qed.

Lemma getActiveSubscriptionByStudent_none st studentId :
  (∀ k s, ¬ active_subscription st studentId k s) →
  getActiveSubscriptionByStudent studentId st = (st, Ok None).
Proof.
  intros Hnone. unfold getActiveSubscriptionByStudent, read.
  rewrite select_where_nil; [done|].
  intros k s Hk. apply not_true_is_false. intros Hc.
  rewrite !andb_true_iff, !bool_decide_eq_true in Hc.
  apply (Hnone k s). unfold active_subscription. tauto.
Qed.

Lemma postSubscriptionsRenew_run st studentId body k s :
  consistent st →
  is_Some (rows (libraries st) !! ren_libraryId body) →
  active_subscription st studentId k s →
  (∀ k' s', active_subscription st studentId k' s' → k' = k) →
  moderate (ren_subscriptionCost body) →
  moderate (ren_paidAmount body) →
  moderate (ren_discount body) →
  let n := next_id (subscriptions st) in
  let new := subscription_row (renewal_row studentId body s) in
  let paid := ren_paidAmount body in
  let payment :=
    mkInsertPayment (ren_libraryId body) studentId n paid
                    (ren_planStartDate body) "cash" "completed" true in
  let stored :=
    if bool_decide (0 < paid)%Q
    then sub_set_amounts (round_half_away (newPaid payment new))
           (round_half_away (max0 (newPending payment new))) new
    else new in
  ∃ st', postSubscriptionsRenew studentId body st = (st', Json (n, new))
         ∧ rows (subscriptions st) !! n = None
         ∧ (∀ j, rows (subscriptions st') !! j
                 = if bool_decide (j = n) then Some stored
                   else expired_for studentId <$> rows (subscriptions st) !! j)
         ∧ rows (payments st')
           = if bool_decide (0 < paid)%Q
             then <[next_id (payments st) := payment_row payment]>
                    (rows (payments st))
             else rows (payments st).
Proof.
  intros Hc Hlib Hact Huniq Hmc Hmp Hmd n new paid payment stored.
  pose proof Hact as (Hk & Hstu & Hstatus & Hon).
  pose proof (table_ok_fresh _ (ok_subscriptions _ Hc)) as Hfresh.
  unfold postSubscriptionsRenew, try_catch. cbv zeta.
  unfold bind at 1.
  rewrite (getActiveSubscriptionByStudent_unique _ _ _ _ Hact Huniq).
  cbn [snd]. fold paid.
  unfold bind at 1. unfold renewSubscription, bind at 1, write.
  unfold createSubscription, insert_into. cbn [subscriptions set_subscriptions].
  fold new.
  set (t1 := update_where _ (sub_set_status "expired") (subscriptions st)).
  set (st1 := set_subscriptions t1 st).
  assert (rows t1 !! n = None) as Hfresh1.
  { unfold t1. rewrite lookup_update_where. fold n in Hfresh. by rewrite Hfresh. }
  assert (∀ j, rows t1 !! j = expired_for studentId <$> rows (subscriptions st) !! j)
    as Hl1.
  { intros j. unfold t1. rewrite lookup_update_where. done. }
  assert (subscription_overflow (renewal_row studentId body s) = None) as ->
    by (by apply moderate_subscription_overflow).
  assert (subscriptions_constraints new st1 = None) as ->.
  { apply subscriptions_constraints_None; cbn.
    - done.
    - rewrite <- Hstu. by apply (fk_sub_student _ Hc k s Hk).
    - by apply (fk_sub_seat _ Hc k s Hk). }
  cbn [first_error].
  change (next_id t1) with n in *.
  rewrite (insert_row_fresh new t1 Hfresh1). change (next_id t1) with n.
  cbn [fst snd].
  set (t2 := mkTable (<[n:=new]> (rows t1)) (n + 1)).
  set (st2 := set_subscriptions t2 st1).
  assert (∀ j, rows t2 !! j
               = if bool_decide (j = n) then Some new
                 else expired_for studentId <$> rows (subscriptions st) !! j)
    as Hl2.
  { intros j. unfold t2. cbn. case_bool_decide as Hj.
    - subst j. apply lookup_insert_eq.
    - rewrite lookup_insert_ne by done. apply Hl1. }
  unfold stored. fold payment. case_bool_decide as Hpaid.
  - unfold bind at 1. unfold bind at 1. rewrite createPayment_run.
    assert (rows t2 !! n = Some new) as Hn
      by (by rewrite Hl2, bool_decide_eq_true_2).
    destruct (moderate_payment payment new Hmp) as [Hfit1 Hfit2];
      [apply moderate_column, Hmc|apply moderate_column, Hmp
      |apply moderate_column, Hmd|].
    assert (pay_overflow payment t2 = None) as Ho
      by (by apply (pay_overflow_None payment t2 new)).
    assert (numeric "amount" (ipay_amount payment) = None) as ->.
    { apply numeric_None. pose proof (moderate_column _ Hmp) as Hb.
      change (ipay_amount payment) with (ren_paidAmount body). lia. }
    cbn [first_error]. change (subscriptions st2) with t2.
    rewrite Ho.
    rewrite payments_constraints_None; cbn.
    2:{ done. }
    2:{ rewrite <- Hstu. by apply (fk_sub_student _ Hc k s Hk). }
    2:{ rewrite Hl2. rewrite bool_decide_eq_true_2 by done. eauto. }
    rewrite insert_row_fresh by apply (table_ok_fresh _ (ok_payments _ Hc)).
    cbn. eexists. split; [reflexivity|]. split; [done|]. split; [|done].
    intros j. cbn.
    assert (table_ok t2) as Hok2.
    { replace t2 with (insert_row None new t1).1
        by (by rewrite insert_row_fresh).
      apply table_ok_insert_row, table_ok_update_where, Hc. }
    rewrite (lookup_pay_into payment t2 new Hok2 Hn Ho). cbn.
    case_bool_decide as Hj; [done|].
    rewrite Hl2. by rewrite bool_decide_eq_false_2.
  - unfold bind, ret. eexists. split; [reflexivity|]. split; [done|].
    split; [|done]. intros j. cbn. apply Hl2.
Qed.




(** ** Terminal subscriptions (claim C7) *)

Lemma terminal_not_active status : terminal status → status ≠ "active".
Proof.
  unfold terminal. intros Hin ->.
  repeat (apply elem_of_cons in Hin as [Heq|Hin]; [done|]).
  by apply elem_of_nil in Hin.
Qed.

Lemma lookup_pay_into_ne payment t j :
  j ≠ ipay_subscriptionId payment →
  rows (pay_into payment t) !! j = rows t !! j.
Proof.
  intros Hj. by destruct (pay_into_lookup payment t j) as [?|[? _]].
Qed.

Lemma no_reactivation_same st st' :
  subscriptions st' = subscriptions st → no_reactivation st st'.
Proof. intros Heq k s Hk. rewrite Heq. eauto. Qed.

Lemma no_reactivation_update cond upd st :
  (∀ s, sub_status s ≠ "active" → sub_status (upd s) ≠ "active") →
  no_reactivation st
    (set_subscriptions (update_where cond upd (subscriptions st)) st).
Proof.
  intros Hupd k s Hk. cbn. rewrite lookup_update_where, Hk. cbn.
  eexists. split; [done|]. destruct (cond k s); auto.
Qed.

Lemma status_insert_other {A} (get : Store → Table A)
    (set : Table A → Store → Store) check (r : A) :
  (∀ t st, subscriptions (set t st) = subscriptions st) →
  steps_in no_reactivation (insert_into get set check r).
Proof.
  intros Hframe. steps_insert. intros st. by apply no_reactivation_same.
Qed.

Lemma status_createLibrary l : steps_in no_reactivation (createLibrary l).
Proof. by apply status_insert_other. Qed.
Lemma status_createShift s : steps_in no_reactivation (createShift s).
Proof. by apply status_insert_other. Qed.
Lemma status_createSeat s : steps_in no_reactivation (createSeat s).
Proof. by apply status_insert_other. Qed.
Lemma status_createSeatAllocation a :
  steps_in no_reactivation (createSeatAllocation a).
Proof. by apply status_insert_other. Qed.
Lemma status_createStudent s : steps_in no_reactivation (createStudent s).
Proof. by apply status_insert_other. Qed.

Lemma status_deleteSeatAllocationsForStudent studentId :
  steps_in no_reactivation (deleteSeatAllocationsForStudent studentId).
Proof. intros st. by apply no_reactivation_same. Qed.

Lemma status_createSubscription sub :
  steps_in no_reactivation (createSubscription sub).
Proof.
  steps_insert. intros st k s Hk. cbn.
  exists s. split; [by apply insert_row_lookup|done].
Qed.

Lemma status_cancelSubscription id :
  steps_in no_reactivation (cancelSubscription id).
Proof. intros st. by apply no_reactivation_update. Qed.

Lemma status_renewSubscription studentId data :
  steps_in no_reactivation (renewSubscription studentId data).
Proof.
  steps_bind.
  - intros st. by apply no_reactivation_update.
  - intros _. apply status_createSubscription.
Qed.

Lemma status_createPayment payment :
  steps_in no_reactivation (createPayment payment).
Proof.
  intros st. rewrite createPayment_run.
  destruct (insert_row _ (payment_row payment) (payments st))
    as [tp [created|e]]; [|by apply no_reactivation_same].
  intros k s Hk. cbn.
  destruct (pay_into_lookup payment (subscriptions st) k)
    as [->|(_ & _ & _ & sub0 & Hsub0 & ->)]; [eauto|].
  rewrite Hk in Hsub0. injection Hsub0 as <-. eauto.
Qed.

#[global] Hint Resolve status_createLibrary status_createShift
  status_createSeat status_createSeatAllocation status_createStudent
  status_deleteSeatAllocationsForStudent status_createSubscription
  status_cancelSubscription status_renewSubscription status_createPayment
  : status_db.

Lemma no_reactivation_step r st : no_reactivation st (step r st).
Proof.
  revert st. destruct r; cbn [step];
    match goal with |- ∀ st, no_reactivation st (?m st).1 =>
      change (steps_in no_reactivation m) end.
  - unfold postStudents, generateStudentId, getShiftsByLibrary.
    steps_try_catch. steps_with status_db.
  - unfold postPayments. steps_try_catch. steps_with status_db.
  - unfold postSubscriptionsRenew, getActiveSubscriptionByStudent.
    steps_try_catch. steps_with status_db.
  - unfold patchSubscriptionsCancel. steps_try_catch. steps_with status_db.
  - unfold onboardLibrary. steps_with status_db.
  - apply status_createSeat.
  - apply status_createSeatAllocation.
  - apply status_deleteSeatAllocationsForStudent.
Qed.

Lemma no_reactivation_run rs st : no_reactivation st (run rs st).
Proof.
  revert st. induction rs as [|r rs IH]; intros st; cbn; [reflexivity|].
  etrans; [apply (no_reactivation_step r)|apply IH].
Qed.

(** A renewal changes no row that is not active. *)
Lemma postSubscriptionsRenew_keeps_row st studentId body j r :
  rows (subscriptions st) !! j = Some r →
  sub_status r ≠ "active" →
  rows (subscriptions (postSubscriptionsRenew studentId body st).1) !! j
  = Some r.
Proof.
  intros Hj Hr. unfold postSubscriptionsRenew, try_catch. cbv zeta.
  unfold bind at 1. unfold getActiveSubscriptionByStudent, read.
  destruct (head _) as [[ka sa]|]; [|done]. cbn [snd].
  unfold bind at 1. unfold renewSubscription, bind at 1, write.
  unfold createSubscription, insert_into. cbn [subscriptions set_subscriptions].
  set (t1 := update_where _ (sub_set_status "expired") (subscriptions st)).
  set (data := renewal_row studentId body sa).
  set (new := subscription_row data).
  assert (rows t1 !! j = Some r) as Hj1.
  { unfold t1. rewrite lookup_update_where, Hj. cbn.
    rewrite (bool_decide_eq_false_2 (sub_status r = "active")) by done.
    by rewrite andb_false_r. }
  destruct (insert_row_cases
              (first_error (subscription_overflow data)
                 (subscriptions_constraints new (set_subscriptions t1 st)))
              new t1) as [[e ->]|(_ & Hfresh & ->)]; [done|].
  cbn [fst snd].
  assert (j ≠ next_id t1) as Hne by (intros ->; congruence).
  case_bool_decide.
  - unfold bind at 1. unfold bind at 1. rewrite createPayment_run.
    destruct (insert_row _ _ _) as [tp [created|e]]; cbn.
    + destruct (pay_overflow _ _); cbn;
        rewrite lookup_pay_into_ne by done; cbn; by rewrite lookup_insert_ne.
    + by rewrite lookup_insert_ne.
  - cbn. by rewrite lookup_insert_ne.
Qed.

(** C7, as amended.  For a subscription in a terminal state: cancelling
    it is not refused, the handler answers 200 and writes the status
    "cancelled", leaving the other columns as they are; a renewal leaves
    the row unchanged, and a renewal for its student is refused with 404
    "No active subscription found", the store unchanged, when the
    student has no active subscription; and whatever requests follow, the
    row stays and its status is never "active" again.  (The server has no
    close operation.) *)
Theorem terminal_subscription_requests
    (st : Store) (k : Z) (s : Subscription) :
  rows (subscriptions st) !! k = Some s →
  terminal (sub_status s) →
  (patchSubscriptionsCancel k st).2 = Json "Subscription cancelled"
  ∧ rows (subscriptions (patchSubscriptionsCancel k st).1) !! k
    = Some (sub_set_status "cancelled" s)
  ∧ (∀ studentId body,
       rows (subscriptions (postSubscriptionsRenew studentId body st).1) !! k
       = Some s)
  ∧ (∀ body,
       (∀ k' s', ¬ active_subscription st (sub_studentId s) k' s') →
       postSubscriptionsRenew (sub_studentId s) body st
       = (st, Failure 404 "No active subscription found"))
  ∧ (∀ rs, ∃ s', rows (subscriptions (run rs st)) !! k = Some s'
                 ∧ sub_status s' ≠ "active").
Proof.
  intros Hk Hterm. pose proof (terminal_not_active _ Hterm) as Hna.
  split_and!.
  - reflexivity.
  - cbn. rewrite lookup_update_where, Hk. cbn.
    by rewrite bool_decide_eq_true_2.
  - intros studentId body. by apply postSubscriptionsRenew_keeps_row.
  - intros body Hnone. unfold postSubscriptionsRenew, try_catch, bind.
    by rewrite getActiveSubscriptionByStudent_none.
  - intros rs. destruct (no_reactivation_run rs st k s Hk) as (s' & Hs' & H).
    eauto.
Qed.

Lemma terminal_subscription_requests_witness :
  rows (subscriptions after_renewal) !! 1
  = Some (sub_set_status "expired" subscription_S)
  ∧ terminal "expired"
  ∧ (patchSubscriptionsCancel 1 after_renewal).2 = Json "Subscription cancelled"
  ∧ rows (subscriptions (patchSubscriptionsCancel 1 after_renewal).1) !! 1
    = Some (sub_set_status "cancelled" (sub_set_status "expired" subscription_S))
  ∧ (∀ studentId body,
       rows (subscriptions
               (postSubscriptionsRenew studentId body after_renewal).1) !! 1
       = Some (sub_set_status "expired" subscription_S))
  ∧ (∀ body,
       (∀ k' s', ¬ active_subscription after_renewal 1 k' s') →
       postSubscriptionsRenew 1 body after_renewal
       = (after_renewal, Failure 404 "No active subscription found"))
  ∧ (∀ rs, ∃ s', rows (subscriptions (run rs after_renewal)) !! 1 = Some s'
                 ∧ sub_status s' ≠ "active").
Proof.
  assert (rows (subscriptions after_renewal) !! 1
          = Some (sub_set_status "expired" subscription_S)) as Hk
    by by vm_compute.
  assert (terminal "expired") as Hterm
    by (unfold terminal; repeat constructor).
  split; [exact Hk|]. split; [exact Hterm|].
  exact (terminal_subscription_requests after_renewal 1
           (sub_set_status "expired" subscription_S) Hk Hterm).
Defined.

(** A renewal for a student whose only subscription is cancelled is
    answered with 404 and changes nothing. *)
Example renewal_after_cancel :
  sub_status <$> rows (subscriptions after_cancel) !! 1 = Some "cancelled"
  ∧ postSubscriptionsRenew 1 renewal_S after_cancel
    = (after_cancel, Failure 404 "No active subscription found").
Proof. split; by vm_compute. Qed.

(** C7, as stated, fails: subscription 1 of S is expired after the
    renewal, and cancelling it is answered with 200 and changes the row,
    whose status becomes "cancelled". *)
Lemma cancel_of_expired_subscription :
  sub_status <$> rows (subscriptions after_renewal) !! 1 = Some "expired"
  ∧ terminal "expired"
  ∧ (patchSubscriptionsCancel 1 after_renewal).2 = Json "Subscription cancelled"
  ∧ sub_status
      <$> rows (subscriptions (patchSubscriptionsCancel 1 after_renewal).1) !! 1
    = Some "cancelled"
  ∧ rows (subscriptions (patchSubscriptionsCancel 1 after_renewal).1) !! 1
    ≠ rows (subscriptions after_renewal) !! 1.
Proof.
  split_and!; try by vm_compute.
  unfold terminal. repeat constructor.
Qed.

(** * Further properties of the storage layer and the handlers *)

(** Where a property speaks of reachable states, these are the states of
    [reachable]: built from the empty store by the requests of [Request].
    Two handlers that write to tables of this model are not among them:
    [PATCH /api/students/:id], which rewrites columns of a student row
    with what the request carries, the code included, and
    [DELETE /api/libraries/:id], which lowers the flag [isActive] of a
    library.  Neither writes to [subscriptions], [payments], [seats],
    [shifts] or [seat_allocations]. *)

(** ** Seats of a library *)

#[global] Instance le_on_Z_total {A} (f : A → Z) : Total (le_on_Z f).
Proof. intros a b. unfold le_on_Z. lia. Qed.

#[global] Instance le_on_Z_trans {A} (f : A → Z) : Transitive (le_on_Z f).
Proof. intros a b c. unfold le_on_Z. lia. Qed.

Lemma elem_of_getSeatsByLibrary st libraryId l k s :
  getSeatsByLibrary libraryId st = (st, Ok l) →
  (k, s) ∈ l ↔
    rows (seats st) !! k = Some s
    ∧ seat_libraryId s = libraryId
    ∧ seat_isActive s = true.
Proof.
  intros [= <-]. rewrite merge_sort_Permutation, elem_of_select_where.
  rewrite andb_true_iff, bool_decide_eq_true. cbn. tauto.
Qed.

Lemma getSeatsByLibrary_elements (st : Store) (libraryId : Z) :
  ∃ l, getSeatsByLibrary libraryId st = (st, Ok l)
       ∧ NoDup l
       ∧ ∀ k s, (k, s) ∈ l ↔
           rows (seats st) !! k = Some s
           ∧ seat_libraryId s = libraryId
           ∧ seat_isActive s = true.
Proof.
  eexists. split; [reflexivity|]. split.
  - rewrite merge_sort_Permutation. apply NoDup_select_where.
  - intros k s. by apply elem_of_getSeatsByLibrary.
Qed.

(** X1. [getSeatsByLibrary] returns the active seats of the library and no
    other seat, each once, in ascending order of seat number. *)
Theorem getSeatsByLibrary_spec (st : Store) (libraryId : Z) :
  ∃ l, getSeatsByLibrary libraryId st = (st, Ok l)
       ∧ NoDup l
       ∧ StronglySorted (le_on_Z (λ s : Row Seat, seat_seatNumber s.2)) l
       ∧ ∀ k s, (k, s) ∈ l ↔
           rows (seats st) !! k = Some s
           ∧ seat_libraryId s = libraryId
           ∧ seat_isActive s = true.
Proof.
  eexists. split; [reflexivity|]. split_and!.
  - rewrite merge_sort_Permutation. apply NoDup_select_where.
  - apply (StronglySorted_merge_sort _).
  - intros k s. by apply elem_of_getSeatsByLibrary.
Qed.

(** ** The seat grid *)

Lemma find_seat_elem (l : list (Row Seat)) (st : Store) k s :
  (∀ k' s', (k', s') ∈ l → rows (seats st) !! k' = Some s') →
  NoDup l →
  (k, s) ∈ l →
  find_seat l k = Some (k, s).
Proof.
  intros Hl Hnd Hin. unfold find_seat.
  rewrite (list_singleton_NoDup (filter (λ s0 : Row Seat, s0.1 = k) l) (k, s)).
  - done.
  - by apply NoDup_filter.
  - by apply list_elem_of_filter.
  - intros [k' s'] [Hk' Hin']%list_elem_of_filter. cbn in Hk'. subst k'.
    apply Hl in Hin, Hin'. congruence.
Qed.

(** [getSeatGrid] returns the active seats of the library and, each once,
    exactly the active allocations on those seats: no allocation of a seat
    of another library or of an inactive seat, and none at all when the
    library has no active seat. *)
Lemma getSeatGrid_elements (st : Store) (libraryId : Z) :
  ∃ librarySeats allocations,
    getSeatGrid libraryId st = (st, Ok (librarySeats, allocations))
    ∧ getSeatsByLibrary libraryId st = (st, Ok librarySeats)
    ∧ NoDup allocations
    ∧ ∀ ka a, (ka, a) ∈ allocations ↔
        rows (seatAllocations st) !! ka = Some a
        ∧ alloc_isActive a = true
        ∧ ∃ s, rows (seats st) !! alloc_seatId a = Some s
               ∧ seat_libraryId s = libraryId
               ∧ seat_isActive s = true.
Proof.
  destruct (getSeatsByLibrary_elements st libraryId) as (l & Hrun & Hnd & Hl).
  unfold getSeatGrid, bind. rewrite Hrun.
  case_bool_decide as Hlen.
  - exists l, []. split_and!; [done|done|constructor|].
    rewrite length_fmap in Hlen. apply nil_length_inv in Hlen. subst l.
    intros ka a. split; [by intros ?%elem_of_nil|].
    intros (_ & _ & s & Hs & Hlib & Hact).
    assert ((alloc_seatId a, s) ∈ @nil (Row Seat)) as Hin by by apply Hl.
    by apply elem_of_nil in Hin.
  - eexists l, _. split_and!; [done|done|apply NoDup_select_where|].
    intros ka a. rewrite elem_of_select_where, andb_true_iff, bool_decide_eq_true.
    rewrite list_elem_of_fmap. split.
    + intros (Hka & ([k s] & Hk & Hin) & Hact). cbn in Hk. subst k.
      apply Hl in Hin. eauto.
    + intros (Hka & Hact & s & Hs & Hlib & Hsact).
      split_and!; try done. exists (alloc_seatId a, s). split; [done|].
      by apply Hl.
Qed.

(** X2. The handler of [GET /api/seats/grid/:libraryId], which calls
    [getSeatGrid], answers 200 for every library id other than 0, without
    changing the store.  The cells of the answer are those of the active
    allocations on the active seats of the library, and the seat number
    of a cell is the number of its seat: the fallback 0 for a seat that is
    not found is never taken.  The total is the library's [totalSeats],
    or 0 when the library does not exist. *)
Theorem getSeatsGrid_spec (st : Store) (libraryId : Z) :
  libraryId ≠ 0 →
  ∃ body,
    getSeatsGrid libraryId st = (st, Json body)
    ∧ grid_totalSeats body
      = from_option lib_totalSeats 0 (rows (libraries st) !! libraryId)
    ∧ getShiftsByLibrary libraryId st = (st, Ok (grid_shifts body))
    ∧ ∀ c, c ∈ grid_allocations body ↔
        ∃ ka a s,
          rows (seatAllocations st) !! ka = Some a
          ∧ alloc_isActive a = true
          ∧ rows (seats st) !! alloc_seatId a = Some s
          ∧ seat_libraryId s = libraryId
          ∧ seat_isActive s = true
          ∧ c = mkGridCell (alloc_seatId a) (seat_seatNumber s)
                  (alloc_status a) (alloc_gender a) (alloc_shiftId a).
Proof.
  intros Hlib.
  destruct (getSeatGrid_elements st libraryId)
    as (librarySeats & allocations & Hgrid & Hseats & _ & Hallocs).
  destruct (getSeatsByLibrary_elements st libraryId)
    as (l & Hrun & Hnd & Hl).
  rewrite Hseats in Hrun. injection Hrun as <-.
  unfold getSeatsGrid, try_catch. rewrite bool_decide_eq_false_2 by done.
  unfold bind at 1. unfold getLibrary, read at 1. cbn [fst snd].
  unfold bind at 1. unfold getShiftsByLibrary at 1, read at 1. cbn [fst snd].
  unfold bind at 1. rewrite Hgrid. cbn [fst snd]. unfold ret.
  eexists. split; [reflexivity|]. cbn [grid_totalSeats grid_shifts grid_allocations].
  split_and!.
  - rewrite select_where_id. case_match; reflexivity.
  - reflexivity.
  - intros c. rewrite list_elem_of_fmap. split.
    + intros ([ka a] & -> & Hin). apply Hallocs in Hin as (Hka & Hact & s & Hs & Hsl & Hsa).
      exists ka, a, s. split_and!; try done. cbn.
      rewrite (find_seat_elem librarySeats st (alloc_seatId a) s); [done| |done|].
      * intros k' s' Hin'. by apply Hl in Hin' as [? _].
      * by apply Hl.
    + intros (ka & a & s & Hka & Hact & Hs & Hsl & Hsa & ->).
      exists (ka, a). split.
      * cbn. rewrite (find_seat_elem librarySeats st (alloc_seatId a) s); [done| |done|].
        -- intros k' s' Hin'. by apply Hl in Hin' as [? _].
        -- by apply Hl.
      * apply Hallocs. eauto 10.
Qed.

Lemma getSeatsGrid_spec_witness :
  1 ≠ 0
  ∧ ∃ body,
      getSeatsGrid 1 seat1_occupied = (seat1_occupied, Json body)
      ∧ grid_totalSeats body
        = from_option lib_totalSeats 0 (rows (libraries seat1_occupied) !! 1)
      ∧ getShiftsByLibrary 1 seat1_occupied
        = (seat1_occupied, Ok (grid_shifts body))
      ∧ ∀ c, c ∈ grid_allocations body ↔
          ∃ ka a s,
            rows (seatAllocations seat1_occupied) !! ka = Some a
            ∧ alloc_isActive a = true
            ∧ rows (seats seat1_occupied) !! alloc_seatId a = Some s
            ∧ seat_libraryId s = 1
            ∧ seat_isActive s = true
            ∧ c = mkGridCell (alloc_seatId a) (seat_seatNumber s)
                    (alloc_status a) (alloc_gender a) (alloc_shiftId a).
Proof.
  assert (1 ≠ 0) as Hne by done.
  split; [exact Hne|]. exact (getSeatsGrid_spec seat1_occupied 1 Hne).
Defined.

(** ** Vacancy, allocation and release *)

Lemma elem_of_getVacantSeatsForShifts st libraryId shiftIds :
  ∃ l, getVacantSeatsForShifts libraryId shiftIds st = (st, Ok l)
       ∧ NoDup l
       ∧ ∀ k s, (k, s) ∈ l ↔
           rows (seats st) !! k = Some s
           ∧ seat_libraryId s = libraryId
           ∧ seat_isActive s = true
           ∧ seat_status s = "vacant"
           ∧ ∀ shiftId, shiftId ∈ shiftIds → ¬ occupied st k shiftId.
Proof.
  unfold getVacantSeatsForShifts, getSeatsByLibrary, bind, read, ret.
  eexists. split; [reflexivity|]. split.
  { apply NoDup_filter. rewrite merge_sort_Permutation.
    apply NoDup_select_where. }
  intros k s. rewrite list_elem_of_filter, merge_sort_Permutation.
  rewrite elem_of_select_where, elem_of_list_to_set, list_elem_of_fmap.
  rewrite andb_true_iff, bool_decide_eq_true. cbn. split.
  - intros ((Hfree & Hvacant) & Hk & Hlib & Hact). split_and!; try done.
    intros shiftId Hshift (ka & a & Hka & Hseat & Hsh & Hocc & Hon).
    apply Hfree. exists (ka, a). split; [done|].
    apply elem_of_select_where. split; [done|].
    rewrite !andb_true_iff, !bool_decide_eq_true. by subst.
  - intros (Hk & Hlib & Hact & Hvacant & Hfree). split_and!; try done.
    intros ([ka a] & Hseat & Hin). cbn in Hseat.
    apply elem_of_select_where in Hin as [Hka Hc].
    rewrite !andb_true_iff, !bool_decide_eq_true in Hc.
    destruct Hc as [[Hsh Hocc] Hon].
    apply (Hfree (alloc_shiftId a) Hsh). by exists ka, a.
Qed.

Lemma getSeatsVacant_guard (libraryId : Z) (shiftIds : list Z) :
  libraryId ≠ 0 → shiftIds ≠ [] →
  bool_decide (libraryId = 0) || bool_decide (length shiftIds = 0%nat) = false.
Proof.
  intros H0 Hne. rewrite !bool_decide_eq_false_2; [done| |done].
  by intros ?%nil_length_inv.
Qed.

(** X3. The seats offered for two shift lists taken together are the seats
    offered for each of them: the handler of [GET /api/seats/vacant]
    answers for [shiftIds1 ++ shiftIds2] with exactly the seats it answers
    with for both [shiftIds1] and [shiftIds2].  Asking for more shifts
    never adds a seat. *)
Theorem getSeatsVacant_app
    (st : Store) (libraryId : Z) (shiftIds1 shiftIds2 : list Z) :
  libraryId ≠ 0 → shiftIds1 ≠ [] → shiftIds2 ≠ [] →
  ∃ l1 l2 l,
    getSeatsVacant libraryId shiftIds1 st = (st, Json l1)
    ∧ getSeatsVacant libraryId shiftIds2 st = (st, Json l2)
    ∧ getSeatsVacant libraryId (shiftIds1 ++ shiftIds2) st = (st, Json l)
    ∧ ∀ x, x ∈ l ↔ x ∈ l1 ∧ x ∈ l2.
Proof.
  intros Hlib H1 H2.
  destruct (elem_of_getVacantSeatsForShifts st libraryId shiftIds1)
    as (v1 & Hr1 & _ & Hv1).
  destruct (elem_of_getVacantSeatsForShifts st libraryId shiftIds2)
    as (v2 & Hr2 & _ & Hv2).
  destruct (elem_of_getVacantSeatsForShifts st libraryId (shiftIds1 ++ shiftIds2))
    as (v & Hr & _ & Hv).
  assert ((shiftIds1 ++ shiftIds2)%list ≠ []) as H12 by by destruct shiftIds1.
  unfold getSeatsVacant, try_catch.
  rewrite !getSeatsVacant_guard by done.
  unfold bind. rewrite Hr1, Hr2, Hr. unfold ret.
  eexists _, _, _. split_and!; [done..|].
  intros [k n]. rewrite !list_elem_of_In, !in_map_iff.
  setoid_rewrite <- list_elem_of_In. split.
  - intros ([k' s] & [= <- <-] & Hin). apply Hv in Hin.
    destruct Hin as (Hk & Hl & Ha & Hs & Hfree).
    split; exists (k', s); (split; [done|]); [apply Hv1|apply Hv2];
      split_and!; try done; intros sh Hsh; apply Hfree;
      rewrite elem_of_app; auto.
  - intros [([k1 s1] & [= <- <-] & Hin1) ([k2 s2] & [= Hk12 Hn12] & Hin2)].
    apply Hv1 in Hin1 as (Hk1 & Hl1 & Ha1 & Hs1 & Hfree1).
    apply Hv2 in Hin2 as (Hk2 & Hl2 & Ha2 & Hs2 & Hfree2).
    subst k2. exists (k1, s1). split; [done|]. apply Hv.
    split_and!; try done.
    intros sh [Hsh|Hsh]%elem_of_app; auto.
Qed.

Lemma getSeatsVacant_app_witness :
  1 ≠ 0 ∧ [1] ≠ [] ∧ [3] ≠ []
  ∧ ∃ l1 l2 l,
      getSeatsVacant 1 [1] seat1_occupied = (seat1_occupied, Json l1)
      ∧ getSeatsVacant 1 [3] seat1_occupied = (seat1_occupied, Json l2)
      ∧ getSeatsVacant 1 ([1] ++ [3]) seat1_occupied = (seat1_occupied, Json l)
      ∧ ∀ x, x ∈ l ↔ x ∈ l1 ∧ x ∈ l2.
Proof.
  assert (1 ≠ 0) as H0 by done.
  assert ([1] ≠ @nil Z) as H1 by done.
  assert ([3] ≠ @nil Z) as H2 by done.
  split; [exact H0|]. split; [exact H1|]. split; [exact H2|].
  exact (getSeatsVacant_app seat1_occupied 1 [1] [3] H0 H1 H2).
Defined.

Lemma seatAllocations_constraints_None data st :
  is_Some (rows (seats st) !! alloc_seatId data) →
  is_Some (rows (shifts st) !! alloc_shiftId data) →
  (∀ sid, alloc_studentId data = Some sid →
          is_Some (rows (students st) !! sid)) →
  seatAllocations_constraints data st = None.
Proof.
  intros H1 H2 H3. unfold seatAllocations_constraints.
  rewrite !first_error_None, !references_is_Some by done.
  split_and!; try done. destruct (alloc_studentId data) as [sid|]; [|done].
  apply references_is_Some. by apply H3.
Qed.

(** X4. [createSeatAllocation], for an allocation with status "occupied" that
    names an existing seat, shift and student, inserts it under a fresh
    key whether or not the seat is already occupied in that shift.
    Afterwards the seat is occupied in that shift, nothing else about
    occupancy changes, and [getVacantSeatsForShifts] offers the same seats
    as before except this one for a request that includes the shift: the
    seat stays available in the other shifts. *)
Theorem createSeatAllocation_occupies (st : Store) (data : SeatAllocation) :
  consistent st →
  is_Some (rows (seats st) !! alloc_seatId data) →
  is_Some (rows (shifts st) !! alloc_shiftId data) →
  (∀ sid, alloc_studentId data = Some sid →
          is_Some (rows (students st) !! sid)) →
  alloc_status data = "occupied" →
  alloc_isActive data = true →
  ∃ st' id,
    createSeatAllocation data st = (st', Ok (id, data))
    ∧ rows (seatAllocations st) !! id = None
    ∧ rows (seatAllocations st') !! id = Some data
    ∧ (∀ seatId shiftId,
         occupied st' seatId shiftId ↔
           occupied st seatId shiftId
           ∨ (seatId = alloc_seatId data ∧ shiftId = alloc_shiftId data))
    ∧ ∀ libraryId shiftIds l l',
        getVacantSeatsForShifts libraryId shiftIds st = (st, Ok l) →
        getVacantSeatsForShifts libraryId shiftIds st' = (st', Ok l') →
        ∀ x, x ∈ l' ↔
          x ∈ l ∧ ¬ (x.1 = alloc_seatId data ∧ alloc_shiftId data ∈ shiftIds).
Proof.
  intros Hc Hseat Hshift Hstu Hocc Hact.
  pose proof (table_ok_fresh _ (ok_seatAllocations _ Hc)) as Hfresh.
  unfold createSeatAllocation, insert_into.
  rewrite seatAllocations_constraints_None, insert_row_fresh by done.
  set (id := next_id (seatAllocations st)) in *.
  set (st' := set_seatAllocations _ st).
  assert (∀ seatId shiftId,
            occupied st' seatId shiftId ↔
              occupied st seatId shiftId
              ∨ (seatId = alloc_seatId data ∧ shiftId = alloc_shiftId data))
    as Hoccupied.
  { intros seatId shiftId. unfold occupied. cbn. split.
    - intros (k & a & Hk & Ha).
      destruct (decide (k = id)) as [->|Hne].
      + rewrite lookup_insert_eq in Hk. injection Hk as <-.
        destruct Ha as (<- & <- & _). by right.
      + rewrite lookup_insert_ne in Hk by done. left. eauto.
    - intros [(k & a & Hk & Ha)|[-> ->]].
      + exists k, a. split; [|done]. rewrite lookup_insert_ne; [done|].
        intros <-. congruence.
      + exists id, data. by rewrite lookup_insert_eq. }
  exists st', id. split_and!; [done|done|apply lookup_insert_eq|done|].
  intros libraryId shiftIds l l' Hl Hl' [k s].
  destruct (elem_of_getVacantSeatsForShifts st libraryId shiftIds)
    as (l0 & Hr & _ & Hv).
  destruct (elem_of_getVacantSeatsForShifts st' libraryId shiftIds)
    as (l0' & Hr' & _ & Hv').
  rewrite Hl in Hr. rewrite Hl' in Hr'.
  injection Hr as <-. injection Hr' as <-.
  rewrite Hv, Hv'. cbn. split.
  - intros (Hk & Hlib & Hon & Hvac & Hfree). split.
    + split_and!; try done. intros sh Hsh Ho. apply (Hfree sh Hsh).
      apply Hoccupied. by left.
    + intros [-> Hin]. apply (Hfree _ Hin). apply Hoccupied. by right.
  - intros [(Hk & Hlib & Hon & Hvac & Hfree) Hnot]. split_and!; try done.
    intros sh Hsh [Ho|[-> ->]]%Hoccupied.
    + by apply (Hfree sh).
    + by apply Hnot.
Qed.

Lemma createSeatAllocation_occupies_witness :
  let data := mkSeatAllocation 1 3 (Some 1) "occupied" (Some "male") true in
  consistent seat1_occupied
  ∧ is_Some (rows (seats seat1_occupied) !! alloc_seatId data)
  ∧ is_Some (rows (shifts seat1_occupied) !! alloc_shiftId data)
  ∧ (∀ sid, alloc_studentId data = Some sid →
            is_Some (rows (students seat1_occupied) !! sid))
  ∧ alloc_status data = "occupied"
  ∧ alloc_isActive data = true
  ∧ ∃ st' id,
      createSeatAllocation data seat1_occupied = (st', Ok (id, data))
      ∧ rows (seatAllocations seat1_occupied) !! id = None
      ∧ rows (seatAllocations st') !! id = Some data
      ∧ (∀ seatId shiftId,
           occupied st' seatId shiftId ↔
             occupied seat1_occupied seatId shiftId
             ∨ (seatId = alloc_seatId data ∧ shiftId = alloc_shiftId data))
      ∧ ∀ libraryId shiftIds l l',
          getVacantSeatsForShifts libraryId shiftIds seat1_occupied
          = (seat1_occupied, Ok l) →
          getVacantSeatsForShifts libraryId shiftIds st' = (st', Ok l') →
          ∀ x, x ∈ l' ↔
            x ∈ l
            ∧ ¬ (x.1 = alloc_seatId data ∧ alloc_shiftId data ∈ shiftIds).
Proof.
  intros data.
  assert (consistent seat1_occupied) as Hc
    by (apply reachable_consistent; repeat constructor).
  assert (is_Some (rows (seats seat1_occupied) !! alloc_seatId data)) as H1
    by (vm_compute; eauto).
  assert (is_Some (rows (shifts seat1_occupied) !! alloc_shiftId data)) as H2
    by (vm_compute; eauto).
  assert (∀ sid, alloc_studentId data = Some sid →
                 is_Some (rows (students seat1_occupied) !! sid)) as H3
    by (intros sid [= <-]; vm_compute; eauto).
  assert (alloc_status data = "occupied") as H4 by reflexivity.
  assert (alloc_isActive data = true) as H5 by reflexivity.
  split; [exact Hc|]. split; [exact H1|]. split; [exact H2|].
  split; [exact H3|]. split; [exact H4|]. split; [exact H5|].
  exact (createSeatAllocation_occupies seat1_occupied data Hc H1 H2 H3 H4 H5).
Defined.

(** X5. [deleteSeatAllocationsForStudent] never fails and deactivates every
    allocation of the student, whatever its seat, shift or library, and
    no other allocation.  Afterwards a seat is occupied in a shift exactly
    when another occupant holds an active occupied allocation there, so
    every seat that was offered as vacant is still offered. *)
Theorem deleteSeatAllocationsForStudent_releases (st : Store) (studentId : Z) :
  ∃ st',
    deleteSeatAllocationsForStudent studentId st = (st', Ok tt)
    ∧ (∀ k a, rows (seatAllocations st') !! k = Some a →
              alloc_studentId a = Some studentId → alloc_isActive a = false)
    ∧ (∀ k a, rows (seatAllocations st) !! k = Some a →
              alloc_studentId a ≠ Some studentId →
              rows (seatAllocations st') !! k = Some a)
    ∧ (∀ seatId shiftId,
         occupied st' seatId shiftId ↔
           ∃ k a, rows (seatAllocations st) !! k = Some a
                  ∧ alloc_seatId a = seatId
                  ∧ alloc_shiftId a = shiftId
                  ∧ alloc_status a = "occupied"
                  ∧ alloc_isActive a = true
                  ∧ alloc_studentId a ≠ Some studentId)
    ∧ ∀ libraryId shiftIds l l',
        getVacantSeatsForShifts libraryId shiftIds st = (st, Ok l) →
        getVacantSeatsForShifts libraryId shiftIds st' = (st', Ok l') →
        ∀ x, x ∈ l → x ∈ l'.
Proof.
  eexists. split; [reflexivity|].
  set (st' := set_seatAllocations _ st).
  assert (∀ k, rows (seatAllocations st') !! k
               = (λ a, if bool_decide (alloc_studentId a = Some studentId)
                       then alloc_deactivate a else a)
                 <$> rows (seatAllocations st) !! k) as Hl.
  { intros k. unfold st'. cbn. apply lookup_update_where. }
  assert (∀ seatId shiftId,
            occupied st' seatId shiftId ↔
              ∃ k a, rows (seatAllocations st) !! k = Some a
                     ∧ alloc_seatId a = seatId
                     ∧ alloc_shiftId a = shiftId
                     ∧ alloc_status a = "occupied"
                     ∧ alloc_isActive a = true
                     ∧ alloc_studentId a ≠ Some studentId) as Hoccupied.
  { intros seatId shiftId. unfold occupied. split.
    - intros (k & a' & Hk & Hs & Hsh & Ho & Hon). rewrite Hl in Hk.
      destruct (rows (seatAllocations st) !! k) as [a|] eqn:E; [|done].
      injection Hk as <-. exists k, a. case_bool_decide as Hstu; [done|].
      by split_and!.
    - intros (k & a & Hk & Hs & Hsh & Ho & Hon & Hother).
      exists k, a. rewrite Hl, Hk. cbn.
      by rewrite bool_decide_eq_false_2. }
  split_and!.
  - intros k a' Hk Hstu. rewrite Hl in Hk.
    destruct (rows (seatAllocations st) !! k) as [a|]; [|done].
    injection Hk as <-. case_bool_decide; [done|]. done.
  - intros k a Hk Hother. rewrite Hl, Hk. cbn.
    by rewrite bool_decide_eq_false_2.
  - done.
  - intros libraryId shiftIds l l' Hrun Hrun' [k s].
    destruct (elem_of_getVacantSeatsForShifts st libraryId shiftIds)
      as (l0 & Hr & _ & Hv).
    destruct (elem_of_getVacantSeatsForShifts st' libraryId shiftIds)
      as (l0' & Hr' & _ & Hv').
    rewrite Hrun in Hr. rewrite Hrun' in Hr'.
    injection Hr as <-. injection Hr' as <-.
    rewrite Hv, Hv'. cbn.
    intros (Hk & Hlib & Hon & Hvac & Hfree). split_and!; try done.
    intros sh Hsh (ka & a & Hka & Ha1 & Ha2 & Ha3 & Ha4 & _)%Hoccupied.
    apply (Hfree sh Hsh). by exists ka, a.
Qed.

(** ** The dashboard *)

Lemma length_filter_disjoint {A} (P Q : A → Prop)
    `{∀ x, Decision (P x)} `{∀ x, Decision (Q x)} (l : list A) :
  (∀ x, P x → Q x → False) →
  (length (filter P l) + length (filter Q l) ≤ length l)%nat.
Proof.
  intros Hdisj. induction l as [|x l IH]; [done|].
  rewrite !filter_cons. destruct (decide (P x)), (decide (Q x)); cbn; try lia.
  exfalso. eauto.
Qed.

Lemma getDashboardStats_run st libraryId :
  ∃ stats, getDashboardStats libraryId st = (st, Ok stats).
Proof.
  unfold getDashboardStats, bind, read, ret, getLibrary. eexists. reflexivity.
Qed.

(** X6. The occupied seats of the dashboard are counted from the allocations
    with status "occupied" without looking at [isActive]: releasing the
    seats of a student with [deleteSeatAllocationsForStudent] leaves every
    number of [getDashboardStats] as it was, also for the seats that
    [getVacantSeatsForShifts] offers again. *)
Theorem getDashboardStats_ignores_release
    (st : Store) (libraryId studentId : Z) :
  ∃ stats,
    getDashboardStats libraryId st = (st, Ok stats)
    ∧ getDashboardStats libraryId (deleteSeatAllocationsForStudent studentId st).1
      = ((deleteSeatAllocationsForStudent studentId st).1, Ok stats).
Proof.
  unfold getDashboardStats, bind, read, ret, getLibrary.
  eexists. split; [reflexivity|].
  unfold deleteSeatAllocationsForStudent, write. cbn [fst snd].
  do 2 f_equal. f_equal. f_equal.
  apply set_eq. intros x.
  rewrite !elem_of_list_to_set, !list_elem_of_fmap.
  unfold occupied_in_library. cbn [seats seatAllocations set_seatAllocations fst].
  split.
  - intros ([k a'] & -> & Hin). apply elem_of_select_where in Hin as [Hk Hc].
    rewrite lookup_update_where in Hk.
    destruct (rows (seatAllocations st) !! k) as [a|] eqn:E; [|done].
    injection Hk as <-. exists (k, a). split.
    + cbn. by destruct (bool_decide (alloc_studentId a = Some studentId)).
    + apply elem_of_select_where. split; [done|]. cbn in Hc.
      by destruct (bool_decide (alloc_studentId a = Some studentId)).
  - intros ([k a] & -> & Hin). apply elem_of_select_where in Hin as [Hk Hc].
    eexists (k, _). split; cycle 1.
    + apply elem_of_select_where. rewrite lookup_update_where, Hk. cbn.
      split; [reflexivity|].
      by destruct (bool_decide (alloc_studentId a = Some studentId)).
    + cbn. by destruct (bool_decide (alloc_studentId a = Some studentId)).
Qed.

(** X7. In the numbers of [getDashboardStats], boys and girls together are
    at most the active students (a student of any other gender is counted
    in neither), and the occupied seats are at most the seat rows of the
    library. *)
Theorem getDashboardStats_bounds (st : Store) (libraryId : Z) :
  ∃ stats,
    getDashboardStats libraryId st = (st, Ok stats)
    ∧ (stat_totalBoys stats + stat_totalGirls stats
       ≤ stat_activeStudents stats)%nat
    ∧ (stat_occupiedSeats stats
       ≤ length (select_where
                   (λ _ s, bool_decide (seat_libraryId s = libraryId))
                   (seats st)))%nat.
Proof.
  unfold getDashboardStats, bind, read, ret, getLibrary.
  eexists. split; [reflexivity|]. cbn. split.
  - apply length_filter_disjoint. intros x Hm Hf. congruence.
  - set (seatRows := select_where _ (seats st)).
    trans (size (list_to_set (fst <$> seatRows) : gset Z)).
    + apply subseteq_size. intros x.
      rewrite !elem_of_list_to_set, !list_elem_of_fmap.
      intros ([k a] & -> & Hin). unfold occupied_in_library in Hin.
      apply elem_of_select_where in Hin as [Hk Hc]. cbn in *.
      apply andb_true_iff in Hc as [Hc _].
      destruct (rows (seats st) !! alloc_seatId a) as [s|] eqn:E; [|done].
      exists (alloc_seatId a, s). split; [done|].
      by apply elem_of_select_where.
    + rewrite size_list_to_set, length_fmap; [done|].
      apply (sublist_NoDup _ ((map_to_list (rows (seats st))).*1)).
      * apply NoDup_fst_map_to_list.
      * apply fmap_sublist. apply sublist_filter.
Qed.


(** ** Student codes *)

Lemma pretty_N_go_nonzero (x : N) (s : string) :
  (0 < x)%N →
  ∃ c s', pretty_N_go x s = String c s' ∧ c ≠ "0"%char.
Proof.
  revert s. induction (N.lt_wf_0 x) as [x _ IH]. intros s Hx.
  rewrite pretty_N_go_step by done.
  destruct (decide (x < 10)%N) as [Hlt|Hge].
  - rewrite N.div_small, N.mod_small, pretty_N_go_0 by done.
    eexists _, _. split; [done|].
    assert (x = 1 ∨ x = 2 ∨ x = 3 ∨ x = 4 ∨ x = 5 ∨ x = 6
            ∨ x = 7 ∨ x = 8 ∨ x = 9)%N as Hcases by lia.
    repeat (destruct Hcases as [->|Hcases]; [done|]). by subst.
  - apply IH.
    + apply N.div_lt; lia.
    + apply N.div_str_pos. lia.
Qed.

Lemma strip_zeros_pretty (n : Z) : 0 < n → strip_zeros (pretty n) = pretty n.
Proof.
  intros Hn. destruct n as [|p|p]; try lia.
  unfold pretty, pretty_Z, pretty, pretty_positive, pretty, pretty_N.
  rewrite decide_False by done.
  destruct (pretty_N_go_nonzero (N.pos p) "") as (c & s' & -> & Hc); [lia|].
  cbn. destruct c as [[] [] [] [] [] [] [] []]; try done.
Qed.

Lemma strip_zeros_replicate (n : nat) (s : string) :
  strip_zeros (replicate_string n "0" +:+ s) = strip_zeros s.
Proof. induction n as [|n IH]; [done|]. cbn. apply IH. Qed.

Lemma append_inj_prefix (p x y : string) : p +:+ x = p +:+ y → x = y.
Proof. induction p as [|c p IH]; cbn; [done|]. intros [= H]. by apply IH. Qed.

Lemma student_code_inj (m n : Z) :
  0 < m → 0 < n → student_code m = student_code n → m = n.
Proof.
  intros Hm Hn Heq. unfold student_code in Heq.
  apply append_inj_prefix in Heq. unfold padStart in Heq.
  apply (f_equal strip_zeros) in Heq.
  rewrite !strip_zeros_replicate, !strip_zeros_pretty in Heq by done.
  by apply (inj pretty) in Heq.
Qed.

Lemma max_id_list_ge (kr : Z * Student) (l : list (Z * Student)) x :
  x ∈ kr :: l → x.1 ≤ foldr (λ y m, Z.max y.1 m) kr.1 l.
Proof.
  induction l as [|y l IH]; cbn.
  - intros ->%list_elem_of_singleton. lia.
  - intros [->|[->|Hin]%elem_of_cons]%elem_of_cons.
    + assert (kr ∈ kr :: l) as H%IH by left. lia.
    + lia.
    + assert (x ∈ kr :: l) as H%IH by by right. lia.
Qed.

Lemma max_id_ge (t : Table Student) k s :
  rows t !! k = Some s → k ≤ max_id t.
Proof.
  intros Hk%elem_of_map_to_list. unfold max_id.
  destruct (map_to_list (rows t)) as [|kr l]; [by apply elem_of_nil in Hk|].
  by apply (max_id_list_ge kr l (k, s)).
Qed.

Lemma max_id_list_elem (kr : Z * Student) (l : list (Z * Student)) :
  ∃ x, x ∈ kr :: l ∧ foldr (λ y m, Z.max y.1 m) kr.1 l = x.1.
Proof.
  induction l as [|y l (x & Hin & IH)]; cbn.
  - exists kr. split; [left|done].
  - rewrite IH. destruct (Z.max_spec y.1 x.1) as [[_ ->]|[_ ->]].
    + exists x. split; [|done].
      apply elem_of_cons in Hin as [->|Hin]; [left|by right; right].
    + exists y. split; [by right; left|done].
Qed.

Lemma max_id_lt (t : Table Student) :
  table_ok t → 0 ≤ max_id t < next_id t.
Proof.
  intros [Hpos Hkeys]. unfold max_id.
  destruct (map_to_list (rows t)) as [|kr l] eqn:E; [lia|].
  destruct (max_id_list_elem kr l) as ([k s] & Hin & ->). cbn.
  rewrite <- E in Hin. apply elem_of_map_to_list in Hin.
  apply Hkeys in Hin. lia.
Qed.

Lemma generateStudentId_run libraryId st :
  generateStudentId libraryId st
  = (st, Ok (student_code (max_id (students st) + 1))).
Proof. reflexivity. Qed.

(** The code that [generateStudentId] returns is carried by no student. *)
Lemma student_code_fresh st k s :
  consistent st → codes_ok st →
  rows (students st) !! k = Some s →
  stu_studentId s ≠ student_code (max_id (students st) + 1).
Proof.
  intros Hc Hcodes Hk Heq.
  destruct (Hcodes k s Hk) as (n & Hn & Hcode).
  pose proof (max_id_ge _ _ _ Hk) as Hmax.
  rewrite Hcode in Heq. apply student_code_inj in Heq; lia.
Qed.

#[global] Instance same_students_preorder : PreOrder same_students.
Proof.
  split; unfold same_students; [done|]. intros st1 st2 st3. congruence.
Qed.

Create HintDb student_db.

Lemma student_insert_other {A} (get : Store → Table A)
    (set : Table A → Store → Store) check (r : A) :
  (∀ t st, students (set t st) = students st) →
  steps_in same_students (insert_into get set check r).
Proof. intros Hframe. steps_insert. intros st. apply Hframe. Qed.

Lemma student_createLibrary l : steps_in same_students (createLibrary l).
Proof. by apply student_insert_other. Qed.
Lemma student_createShift s : steps_in same_students (createShift s).
Proof. by apply student_insert_other. Qed.
Lemma student_createSeat s : steps_in same_students (createSeat s).
Proof. by apply student_insert_other. Qed.
Lemma student_createSeatAllocation a :
  steps_in same_students (createSeatAllocation a).
Proof. by apply student_insert_other. Qed.
Lemma student_createSubscription s :
  steps_in same_students (createSubscription s).
Proof. by apply student_insert_other. Qed.
Lemma student_deleteSeatAllocationsForStudent studentId :
  steps_in same_students (deleteSeatAllocationsForStudent studentId).
Proof. by intros st. Qed.
Lemma student_cancelSubscription id :
  steps_in same_students (cancelSubscription id).
Proof. by intros st. Qed.
Lemma student_renewSubscription studentId data :
  steps_in same_students (renewSubscription studentId data).
Proof.
  steps_bind; [by intros st|]. intros _. apply student_createSubscription.
Qed.
Lemma student_createPayment payment :
  steps_in same_students (createPayment payment).
Proof.
  intros st. rewrite createPayment_run.
  by destruct (insert_row _ (payment_row payment) (payments st))
    as [tp [created|e]].
Qed.

#[global] Hint Resolve student_createLibrary student_createShift
  student_createSeat student_createSeatAllocation student_createSubscription
  student_deleteSeatAllocationsForStudent student_cancelSubscription
  student_renewSubscription student_createPayment : student_db.

(** What a registration does to [students]: one insert, of the student
    of the request under the generated code. *)
Lemma postStudents_students body st :
  students (postStudents body st).1
  = (insert_row
       (students_constraints
          (registration_student body
             (student_code (max_id (students st) + 1))) st)
       (registration_student body (student_code (max_id (students st) + 1)))
       (students st)).1.
Proof.
  unfold postStudents, try_catch. cbv zeta.
  unfold bind at 1. rewrite generateStudentId_run. cbn [fst snd].
  unfold bind at 1. unfold createStudent, insert_into.
  destruct (insert_row _ _ (students st)) as [t [student|e]]; [|done].
  cbn [fst snd].
  match goal with
  | |- students (let (_, _) := ?m ?s in _).1 = _ =>
      assert (steps_in same_students m) as Hrest;
      [unfold getShiftsByLibrary; steps_with student_db|];
      specialize (Hrest s); destruct (m s) as [st' [r|e]]; exact Hrest
  end.
Qed.

Lemma step_students r st :
  students (step r st) = students st
  ∨ ∃ body, r = Register body.
Proof.
  destruct r; cbn [step]; [right; eauto|left..];
    match goal with
    | |- students (?m st).1 = _ =>
        revert st; change (steps_in same_students m)
    end.
  - unfold postPayments. steps_try_catch. steps_with student_db.
  - unfold postSubscriptionsRenew, getActiveSubscriptionByStudent.
    steps_try_catch. steps_with student_db.
  - unfold patchSubscriptionsCancel. steps_try_catch. steps_with student_db.
  - unfold onboardLibrary. steps_with student_db.
  - apply student_createSeat.
  - apply student_createSeatAllocation.
  - apply student_deleteSeatAllocationsForStudent.
Qed.

Lemma codes_ok_step r st :
  consistent st → codes_ok st → codes_ok (step r st).
Proof.
  intros Hc Hcodes.
  destruct (step_students r st) as [Heq|[body ->]].
  { unfold codes_ok. by rewrite Heq. }
  unfold codes_ok. cbn [step]. rewrite postStudents_students.
  intros k s Hk. apply insert_row_lookup_inv in Hk as [Hk|(-> & -> & _)].
  - by apply Hcodes.
  - exists (max_id (students st) + 1). split; [|done].
    pose proof (max_id_lt _ (ok_students _ Hc)). lia.
Qed.

Lemma students_constraints_unique stu st k s :
  students_constraints stu st = None →
  rows (students st) !! k = Some s →
  stu_studentId s ≠ stu_studentId stu.
Proof.
  intros Hcheck Hk Heq. unfold students_constraints in Hcheck.
  apply first_error_None in Hcheck as [_ Hcheck].
  assert ((k, s) ∈ select_where
            (λ _ s0, bool_decide (stu_studentId s0 = stu_studentId stu))
            (students st)) as Hin.
  { apply elem_of_select_where. split; [done|]. by apply bool_decide_eq_true. }
  destruct (select_where _ (students st)); [|done].
  by apply elem_of_nil in Hin.
Qed.

Lemma codes_unique_step r st : codes_unique st → codes_unique (step r st).
Proof.
  intros Huniq.
  destruct (step_students r st) as [Heq|[body ->]].
  { unfold codes_unique. by rewrite Heq. }
  unfold codes_unique. cbn [step]. rewrite postStudents_students.
  set (stu := registration_student body _).
  intros k1 k2 s1 s2 H1 H2 Hcode.
  apply insert_row_lookup_inv in H1 as [H1|(-> & -> & Hc1 & _)];
    apply insert_row_lookup_inv in H2 as [H2|(-> & -> & Hc2 & _)].
  - by apply (Huniq k1 k2 s1 s2).
  - by destruct (students_constraints_unique stu st k1 s1).
  - by destruct (students_constraints_unique stu st k2 s2).
  - done.
Qed.

Lemma reachable_codes st : reachable st → codes_ok st ∧ codes_unique st.
Proof.
  induction 1 as [|st r Hr [IH1 IH2]].
  - split; [apply map_Forall_empty|]. intros k1 k2 s1 s2 H1.
    cbn in H1. by rewrite lookup_empty in H1.
  - split; [|by apply codes_unique_step].
    apply codes_ok_step; [by apply reachable_consistent|done].
Qed.

(** X8. In every reachable state the students carry pairwise distinct codes,
    and the code that [generateStudentId] returns, for any library, is
    carried by none of them: as long as the codes are those that the
    registrations have written, the unique constraint on the code rejects
    no registration. *)
Theorem generateStudentId_fresh (st : Store) (libraryId : Z) :
  reachable st →
  ∃ code,
    generateStudentId libraryId st = (st, Ok code)
    ∧ (∀ k s, rows (students st) !! k = Some s → stu_studentId s ≠ code)
    ∧ ∀ k1 k2 s1 s2,
        rows (students st) !! k1 = Some s1 →
        rows (students st) !! k2 = Some s2 →
        stu_studentId s1 = stu_studentId s2 → k1 = k2.
Proof.
  intros Hr. destruct (reachable_codes st Hr) as [Hcodes Huniq].
  eexists. split; [apply generateStudentId_run|]. split; [|done].
  intros k s. by apply student_code_fresh; [apply reachable_consistent|].
Qed.

Lemma generateStudentId_fresh_witness :
  reachable two_libraries
  ∧ ∃ code,
      generateStudentId 2 two_libraries = (two_libraries, Ok code)
      ∧ (∀ k s, rows (students two_libraries) !! k = Some s →
                stu_studentId s ≠ code)
      ∧ ∀ k1 k2 s1 s2,
          rows (students two_libraries) !! k1 = Some s1 →
          rows (students two_libraries) !! k2 = Some s2 →
          stu_studentId s1 = stu_studentId s2 → k1 = k2.
Proof.
  assert (reachable two_libraries) as Hr
    by apply reachable_run, reachable_empty.
  split; [exact Hr|]. exact (generateStudentId_fresh two_libraries 2 Hr).
Defined.

(** ** Registration *)

Lemma students_constraints_None stu st :
  is_Some (rows (libraries st) !! stu_libraryId stu) →
  (∀ k s, rows (students st) !! k = Some s →
          stu_studentId s ≠ stu_studentId stu) →
  students_constraints stu st = None.
Proof.
  intros Hlib Hfresh. unfold students_constraints.
  rewrite first_error_None, references_is_Some by done. split; [done|].
  rewrite select_where_nil; [done|].
  intros k s Hk. apply bool_decide_eq_false. by apply (Hfresh k).
Qed.

Lemma insert_row_rejected {A} e (r : A) t :
  insert_row (Some e) r t = (mkTable (rows t) (next_id t + 1), Err e).
Proof. reflexivity. Qed.



Lemma subscriptions_constraints_no_seat sub st :
  rows (seats st) !! sub_seatId sub = None →
  ∃ e, subscriptions_constraints sub st = Some e.
Proof.
  intros Hseat. destruct (subscriptions_constraints sub st) as [e|] eqn:E;
    [eauto|exfalso].
  unfold subscriptions_constraints in E.
  rewrite !first_error_None in E. destruct E as (_ & _ & E).
  apply references_None in E as [s E]. congruence.
Qed.



(** X11. A registration that names a library that does not exist is answered
    with 500 and adds no row to any table; it only uses up one value of
    the sequence of [students]. *)
Theorem registration_unknown_library (st : Store) (body : RegistrationBody) :
  rows (libraries st) !! reg_libraryId body = None →
  postStudents body st
  = (set_students (mkTable (rows (students st)) (next_id (students st) + 1)) st,
     Failure 500 "Failed to register student").
Proof.
  intros Hlib. unfold postStudents, try_catch. cbv zeta.
  unfold bind at 1. rewrite generateStudentId_run. cbn [fst snd].
  unfold bind at 1. unfold createStudent, insert_into.
  unfold students_constraints at 1, references at 1. cbn [stu_libraryId registration_student].
  rewrite Hlib. cbn [first_error]. by rewrite insert_row_rejected.
Qed.

Lemma registration_unknown_library_witness :
  rows (libraries after_S) !! reg_libraryId body_no_library = None
  ∧ postStudents body_no_library after_S
    = (set_students (mkTable (rows (students after_S))
                             (next_id (students after_S) + 1)) after_S,
       Failure 500 "Failed to register student").
Proof.
  assert (rows (libraries after_S) !! reg_libraryId body_no_library = None)
    as Hlib by (vm_compute; reflexivity).
  split; [exact Hlib|].
  exact (registration_unknown_library after_S body_no_library Hlib).
Defined.

(** ** Times and hours of a registration *)

Lemma string_leb_trans (s1 s2 s3 : string) :
  String.leb s1 s2 = true → String.leb s2 s3 = true → String.leb s1 s3 = true.
Proof.
  unfold String.leb. revert s2 s3.
  induction s1 as [|c1 s1 IH]; intros [|c2 s2] [|c3 s3]; cbn; try done.
  unfold Ascii.compare.
  destruct (N.compare_spec (N_of_ascii c1) (N_of_ascii c2)) as [H12|H12|H12];
    destruct (N.compare_spec (N_of_ascii c2) (N_of_ascii c3)) as [H23|H23|H23];
    try done;
    destruct (N.compare_spec (N_of_ascii c1) (N_of_ascii c3)) as [H13|H13|H13];
    try done; try lia.
  apply IH.
Qed.

#[global] Instance le_on_string_total {A} (f : A → string) :
  Total (le_on_string f).
Proof. intros a b. apply String.leb_total. Qed.

#[global] Instance le_on_string_trans {A} (f : A → string) :
  Transitive (le_on_string f).
Proof. intros a b c. apply string_leb_trans. Qed.

#[global] Instance ge_on_string_total {A} (f : A → string) :
  Total (flip (le_on_string f)).
Proof. intros a b. apply String.leb_total. Qed.

#[global] Instance ge_on_string_trans {A} (f : A → string) :
  Transitive (flip (le_on_string f)).
Proof. intros a b c H1 H2. by apply (string_leb_trans _ _ _ H2 H1). Qed.

Lemma head_merge_sort_least {A} (R : relation A) `{!RelDecision R}
    `{!Total R} `{!Transitive R} (l : list A) :
  l ≠ [] →
  ∃ h, head (merge_sort R l) = Some h ∧ h ∈ l ∧ ∀ x, x ∈ l → R h x.
Proof.
  intros Hne.
  pose proof (StronglySorted_merge_sort R l) as Hsorted.
  pose proof (merge_sort_Permutation R l) as Hperm.
  destruct (merge_sort R l) as [|h t] eqn:E.
  { apply Permutation_nil_l in Hperm. done. }
  exists h. split; [done|]. split.
  - rewrite <- Hperm. left.
  - intros x Hx. rewrite <- Hperm in Hx.
    apply StronglySorted_inv in Hsorted as [_ Hall].
    apply elem_of_cons in Hx as [->|Hx].
    + by destruct (total R h h).
    + by apply (proj1 (Forall_forall _ _) Hall).
Qed.

(** X12. The times and hours that a registration derives from the shifts of
    the library whose id is requested.  When no such shift exists the
    subscription still gets a row: 0 hours, plan "0h Plan", from "06:00"
    to "12:00".  Otherwise, the times being written as HH:MM, the start
    is the start time of a selected shift and the earliest of them, and
    the end is the end time of a selected shift and the latest of them,
    times being compared as strings. *)
Theorem registration_row_times
    (body : RegistrationBody) (student : Z) (allShifts : list (Row Shift)) :
  let selected := filter (λ s : Row Shift, s.1 ∈ reg_shiftIds body) allShifts in
  let row := subscription_row (registration_row body student allShifts) in
  (selected = [] →
     sub_totalHours row = 0 ∧ sub_planName row = "0h Plan"
     ∧ sub_shiftStart row = "06:00" ∧ sub_shiftEnd row = "12:00")
  ∧ (selected ≠ [] →
     (∀ s, s ∈ selected → is_time (shift_startTime s.2) = true) →
     (∃ s, s ∈ selected ∧ sub_shiftStart row = shift_startTime s.2)
     ∧ ∀ s, s ∈ selected →
            String.leb (sub_shiftStart row) (shift_startTime s.2) = true)
  ∧ (selected ≠ [] →
     (∀ s, s ∈ selected → is_time (shift_endTime s.2) = true) →
     (∃ s, s ∈ selected ∧ sub_shiftEnd row = shift_endTime s.2)
     ∧ ∀ s, s ∈ selected →
            String.leb (shift_endTime s.2) (sub_shiftEnd row) = true).
Proof.
  intros selected row. unfold row, subscription_row, registration_row.
  cbv zeta. fold selected.
  cbn [sub_totalHours sub_planName sub_shiftStart sub_shiftEnd
       isub_totalHours isub_planName isub_shiftStart isub_shiftEnd].
  split_and!.
  - intros ->. by vm_compute.
  - intros Hne Hstart. unfold sort_by_asc.
    destruct (head_merge_sort_least
                (le_on_string (λ s : Row Shift, shift_startTime s.2))
                selected Hne) as (h & -> & Hin & Hleast).
    cbn. rewrite bool_decide_eq_false_2
      by (intros Hnil; specialize (Hstart h Hin); by rewrite Hnil in Hstart).
    split; [by exists h|]. intros s Hs. by apply Hleast.
  - intros Hne Hend. unfold sort_by_desc, sort_by_asc.
    set (byStart := merge_sort _ selected).
    assert (byStart ≡ₚ selected) as Hperm by apply merge_sort_Permutation.
    assert (byStart ≠ []) as Hne'.
    { intros Hnil. rewrite Hnil in Hperm.
      by apply Permutation_nil_l in Hperm. }
    destruct (head_merge_sort_least
                (flip (le_on_string (λ s : Row Shift, shift_endTime s.2)))
                byStart Hne') as (h & -> & Hin & Hgreatest).
    rewrite Hperm in Hin. cbn.
    rewrite bool_decide_eq_false_2
      by (intros Hnil; specialize (Hend h Hin); by rewrite Hnil in Hend).
    split; [by exists h|]. intros s Hs. apply (Hgreatest s).
    by rewrite Hperm.
Qed.


(** ** One active subscription per student *)

#[global] Instance same_subscriptions_preorder : PreOrder same_subscriptions.
Proof.
  split; unfold same_subscriptions; [done|]. intros st1 st2 st3. congruence.
Qed.

Create HintDb subscription_db.

Lemma subscription_insert_other {A} (get : Store → Table A)
    (set : Table A → Store → Store) check (r : A) :
  (∀ t st, subscriptions (set t st) = subscriptions st) →
  steps_in same_subscriptions (insert_into get set check r).
Proof. intros Hframe. steps_insert. intros st. apply Hframe. Qed.

Lemma subscription_createLibrary l :
  steps_in same_subscriptions (createLibrary l).
Proof. by apply subscription_insert_other. Qed.
Lemma subscription_createShift s : steps_in same_subscriptions (createShift s).
Proof. by apply subscription_insert_other. Qed.
Lemma subscription_createSeat s : steps_in same_subscriptions (createSeat s).
Proof. by apply subscription_insert_other. Qed.
Lemma subscription_createSeatAllocation a :
  steps_in same_subscriptions (createSeatAllocation a).
Proof. by apply subscription_insert_other. Qed.
Lemma subscription_createStudent s :
  steps_in same_subscriptions (createStudent s).
Proof. by apply subscription_insert_other. Qed.
Lemma subscription_deleteSeatAllocationsForStudent studentId :
  steps_in same_subscriptions (deleteSeatAllocationsForStudent studentId).
Proof. by intros st. Qed.

#[global] Hint Resolve subscription_createLibrary subscription_createShift
  subscription_createSeat subscription_createSeatAllocation
  subscription_createStudent subscription_deleteSeatAllocationsForStudent
  : subscription_db.

Lemma subscription_onboardLibrary name totalSeats :
  steps_in same_subscriptions (onboardLibrary name totalSeats).
Proof. unfold onboardLibrary. steps_with subscription_db. Qed.

(** A payment changes neither the student nor the status of a row. *)
Lemma pay_into_same_owner payment t j :
  ∃ f, rows (pay_into payment t) !! j = f <$> rows t !! j
       ∧ ∀ s, same_owner s (f s).
Proof.
  unfold pay_into. destruct (pay_overflow payment t).
  { exists id. split; [by destruct (rows t !! j)|done]. }
  case_bool_decide.
  - destruct (rows t !! ipay_subscriptionId payment) as [sub0|].
    + rewrite lookup_update_where. eexists. split; [done|].
      intros s. cbn. by case_bool_decide.
    + exists id. split; [by destruct (rows t !! j)|done].
  - exists id. split; [by destruct (rows t !! j)|done].
Qed.

Lemma createPayment_same_owner payment st j :
  ∃ f, rows (subscriptions (createPayment payment st).1) !! j
       = f <$> rows (subscriptions st) !! j
       ∧ ∀ s, same_owner s (f s).
Proof.
  rewrite createPayment_run.
  destruct (insert_row _ (payment_row payment) (payments st))
    as [tp [created|e]]; cbn.
  - apply pay_into_same_owner.
  - exists id. split; [by destruct (rows (subscriptions st) !! j)|done].
Qed.

(** What a registration does to [subscriptions]: nothing, or one insert
    of a row of the student it has just created. *)
Lemma postStudents_subscriptions body st :
  rows (subscriptions (postStudents body st).1) = rows (subscriptions st)
  ∨ rows (subscriptions st) !! next_id (subscriptions st) = None
    ∧ ∃ new,
        sub_studentId new = next_id (students st)
        ∧ ∀ j, rows (subscriptions (postStudents body st).1) !! j
               = if bool_decide (j = next_id (subscriptions st))
                 then Some new else rows (subscriptions st) !! j.
Proof.
  remember (subscriptions (postStudents body st).1) as t' eqn:Heq.
  unfold postStudents, try_catch in Heq. cbv zeta in Heq.
  unfold bind at 1 in Heq. rewrite generateStudentId_run in Heq.
  cbn [fst snd] in Heq.
  unfold bind at 1 in Heq. unfold createStudent, insert_into in Heq.
  destruct (insert_row_cases
              (students_constraints
                 (registration_student body
                    (student_code (max_id (students st) + 1))) st)
              (registration_student body
                 (student_code (max_id (students st) + 1)))
              (students st)) as [[e He]|(_ & _ & He)];
    rewrite He in Heq; clear He; [left; by subst t'|].
  cbn [fst snd] in Heq.
  unfold bind at 1 in Heq.
  unfold getShiftsByLibrary at 1, read at 1 in Heq. cbn [fst snd] in Heq.
  set (st1 := set_students _ st) in Heq.
  set (data := registration_row body _ _) in Heq.
  unfold bind at 1 in Heq. unfold createSubscription, insert_into in Heq.
  set (row := subscription_row data) in Heq.
  change (subscriptions st1) with (subscriptions st) in Heq.
  destruct (insert_row_cases
              (first_error (subscription_overflow data)
                           (subscriptions_constraints row st1)) row
              (subscriptions st)) as [[e He]|(_ & Hfresh & He)];
    rewrite He in Heq; clear He; [left; by subst t'|].
  right. split; [done|]. cbn [fst snd] in Heq.
  set (kb := next_id (subscriptions st)) in *.
  set (t2 := mkTable (<[kb:=row]> (rows (subscriptions st))) (kb + 1)) in Heq.
  set (st2 := set_subscriptions t2 st1) in Heq.
  assert (∀ j, rows t2 !! j
               = if bool_decide (j = kb)
                 then Some row else rows (subscriptions st) !! j) as Hl2.
  { intros j. unfold t2. cbn. destruct (decide (j = kb)) as [->|Hj].
    - rewrite bool_decide_eq_true_2 by done. apply lookup_insert_eq.
    - rewrite bool_decide_eq_false_2 by done. by rewrite lookup_insert_ne. }
  destruct (bool_decide (0 < reg_paidAmount body)%Q).
  - unfold bind at 1 in Heq. unfold bind at 1 in Heq.
    rewrite createPayment_run in Heq.
    set (payment := mkInsertPayment _ _ kb _ _ _ _ _) in Heq.
    destruct (insert_row _ (payment_row payment) (payments st2))
      as [tp [created|e]]; [|cbn in Heq; subst t'; by exists row].
    assert (t' = pay_into payment t2) as ->
      by (by destruct (pay_overflow payment (subscriptions st2))).
    clear Heq.
    destruct (pay_into_same_owner payment t2 kb) as (f & Hf & Hsame).
    exists (f row). split; [by rewrite (proj1 (Hsame row))|].
    intros j. destruct (decide (j = kb)) as [->|Hj].
    + by rewrite Hf, Hl2, !bool_decide_eq_true_2.
    + rewrite lookup_pay_into_ne by done.
      by rewrite Hl2, !bool_decide_eq_false_2.
  - unfold bind, ret in Heq. cbn in Heq. subst t'. by exists row.
Qed.

Lemma expired_for_not_active studentId s :
  sub_studentId s = studentId →
  sub_status (expired_for studentId s) ≠ "active".
Proof.
  intros Hs. unfold expired_for. rewrite bool_decide_eq_true_2 by done.
  case_bool_decide as Hstatus; cbn; done.
Qed.

Lemma expired_for_other studentId s :
  sub_studentId s ≠ studentId → expired_for studentId s = s.
Proof.
  intros Hs. unfold expired_for. by rewrite bool_decide_eq_false_2.
Qed.

Lemma expired_for_studentId studentId s :
  sub_studentId (expired_for studentId s) = sub_studentId s.
Proof. unfold expired_for. by destruct (_ && _). Qed.

(** What a renewal does to [subscriptions]: nothing, or else every active
    row of the student that is left is the one at the next key, and the
    rows of the other students keep their status. *)
Lemma postSubscriptionsRenew_subscriptions studentId body st :
  subscriptions (postSubscriptionsRenew studentId body st).1 = subscriptions st
  ∨ (∀ j s', rows (subscriptions (postSubscriptionsRenew studentId body st).1)
               !! j = Some s' →
             sub_studentId s' = studentId → sub_status s' = "active" →
             j = next_id (subscriptions st))
    ∧ (∀ j s', rows (subscriptions (postSubscriptionsRenew studentId body st).1)
                 !! j = Some s' →
               sub_studentId s' ≠ studentId →
               ∃ s, rows (subscriptions st) !! j = Some s ∧ same_owner s s').
Proof.
  remember (subscriptions (postSubscriptionsRenew studentId body st).1)
    as t' eqn:Heq.
  unfold postSubscriptionsRenew, try_catch in Heq. cbv zeta in Heq.
  unfold bind at 1 in Heq.
  unfold getActiveSubscriptionByStudent at 1, read at 1 in Heq.
  destruct (head _) as [activeSub|]; [|left; by subst t'].
  right. cbn [fst snd] in Heq.
  set (data := renewal_row studentId body activeSub.2) in Heq.
  unfold bind at 1 in Heq.
  unfold renewSubscription, bind at 1, write in Heq.
  unfold createSubscription, insert_into in Heq.
  set (row := subscription_row data) in Heq.
  cbn [subscriptions set_subscriptions] in Heq.
  set (t1 := update_where _ (sub_set_status "expired") (subscriptions st))
    in Heq.
  set (st1 := set_subscriptions t1 st) in Heq.
  set (kb := next_id (subscriptions st)).
  change (next_id t1) with kb in *.
  assert (∀ j, rows t1 !! j
               = expired_for studentId <$> rows (subscriptions st) !! j)
    as Hl1.
  { intros j. unfold t1. by rewrite lookup_update_where. }
  assert (∀ t2,
            (∀ j, j ≠ kb → rows t2 !! j = rows t1 !! j) →
            (∀ s', rows t2 !! kb = Some s' →
                   rows t1 !! kb = Some s' ∨ sub_studentId s' = studentId) →
            (∀ j s', rows t2 !! j = Some s' →
               sub_studentId s' = studentId → sub_status s' = "active" →
               j = kb)
            ∧ (∀ j s', rows t2 !! j = Some s' →
                 sub_studentId s' ≠ studentId →
                 ∃ s, rows (subscriptions st) !! j = Some s ∧ same_owner s s'))
    as Hshape.
  { intros t2 Hne Hkb.
    assert (∀ j s', rows t1 !! j = Some s' →
              (sub_studentId s' = studentId → sub_status s' ≠ "active")
              ∧ (sub_studentId s' ≠ studentId →
                 rows (subscriptions st) !! j = Some s')) as Hold.
    { intros j s' Hj. rewrite Hl1 in Hj.
      destruct (rows (subscriptions st) !! j) as [s|]; [|done].
      injection Hj as <-. split.
      - rewrite expired_for_studentId. apply expired_for_not_active.
      - rewrite expired_for_studentId. intros Hs.
        by rewrite expired_for_other. }
    split.
    - intros j s' Hj Hstu Hstatus.
      destruct (decide (j = kb)) as [|Hjk]; [done|exfalso].
      rewrite Hne in Hj by done. by apply (Hold j s' Hj).
    - intros j s' Hj Hstu. exists s'. split; [|done].
      destruct (decide (j = kb)) as [->|Hjk].
      + destruct (Hkb s' Hj) as [Hj'|]; [|done]. by apply (Hold kb s' Hj').
      + rewrite Hne in Hj by done. by apply (Hold j s' Hj). }
  destruct (insert_row_cases
              (first_error (subscription_overflow data)
                           (subscriptions_constraints row st1)) row t1)
    as [[e He]|(_ & Hfresh & He)];
    rewrite He in Heq; clear He; cbn [fst snd] in Heq.
  { subst t'. apply Hshape; cbn; auto. }
  change (next_id t1) with kb in *.
  set (t2 := mkTable (<[kb:=row]> (rows t1)) (kb + 1)) in Heq.
  set (st2 := set_subscriptions t2 st1) in Heq.
  destruct (bool_decide (0 < ren_paidAmount body)%Q).
  - unfold bind at 1 in Heq. unfold bind at 1 in Heq.
    rewrite createPayment_run in Heq.
    set (payment := mkInsertPayment _ _ kb _ _ _ _ _) in Heq.
    destruct (insert_row _ (payment_row payment) (payments st2))
      as [tp [created|e]];
      [assert (t' = pay_into payment t2) as ->
         by (by destruct (pay_overflow payment (subscriptions st2)))
      |cbn in Heq; subst t']; apply Hshape.
    + intros j Hj. rewrite lookup_pay_into_ne by done. cbn.
      by rewrite lookup_insert_ne.
    + intros s'. destruct (pay_into_same_owner payment t2 kb)
        as (f & -> & Hsame). cbn. rewrite lookup_insert_eq. cbn.
      intros [= <-]. right. by rewrite (proj1 (Hsame row)).
    + intros j Hj. cbn. by rewrite lookup_insert_ne.
    + intros s'. cbn. rewrite lookup_insert_eq. intros [= <-]. by right.
  - unfold bind, ret in Heq. cbn in Heq. subst t'. apply Hshape.
    + intros j Hj. cbn. by rewrite lookup_insert_ne.
    + intros s'. cbn. rewrite lookup_insert_eq. intros [= <-]. by right.
Qed.

Lemma unique_active_same st st' :
  rows (subscriptions st') = rows (subscriptions st) →
  unique_active st → unique_active st'.
Proof. unfold unique_active. by intros ->. Qed.

(** Rows that stem from rows of the same student and status. *)
Lemma unique_active_same_owner st st' :
  (∀ j s', rows (subscriptions st') !! j = Some s' →
           sub_status s' = "active" →
           ∃ s, rows (subscriptions st) !! j = Some s
                ∧ sub_studentId s = sub_studentId s'
                ∧ sub_status s = "active") →
  unique_active st → unique_active st'.
Proof.
  intros Hstem Huniq k1 k2 s1 s2 H1 H2 Hstu Ha1 Ha2.
  destruct (Hstem _ _ H1 Ha1) as (r1 & Hr1 & Hstu1 & Hact1).
  destruct (Hstem _ _ H2 Ha2) as (r2 & Hr2 & Hstu2 & Hact2).
  apply (Huniq k1 k2 r1 r2); congruence.
Qed.

Lemma unique_active_step r st :
  consistent st → unique_active st → unique_active (step r st).
Proof.
  intros Hc Huniq. destruct r; cbn [step].
  - destruct (postStudents_subscriptions body st)
      as [Heq|(Hfresh & new & Hnew & Hl)];
      [by apply (unique_active_same st)|].
    assert (∀ j s, rows (subscriptions st) !! j = Some s →
                   sub_studentId s ≠ next_id (students st)) as Hold.
    { intros j s Hj Heq.
      destruct (fk_sub_student _ Hc j s Hj _ eq_refl) as [x Hx].
      rewrite Heq, (table_ok_fresh _ (ok_students _ Hc)) in Hx. done. }
    intros k1 k2 s1 s2 H1 H2 Hstu Ha1 Ha2. rewrite Hl in H1, H2.
    destruct (decide (k1 = next_id (subscriptions st))) as [->|Hk1];
      destruct (decide (k2 = next_id (subscriptions st))) as [->|Hk2];
      [done|..].
    + rewrite bool_decide_eq_true_2 in H1 by done.
      rewrite bool_decide_eq_false_2 in H2 by done.
      injection H1 as <-. destruct (Hold k2 s2 H2). congruence.
    + rewrite bool_decide_eq_false_2 in H1 by done.
      rewrite bool_decide_eq_true_2 in H2 by done.
      injection H2 as <-. destruct (Hold k1 s1 H1). congruence.
    + rewrite bool_decide_eq_false_2 in H1, H2 by done.
      by apply (Huniq k1 k2 s1 s2).
  - apply (unique_active_same_owner st); [|done].
    intros j s' Hj Hact.
    assert (subscriptions (postPayments body st).1
            = subscriptions (createPayment body st).1) as Heq.
    { unfold postPayments, try_catch, bind, ret.
      by destruct (createPayment body st) as [st' [created|e]]. }
    rewrite Heq in Hj.
    destruct (createPayment_same_owner body st j) as (f & Hf & Hsame).
    rewrite Hf in Hj.
    destruct (rows (subscriptions st) !! j) as [s|]; [|done].
    injection Hj as <-. exists s. destruct (Hsame s) as [H1 H2].
    split; [done|]. split; congruence.
  - destruct (postSubscriptionsRenew_subscriptions studentId body st)
      as [Heq|[Hmine Hothers]];
      [apply (unique_active_same st); [by rewrite Heq|done]|].
    intros k1 k2 s1 s2 H1 H2 Hstu Ha1 Ha2.
    destruct (decide (sub_studentId s1 = studentId)) as [Hs1|Hs1].
    + rewrite (Hmine k1 s1), (Hmine k2 s2); congruence.
    + destruct (Hothers k1 s1 H1 Hs1) as (r1 & Hr1 & Hstu1 & Hact1).
      destruct (Hothers k2 s2 H2) as (r2 & Hr2 & Hstu2 & Hact2);
        [congruence|].
      apply (Huniq k1 k2 r1 r2); congruence.
  - apply (unique_active_same_owner st); [|done].
    intros j s' Hj Hact. cbn in Hj. rewrite lookup_update_where in Hj.
    destruct (rows (subscriptions st) !! j) as [s|]; [|done].
    injection Hj as <-. exists s. split; [done|].
    case_bool_decide; [done|auto].
  - apply (unique_active_same st); [|done].
    by rewrite (subscription_onboardLibrary name totalSeats st).
  - apply (unique_active_same st); [|done].
    by rewrite (subscription_createSeat seat st).
  - apply (unique_active_same st); [|done].
    by rewrite (subscription_createSeatAllocation data st).
  - by apply (unique_active_same st).
Qed.

Lemma reachable_unique_active st : reachable st → unique_active st.
Proof.
  induction 1 as [|st r Hr IH].
  - intros k1 k2 s1 s2 H1. cbn in H1. by rewrite lookup_empty in H1.
  - apply unique_active_step; [by apply reachable_consistent|done].
Qed.



(** ** Renewals that fail, cancellations and rejected payments *)

Lemma getActiveSubscriptionByStudent_some st studentId k s :
  active_subscription st studentId k s →
  ∃ activeSub,
    getActiveSubscriptionByStudent studentId st = (st, Ok (Some activeSub)).
Proof.
  intros (Hk & Hstu & Hstatus & Hon).
  unfold getActiveSubscriptionByStudent, read.
  match goal with
  | |- context [head ?l] =>
      assert ((k, s) ∈ l) as Hin; [|destruct l as [|x l']]
  end.
  - apply elem_of_select_where. split; [done|].
    by rewrite !andb_true_iff, !bool_decide_eq_true.
  - by apply elem_of_nil in Hin.
  - by exists x.
Qed.

(** X14. A renewal that names a library that does not exist, for a student
    with an active subscription, is answered with 500 after the active
    subscription has been marked expired: no row is inserted, no payment
    is recorded, and the student is left without an active subscription. *)
Theorem renewal_unknown_library
    (st : Store) (studentId : Z) (body : RenewalBody)
    (k : Z) (s : Subscription) :
  active_subscription st studentId k s →
  rows (libraries st) !! ren_libraryId body = None →
  ∃ st',
    postSubscriptionsRenew studentId body st
    = (st', Failure 500 "Failed to renew subscription")
    ∧ (∀ j, rows (subscriptions st') !! j
            = expired_for studentId <$> rows (subscriptions st) !! j)
    ∧ rows (subscriptions st') !! k = Some (sub_set_status "expired" s)
    ∧ (∀ j s', rows (subscriptions st') !! j = Some s' →
               sub_studentId s' = studentId → sub_status s' ≠ "active")
    ∧ payments st' = payments st.
Proof.
  intros Hact Hlib.
  destruct (getActiveSubscriptionByStudent_some _ _ _ _ Hact)
    as [activeSub Hget].
  destruct Hact as (Hk & Hstu & Hstatus & Hon).
  unfold postSubscriptionsRenew, try_catch. cbv zeta.
  unfold bind at 1. rewrite Hget. cbn [fst snd].
  unfold bind at 1. unfold renewSubscription, bind at 1, write.
  unfold createSubscription, insert_into.
  match goal with
  | |- context [first_error (subscription_overflow ?d)
                            (subscriptions_constraints ?sub ?s)] =>
      assert (∃ e, first_error (subscription_overflow d)
                               (subscriptions_constraints sub s) = Some e)
        as [e ->]
  end.
  { destruct (subscription_overflow _); cbn [first_error]; [eauto|].
    unfold subscriptions_constraints at 1, references at 1.
    cbn [sub_libraryId subscription_row isub_libraryId renewal_row libraries
         set_subscriptions].
    rewrite Hlib. cbn [first_error]. eauto. }
  rewrite insert_row_rejected.
  eexists. split; [reflexivity|]. cbn.
  assert (∀ j, rows (update_where
                       (λ _ s0, bool_decide (sub_studentId s0 = studentId)
                                && bool_decide (sub_status s0 = "active"))
                       (sub_set_status "expired") (subscriptions st)) !! j
               = expired_for studentId <$> rows (subscriptions st) !! j)
    as Hl by (intros j; by rewrite lookup_update_where).
  split_and!.
  - done.
  - rewrite Hl, Hk. cbn. unfold expired_for.
    by rewrite !bool_decide_eq_true_2.
  - intros j s' Hj Hs'. rewrite Hl in Hj.
    destruct (rows (subscriptions st) !! j) as [r|]; [|done].
    injection Hj as <-. rewrite expired_for_studentId in Hs'.
    by apply expired_for_not_active.
  - done.
Qed.

Lemma renewal_unknown_library_witness :
  active_subscription after_S 1 1 subscription_S
  ∧ rows (libraries after_S) !! ren_libraryId renewal_no_library = None
  ∧ ∃ st',
      postSubscriptionsRenew 1 renewal_no_library after_S
      = (st', Failure 500 "Failed to renew subscription")
      ∧ (∀ j, rows (subscriptions st') !! j
              = expired_for 1 <$> rows (subscriptions after_S) !! j)
      ∧ rows (subscriptions st') !! 1
        = Some (sub_set_status "expired" subscription_S)
      ∧ (∀ j s', rows (subscriptions st') !! j = Some s' →
                 sub_studentId s' = 1 → sub_status s' ≠ "active")
      ∧ payments st' = payments after_S.
Proof.
  assert (active_subscription after_S 1 1 subscription_S) as Hact
    by (by vm_compute).
  assert (rows (libraries after_S) !! ren_libraryId renewal_no_library = None)
    as Hlib by (vm_compute; reflexivity).
  split; [exact Hact|]. split; [exact Hlib|].
  exact (renewal_unknown_library after_S 1 renewal_no_library 1 subscription_S
           Hact Hlib).
Defined.

(** X15. The renewal handler answers 404 exactly when the student has no
    active subscription; it then leaves the store as it was. *)
Theorem renewal_not_found_iff (st : Store) (studentId : Z) (body : RenewalBody) :
  ((postSubscriptionsRenew studentId body st).2
   = Failure 404 "No active subscription found"
   ↔ ∀ k s, ¬ active_subscription st studentId k s)
  ∧ ((postSubscriptionsRenew studentId body st).2
     = Failure 404 "No active subscription found" →
     (postSubscriptionsRenew studentId body st).1 = st).
Proof.
  assert ((∀ k s, ¬ active_subscription st studentId k s) →
          postSubscriptionsRenew studentId body st
          = (st, Failure 404 "No active subscription found")) as Hnone.
  { intros Hnone. unfold postSubscriptionsRenew, try_catch. cbv zeta.
    unfold bind at 1.
    by rewrite (getActiveSubscriptionByStudent_none _ _ Hnone). }
  assert ((postSubscriptionsRenew studentId body st).2
          = Failure 404 "No active subscription found" →
          ∀ k s, ¬ active_subscription st studentId k s) as Hsome.
  { intros H404 k s Hact.
    destruct (getActiveSubscriptionByStudent_some _ _ _ _ Hact)
      as [activeSub Hget].
    unfold postSubscriptionsRenew, try_catch in H404. cbv zeta in H404.
    unfold bind at 1 in H404. rewrite Hget in H404. cbn [fst snd] in H404.
    unfold bind at 1 in H404.
    destruct (renewSubscription _ _ st) as [st1 [sub|e]]; [|done].
    destruct (bool_decide (0 < ren_paidAmount body)%Q).
    - unfold bind at 1 in H404. unfold bind at 1 in H404.
      destruct (createPayment _ st1) as [st2 [p|e]]; done.
    - done. }
  split; [split; [done|]|].
  - intros H. by rewrite Hnone.
  - intros H. by rewrite Hnone by auto.
Qed.

(** X16. The cancel handler answers 200 whatever the id: the row of that id,
    if there is one, gets status "cancelled" and keeps its other columns
    (the amounts stay as they are); if there is none the store is left as
    it was.  Cancelling again changes nothing more. *)
Theorem patchSubscriptionsCancel_spec (st : Store) (id : Z) :
  ∃ st',
    patchSubscriptionsCancel id st = (st', Json "Subscription cancelled")
    ∧ (∀ j, rows (subscriptions st') !! j
            = if bool_decide (j = id)
              then sub_set_status "cancelled" <$> rows (subscriptions st) !! j
              else rows (subscriptions st) !! j)
    ∧ st' = set_subscriptions (subscriptions st') st
    ∧ (rows (subscriptions st) !! id = None → st' = st)
    ∧ patchSubscriptionsCancel id st' = (st', Json "Subscription cancelled").
Proof.
  assert (∀ st0 j,
            rows (update_where (λ k _, bool_decide (k = id))
                    (sub_set_status "cancelled") (subscriptions st0)) !! j
            = if bool_decide (j = id)
              then sub_set_status "cancelled" <$> rows (subscriptions st0) !! j
              else rows (subscriptions st0) !! j) as Hl.
  { intros st0 j. rewrite lookup_update_where.
    case_bool_decide; by destruct (rows (subscriptions st0) !! j). }
  assert (∀ t t' : Table Subscription,
            next_id t' = next_id t → (∀ j, rows t' !! j = rows t !! j) →
            t' = t) as Hext.
  { intros [r n] [r' n']; cbn. intros -> Hrows. f_equal. by apply map_eq. }
  eexists. split; [reflexivity|]. cbn. split_and!.
  - apply Hl.
  - done.
  - intros Hnone.
    assert (update_where (λ k _, bool_decide (k = id))
              (sub_set_status "cancelled") (subscriptions st)
            = subscriptions st) as ->; [|by destruct st].
    apply Hext; [done|]. intros j. rewrite Hl.
    case_bool_decide as Hj; [|done]. subst j. by rewrite Hnone.
  - unfold patchSubscriptionsCancel, try_catch, cancelSubscription, bind,
      write, ret. cbn [fst snd subscriptions set_subscriptions].
    set (t := update_where _ _ (subscriptions st)).
    assert (update_where (λ k _, bool_decide (k = id))
              (sub_set_status "cancelled") t = t) as ->; [|done].
    apply Hext; [done|]. intros j. rewrite lookup_update_where.
    unfold t. rewrite Hl.
    case_bool_decide; by destruct (rows (subscriptions st) !! j).
Qed.

(** X17. A payment that names a library, a student or a subscription that
    does not exist is answered with 500: no payment row is recorded and
    no subscription is changed; only one value of the sequence of
    [payments] is used up. *)
Theorem postPayments_rejected (st : Store) (body : InsertPayment) :
  rows (libraries st) !! ipay_libraryId body = None
  ∨ rows (students st) !! ipay_studentId body = None
  ∨ rows (subscriptions st) !! ipay_subscriptionId body = None →
  postPayments body st
  = (set_payments (mkTable (rows (payments st)) (next_id (payments st) + 1)) st,
     Failure 500 "Failed to create payment").
Proof.
  intros Hmissing.
  assert (∃ e, first_error (numeric "amount" (ipay_amount body))
                           (payments_constraints (payment_row body) st)
               = Some e) as [e He].
  { destruct (numeric "amount" (ipay_amount body)); cbn [first_error];
      [eauto|].
    destruct (payments_constraints (payment_row body) st) as [e|] eqn:E;
      [eauto|exfalso].
    unfold payments_constraints in E. cbn [payment_row pay_libraryId
      pay_studentId pay_subscriptionId] in E. rewrite !first_error_None in E.
    destruct E as (E1 & E2 & E3).
    apply references_None in E1 as [x1 E1].
    apply references_None in E2 as [x2 E2].
    apply references_None in E3 as [x3 E3].
    destruct Hmissing as [H|[H|H]]; congruence. }
  unfold postPayments, try_catch. unfold bind at 1.
  by rewrite createPayment_run, He, insert_row_rejected.
Qed.

Lemma postPayments_rejected_witness :
  (rows (libraries after_S) !! ipay_libraryId payment_no_subscription = None
   ∨ rows (students after_S) !! ipay_studentId payment_no_subscription = None
   ∨ rows (subscriptions after_S) !! ipay_subscriptionId payment_no_subscription
     = None)
  ∧ postPayments payment_no_subscription after_S
    = (set_payments (mkTable (rows (payments after_S))
                             (next_id (payments after_S) + 1)) after_S,
       Failure 500 "Failed to create payment").
Proof.
  assert (rows (libraries after_S) !! ipay_libraryId payment_no_subscription
          = None
          ∨ rows (students after_S) !! ipay_studentId payment_no_subscription
            = None
          ∨ rows (subscriptions after_S)
              !! ipay_subscriptionId payment_no_subscription = None) as H
    by (right; right; vm_compute; reflexivity).
  split; [exact H|].
  exact (postPayments_rejected after_S payment_no_subscription H).
Defined.

(** ** Onboarding *)

Section insert_all.
Context {A : Type}.
Implicit Types t : Table A.

Lemma insert_all_cons (r : A) rs t :
  insert_all (r :: rs) t
  = insert_all rs (mkTable (<[next_id t := r]> (rows t)) (next_id t + 1)).
Proof. reflexivity. Qed.

Lemma table_ok_insert_all rs t : table_ok t → table_ok (insert_all rs t).
Proof.
  revert t. induction rs as [|r rs IH]; intros t Hok; [done|].
  rewrite insert_all_cons. apply IH.
  pose proof (table_ok_insert_row None r t Hok) as H.
  by rewrite insert_row_fresh in H by by apply table_ok_fresh.
Qed.

Lemma lookup_insert_all rs t j :
  table_ok t →
  rows (insert_all rs t) !! j
  = if bool_decide (next_id t ≤ j) then rs !! Z.to_nat (j - next_id t)
    else rows t !! j.
Proof.
  revert t. induction rs as [|r rs IH]; intros t Hok.
  - cbn. case_bool_decide as Hj; [|done].
    destruct (rows t !! j) as [x|] eqn:E; [|done].
    destruct Hok as [_ Hok]. specialize (Hok j x E). cbn in Hok. lia.
  - rewrite insert_all_cons, IH.
    2:{ pose proof (table_ok_insert_row None r t Hok) as H.
        by rewrite insert_row_fresh in H by by apply table_ok_fresh. }
    cbn [next_id rows].
    destruct (decide (next_id t + 1 ≤ j)) as [Hj|Hj].
    + rewrite !bool_decide_eq_true_2 by lia.
      replace (Z.to_nat (j - next_id t))
        with (S (Z.to_nat (j - (next_id t + 1)))) by lia.
      done.
    + rewrite bool_decide_eq_false_2 by done.
      destruct (decide (j = next_id t)) as [->|Hne].
      * rewrite lookup_insert_eq, bool_decide_eq_true_2 by lia.
        by replace (next_id t - next_id t) with 0 by lia.
      * rewrite lookup_insert_ne, bool_decide_eq_false_2 by lia. done.
Qed.

Lemma elem_of_keyed (k : Z) (rs : list A) j r :
  (j, r) ∈ keyed k rs ↔ k ≤ j ∧ rs !! Z.to_nat (j - k) = Some r.
Proof.
  unfold keyed. rewrite elem_of_lookup_imap. split.
  - intros (i & x & [= -> ->] & Hi). split; [lia|].
    by replace (Z.to_nat (k + Z.of_nat i - k)) with i by lia.
  - intros [Hj Hr]. exists (Z.to_nat (j - k)), r. split; [|done].
    f_equal. lia.
Qed.

Lemma NoDup_keyed (k : Z) (rs : list A) : NoDup (keyed k rs).
Proof.
  apply NoDup_alt. intros i1 i2 [j r]. unfold keyed.
  rewrite !list_lookup_imap.
  destruct (rs !! i1), (rs !! i2); cbn; try done.
  intros [= <- <-] [= H _]. lia.
Qed.

(** Selecting from a table after a run of inserts, when the condition
    holds of the inserted rows and of no row that was there before. *)
Lemma select_where_insert_all (cond : Z → A → bool) rs t :
  table_ok t →
  (∀ k r, rows t !! k = Some r → cond k r = false) →
  (∀ k r, (k, r) ∈ keyed (next_id t) rs → cond k r = true) →
  select_where cond (insert_all rs t) ≡ₚ keyed (next_id t) rs.
Proof.
  intros Hok Hold Hnew. apply NoDup_Permutation.
  - apply NoDup_select_where.
  - apply NoDup_keyed.
  - intros [j r]. rewrite elem_of_select_where, elem_of_keyed.
    rewrite lookup_insert_all by done. case_bool_decide as Hj.
    + split; [tauto|]. intros [_ Hr]. split; [done|].
      apply Hnew. by apply elem_of_keyed.
    + split; [|tauto]. intros [Hr Hc]. rewrite (Hold _ _ Hr) in Hc. done.
Qed.
End insert_all.

Lemma for_each_ext {A} (l : list A) (body body' : A → M unit) :
  (∀ x, body x = body' x) → for_each l body = for_each l body'.
Proof.
  intros Hext. induction l as [|x l IH]; [done|]. cbn. by rewrite Hext, IH.
Qed.

Section for_each_insert.
Context {A B : Type}.
Context (get : Store → Table A) (set : Table A → Store → Store).
Context (check : A → Store → option DbError) (mk : B → A) (st0 : Store).
Hypothesis Hget : ∀ t, get (set t st0) = t.
Hypothesis Hset : ∀ t t', set t (set t' st0) = set t st0.
Hypothesis Hcheck : ∀ b t, check (mk b) (set t st0) = None.

(** A loop of inserts that the constraints accept. *)
Lemma for_each_insert (l : list B) (t : Table A) :
  table_ok t →
  for_each l (λ b, let* _ := insert_into get set (check (mk b)) (mk b) in
                   ret tt)
           (set t st0)
  = (set (insert_all (mk <$> l) t) st0, Ok tt).
Proof.
  revert t. induction l as [|b l IH]; intros t Hok; [done|].
  cbn [for_each fmap list_fmap]. rewrite insert_all_cons.
  unfold bind at 1. unfold bind at 1. unfold insert_into.
  rewrite Hcheck, Hget, insert_row_fresh by by apply table_ok_fresh.
  cbn [ret]. rewrite Hset. apply IH.
  pose proof (table_ok_insert_row None (mk b) t Hok) as H.
  by rewrite insert_row_fresh in H by by apply table_ok_fresh.
Qed.
End for_each_insert.

Lemma StronglySorted_lookup {A} (R : relation A) (l : list A) :
  (∀ i j x y, (i < j)%nat → l !! i = Some x → l !! j = Some y → R x y) →
  StronglySorted R l.
Proof.
  induction l as [|a l IH]; intros H; constructor.
  - apply IH. intros i j x y Hij Hi Hj. apply (H (S i) (S j)); [lia|done..].
  - apply Forall_forall. intros y [j Hj]%list_elem_of_lookup.
    apply (H 0%nat (S j)); [lia|done..].
Qed.

(** The store that [onboardLibrary] leaves. *)
Lemma onboardLibrary_run name totalSeats st :
  consistent st →
  let id := next_id (libraries st) in
  let library := mkLibrary name totalSeats true in
  onboardLibrary name totalSeats st
  = (set_seats (insert_all (onboarded_seats id totalSeats) (seats st))
       (set_shifts (insert_all (onboarded_shifts id) (shifts st))
          (set_libraries
             (mkTable (<[id := library]> (rows (libraries st))) (id + 1))
             st)),
     Ok (id, library)).
Proof.
  intros Hc id library. unfold onboardLibrary.
  unfold bind at 1. unfold createLibrary, insert_into, libraries_constraints.
  rewrite insert_row_fresh by apply (table_ok_fresh _ (ok_libraries _ Hc)).
  fold id library. cbn [fst snd].
  set (st1 := set_libraries _ st).
  assert (rows (libraries st1) !! id = Some library) as Hlib
    by apply lookup_insert_eq.
  unfold bind at 1.
  rewrite (for_each_ext shiftData _
             (λ s, let* _ := insert_into shifts set_shifts
                               (shifts_constraints
                                  ((λ s : string * string * string * Z,
                                      let '(n, startTime, endTime, totalHours)
                                        := s in
                                      mkShift id n startTime endTime
                                              totalHours true) s))
                               ((λ s : string * string * string * Z,
                                   let '(n, startTime, endTime, totalHours)
                                     := s in
                                   mkShift id n startTime endTime
                                           totalHours true) s) in
                   ret tt))
    by (by intros [[[n a] b] h]).
  replace st1 with (set_shifts (shifts st) st1) at 1 by (by destruct st).
  rewrite (for_each_insert shifts set_shifts shifts_constraints _ st1);
    [|done|done| |apply Hc].
  2:{ intros [[[n a] b] h] t. unfold shifts_constraints, references.
      change (libraries (set_shifts t st1)) with (libraries st1).
      cbn [shift_libraryId]. by rewrite Hlib. }
  fold (onboarded_shifts id). cbn [fst snd].
  set (st2 := set_shifts _ st1).
  unfold bind at 1.
  replace st2 with (set_seats (seats st) st2) at 1 by (by destruct st).
  rewrite (for_each_insert seats set_seats seats_constraints
             (λ i, mkSeat id i "vacant" true) st2);
    [|done|done| |apply Hc].
  2:{ intros i t. unfold seats_constraints, references.
      change (libraries (set_seats t st2)) with (libraries st1).
      cbn [seat_libraryId]. by rewrite Hlib. }
  done.
Qed.

Lemma lookup_onboarded_seats id totalSeats i r :
  onboarded_seats id totalSeats !! i = Some r
  ↔ r = mkSeat id (1 + Z.of_nat i) "vacant" true ∧ Z.of_nat i < totalSeats.
Proof.
  unfold onboarded_seats. rewrite list_lookup_fmap, fmap_Some. split.
  - intros (x & [-> Hi]%lookup_seqZ & ->). done.
  - intros [-> Hi]. eexists. split; [|done]. by apply lookup_seqZ.
Qed.

Lemma filter_all {A} (P : A → Prop) `{!∀ x, Decision (P x)} (l : list A) :
  Forall P l → filter P l = l.
Proof.
  induction 1 as [|x l Hx Hl IH]; [done|].
  by rewrite filter_cons_True, IH.
Qed.

(** X18. The inserts of [onboardLibrary] (before the creation of the admin
    user) into a consistent store: the library gets the next key; its
    shifts, as [getShiftsByLibrary] lists them, are Night, Morning,
    Afternoon and Evening, six hours each; its seats, as
    [getSeatsByLibrary] lists them, are numbered 1 to [totalSeats] (none
    when [totalSeats] is not positive), each with status "vacant"; and
    whatever shifts are asked for, [getVacantSeatsForShifts] returns all
    of them. *)
Theorem onboardLibrary_creates (st : Store) (name : string) (totalSeats : Z) :
  consistent st →
  let id := next_id (libraries st) in
  let ks := next_id (shifts st) in
  let library := mkLibrary name totalSeats true in
  let st' := (onboardLibrary name totalSeats st).1 in
  (onboardLibrary name totalSeats st).2 = Ok (id, library)
  ∧ rows (libraries st) !! id = None
  ∧ rows (libraries st') !! id = Some library
  ∧ getShiftsByLibrary id st'
    = (st', Ok [ (ks + 3, mkShift id "Night" "00:00" "06:00" 6 true);
                 (ks + 0, mkShift id "Morning" "06:00" "12:00" 6 true);
                 (ks + 1, mkShift id "Afternoon" "12:00" "18:00" 6 true);
                 (ks + 2, mkShift id "Evening" "18:00" "00:00" 6 true) ])
  ∧ getSeatsByLibrary id st'
    = (st', Ok (keyed (next_id (seats st))
                      ((λ i, mkSeat id i "vacant" true) <$> seqZ 1 totalSeats)))
  ∧ ∀ shiftIds,
      getVacantSeatsForShifts id shiftIds st' = getSeatsByLibrary id st'.
Proof.
  intros Hc id ks library st'.
  pose proof (table_ok_fresh _ (ok_libraries _ Hc)) as Hfresh. fold id in Hfresh.
  unfold st'. rewrite (onboardLibrary_run name totalSeats st Hc).
  cbn [fst snd]. fold id library. clear st'.
  set (st' := set_seats _ _).
  assert (getSeatsByLibrary id st'
          = (st', Ok (keyed (next_id (seats st))
                            (onboarded_seats id totalSeats)))) as Hseats.
  { unfold getSeatsByLibrary, read. do 2 f_equal.
    change (seats st')
      with (insert_all (onboarded_seats id totalSeats) (seats st)).
    set (sel := select_where _ _).
    assert (sel ≡ₚ keyed (next_id (seats st)) (onboarded_seats id totalSeats))
      as Hperm.
    { apply select_where_insert_all; [apply Hc| |].
      - intros k r Hk. rewrite andb_false_iff, bool_decide_eq_false. left.
        intros Heq.
        destruct (fk_seat_library _ Hc k r Hk _ eq_refl) as [x Hx].
        rewrite Heq in Hx. congruence.
      - intros k r [_ [-> _]%lookup_onboarded_seats]%elem_of_keyed. cbn.
        by rewrite bool_decide_eq_true_2. }
    apply (StronglySorted_unique_strong
             (le_on_Z (λ s : Row Seat, seat_seatNumber s.2))).
    - intros [k1 r1] [k2 r2] H1 H2 H12 H21.
      rewrite merge_sort_Permutation, Hperm in H1.
      apply elem_of_keyed in H1 as [Hk1 [-> _]%lookup_onboarded_seats].
      apply elem_of_keyed in H2 as [Hk2 [-> _]%lookup_onboarded_seats].
      unfold le_on_Z in *. cbn in *. f_equal; [lia|f_equal; lia].
    - apply (StronglySorted_merge_sort _).
    - apply StronglySorted_lookup. intros i j [k1 r1] [k2 r2] Hij.
      unfold keyed. rewrite !list_lookup_imap, !fmap_Some.
      intros (x1 & [-> _]%lookup_onboarded_seats & [= -> ->])
             (x2 & [-> _]%lookup_onboarded_seats & [= -> ->]).
      unfold le_on_Z. cbn. lia.
    - by rewrite merge_sort_Permutation. }
  split_and!.
  - done.
  - done.
  - apply lookup_insert_eq.
  - unfold getShiftsByLibrary, read. do 2 f_equal.
    change (shifts st') with (insert_all (onboarded_shifts id) (shifts st)).
    set (sel := select_where _ _).
    assert (sel ≡ₚ keyed ks (onboarded_shifts id)) as Hperm.
    { apply select_where_insert_all; [apply Hc| |].
      - intros k r Hk. rewrite andb_false_iff, bool_decide_eq_false. left.
        intros Heq.
        destruct (fk_shift_library _ Hc k r Hk _ eq_refl) as [x Hx].
        rewrite Heq in Hx. congruence.
      - intros k r Hin. cbn in Hin.
        repeat (apply elem_of_cons in Hin as [[= -> ->]|Hin];
                [cbn; by rewrite bool_decide_eq_true_2|]).
        by apply elem_of_nil in Hin. }
    assert (keyed ks (onboarded_shifts id)
            ≡ₚ [ (ks + 3, mkShift id "Night" "00:00" "06:00" 6 true);
                 (ks + 0, mkShift id "Morning" "06:00" "12:00" 6 true);
                 (ks + 1, mkShift id "Afternoon" "12:00" "18:00" 6 true);
                 (ks + 2, mkShift id "Evening" "18:00" "00:00" 6 true) ])
      as Hperm'.
    { cbn. symmetry.
      apply (Permutation_cons_append
               [ (ks + 0, mkShift id "Morning" "06:00" "12:00" 6 true);
                 (ks + 1, mkShift id "Afternoon" "12:00" "18:00" 6 true);
                 (ks + 2, mkShift id "Evening" "18:00" "00:00" 6 true) ]). }
    apply (StronglySorted_unique_strong
             (le_on_string (λ s : Row Shift, shift_startTime s.2))).
    + intros x1 x2 H1 H2 H12 H21.
      rewrite merge_sort_Permutation, Hperm, Hperm' in H1.
      repeat (apply elem_of_cons in H1 as [->|H1]);
        try (by apply elem_of_nil in H1);
        repeat (apply elem_of_cons in H2 as [->|H2]);
        try (by apply elem_of_nil in H2);
        first [reflexivity|by vm_compute in H12|by vm_compute in H21].
    + apply (StronglySorted_merge_sort _).
    + repeat (constructor; [|repeat (constructor; [by vm_compute|]);
                             by constructor]).
      constructor.
    + by rewrite merge_sort_Permutation, Hperm.
  - exact Hseats.
  - intros shiftIds. rewrite Hseats.
    unfold getVacantSeatsForShifts. unfold bind at 1. rewrite Hseats.
    unfold bind, read, ret. cbn [fst snd]. do 2 f_equal.
    apply filter_all, Forall_forall.
    intros [k r] [Hk [-> _]%lookup_onboarded_seats]%elem_of_keyed.
    split; [|done]. cbn [fst].
    rewrite elem_of_list_to_set, list_elem_of_fmap.
    intros ([ka a] & -> & [Hka _]%elem_of_select_where). cbn in *.
    destruct (fk_alloc_seat _ Hc ka a Hka _ eq_refl) as [x Hx].
    destruct (ok_seats _ Hc) as [_ Hok]. specialize (Hok _ _ Hx).
    cbn in Hok. lia.
Qed.

Lemma onboardLibrary_creates_witness :
  consistent library_L1
  ∧ (onboardLibrary "L2" 2 library_L1).2 = Ok (2, mkLibrary "L2" 2 true)
  ∧ getSeatsByLibrary 2 (onboardLibrary "L2" 2 library_L1).1
    = ((onboardLibrary "L2" 2 library_L1).1,
       Ok [(2, mkSeat 2 1 "vacant" true); (3, mkSeat 2 2 "vacant" true)]).
Proof.
  assert (consistent library_L1) as Hc
    by (apply reachable_consistent; repeat constructor).
  split; [exact Hc|].
  pose proof (onboardLibrary_creates library_L1 "L2" 2 Hc) as H.
  cbv zeta in H. destruct H as (H1 & _ & _ & _ & H2 & _).
  split; [exact H1|exact H2].
Defined.

(** ** What no request changes *)

Lemma same_terms_refl s : same_terms s s.
Proof. by destruct s. Qed.

Lemma same_terms_trans s1 s2 s3 :
  same_terms s1 s2 → same_terms s2 s3 → same_terms s1 s3.
Proof.
  destruct s1, s2, s3. unfold same_terms. cbn.
  intros [= -> -> -> -> -> -> -> -> -> -> -> -> ->]
         [= -> -> -> -> -> -> -> -> -> -> -> -> ->]. done.
Qed.

Lemma same_seat_refl a : same_seat a a.
Proof. by destruct a. Qed.

Lemma same_seat_trans a1 a2 a3 :
  same_seat a1 a2 → same_seat a2 a3 → same_seat a1 a3.
Proof.
  destruct a1, a2, a3. unfold same_seat. cbn.
  intros [[= -> -> -> -> ->] H1] [[= -> -> -> -> ->] H2]. auto.
Qed.

#[global] Instance persists_preorder {A} : PreOrder (@persists A).
Proof. split; unfold persists; [intros t|intros t1 t2 t3]; auto. Qed.

#[global] Instance append_only_preorder : PreOrder append_only.
Proof.
  split.
  - intros st. unfold append_only. split_and!; try done.
    + intros k s Hk. exists s. split; [done|apply same_terms_refl].
    + intros k a Hk. exists a. split; [done|apply same_seat_refl].
  - intros st1 st2 st3 (A2 & A3 & A5 & A6 & A7) (B2 & B3 & B5 & B6 & B7).
    unfold append_only. split_and!; try (by etrans).
    + intros k s Hk. destruct (A6 k s Hk) as (s2 & Hk2 & H2).
      destruct (B6 k s2 Hk2) as (s3 & Hk3 & H3). exists s3.
      split; [done|by apply (same_terms_trans _ s2)].
    + intros k a Hk. destruct (A7 k a Hk) as (a2 & Hk2 & H2).
      destruct (B7 k a2 Hk2) as (a3 & Hk3 & H3). exists a3.
      split; [done|by apply (same_seat_trans _ a2)].
Qed.

Lemma persists_insert_row {A} c (r : A) t : persists t (insert_row c r t).1.
Proof. intros k x. apply insert_row_lookup. Qed.

Lemma append_only_subscriptions st t' :
  (∀ k s, rows (subscriptions st) !! k = Some s →
          ∃ s', rows t' !! k = Some s' ∧ same_terms s s') →
  append_only st (set_subscriptions t' st).
Proof.
  intros H. unfold append_only. cbn. split_and!; try done.
  intros k a Hk. exists a. split; [done|apply same_seat_refl].
Qed.

Lemma append_only_update_subscriptions cond upd st :
  (∀ s, same_terms s (upd s)) →
  append_only st
    (set_subscriptions (update_where cond upd (subscriptions st)) st).
Proof.
  intros Hupd. apply append_only_subscriptions. intros k s Hk.
  rewrite lookup_update_where, Hk. cbn. eexists. split; [done|].
  destruct (cond k s); [apply Hupd|apply same_terms_refl].
Qed.

Create HintDb append_db.

Ltac append_insert :=
  steps_insert; intros ?; unfold append_only; cbn;
  split_and!;
  try apply persists_insert_row;
  try (by intros ? ? ?);
  (intros ? ? ?; eexists;
   split; [first [by apply insert_row_lookup|eassumption]
          |first [apply same_terms_refl|apply same_seat_refl]]).

Lemma append_createLibrary l : steps_in append_only (createLibrary l).
Proof. append_insert. Qed.
Lemma append_createShift s : steps_in append_only (createShift s).
Proof. append_insert. Qed.
Lemma append_createSeat s : steps_in append_only (createSeat s).
Proof. append_insert. Qed.
Lemma append_createSeatAllocation a :
  steps_in append_only (createSeatAllocation a).
Proof. append_insert. Qed.
Lemma append_createStudent s : steps_in append_only (createStudent s).
Proof. append_insert. Qed.
Lemma append_createSubscription s :
  steps_in append_only (createSubscription s).
Proof. append_insert. Qed.

Lemma append_deleteSeatAllocationsForStudent studentId :
  steps_in append_only (deleteSeatAllocationsForStudent studentId).
Proof.
  intros st. unfold append_only. cbn. split_and!; try done.
  - intros k s Hk. exists s. split; [done|apply same_terms_refl].
  - intros k a Hk. rewrite lookup_update_where, Hk. cbn.
    eexists. split; [done|].
    destruct (bool_decide _); [by destruct a|apply same_seat_refl].
Qed.

Lemma append_cancelSubscription id :
  steps_in append_only (cancelSubscription id).
Proof.
  intros st. apply append_only_update_subscriptions. by intros [].
Qed.

Lemma append_renewSubscription studentId data :
  steps_in append_only (renewSubscription studentId data).
Proof.
  steps_bind; [|intros _; apply append_createSubscription].
  intros st. apply append_only_update_subscriptions. by intros [].
Qed.

Lemma append_createPayment payment :
  steps_in append_only (createPayment payment).
Proof.
  intros st. rewrite createPayment_run.
  pose proof (persists_insert_row
                (first_error (numeric "amount" (ipay_amount payment))
                             (payments_constraints (payment_row payment) st))
                (payment_row payment) (payments st)) as Hp.
  destruct (insert_row _ (payment_row payment) (payments st))
    as [tp [created|e]]; cbn in *.
  - unfold append_only. cbn. split_and!; try done.
    + intros k s Hk. unfold pay_into.
      destruct (pay_overflow payment (subscriptions st));
        [exists s; split; [done|apply same_terms_refl]|].
      case_bool_decide.
      * destruct (rows (subscriptions st) !! ipay_subscriptionId payment).
        -- rewrite lookup_update_where, Hk. cbn. eexists. split; [done|].
           case_bool_decide; [by destruct s|apply same_terms_refl].
        -- exists s. split; [done|apply same_terms_refl].
      * exists s. split; [done|apply same_terms_refl].
    + intros k a Hk. exists a. split; [done|apply same_seat_refl].
  - unfold append_only. cbn. split_and!; try done.
    + intros k s Hk. exists s. split; [done|apply same_terms_refl].
    + intros k a Hk. exists a. split; [done|apply same_seat_refl].
Qed.

#[global] Hint Resolve append_createLibrary append_createShift
  append_createSeat append_createSeatAllocation append_createStudent
  append_createSubscription append_deleteSeatAllocationsForStudent
  append_cancelSubscription append_renewSubscription append_createPayment
  : append_db.

Lemma append_only_step r st : append_only st (step r st).
Proof.
  destruct r; cbn [step];
    match goal with
    | |- append_only st (?m st).1 => revert st; change (steps_in append_only m)
    end.
  - unfold postStudents, generateStudentId, getShiftsByLibrary.
    steps_try_catch. steps_with append_db.
  - unfold postPayments. steps_try_catch. steps_with append_db.
  - unfold postSubscriptionsRenew, getActiveSubscriptionByStudent.
    steps_try_catch. steps_with append_db.
  - unfold patchSubscriptionsCancel. steps_try_catch. steps_with append_db.
  - unfold onboardLibrary. steps_with append_db.
  - apply append_createSeat.
  - apply append_createSeatAllocation.
  - apply append_deleteSeatAllocationsForStudent.
Qed.

(** X19. No sequence of the requests of [Request] deletes or rewrites a
    shift, a seat or a payment.  Of a subscription only the status and
    the paid and pending amounts ever change: seat, shifts, plan, dates,
    cost and discount stay as they were written.  Of a seat allocation
    only the flag [isActive] changes, and it is never raised again. *)
Theorem requests_are_append_only (rs : list Request) (st : Store) :
  persists (shifts st) (shifts (run rs st))
  ∧ persists (seats st) (seats (run rs st))
  ∧ persists (payments st) (payments (run rs st))
  ∧ (∀ k s, rows (subscriptions st) !! k = Some s →
            ∃ s', rows (subscriptions (run rs st)) !! k = Some s'
                  ∧ same_terms s s')
  ∧ (∀ k a, rows (seatAllocations st) !! k = Some a →
            ∃ a', rows (seatAllocations (run rs st)) !! k = Some a'
                  ∧ same_seat a a').
Proof.
  change (append_only st (run rs st)).
  revert st. induction rs as [|r rs IH]; intros st; [reflexivity|].
  cbn. etrans; [apply append_only_step|apply IH].
Qed.

(** ** Renewal in a reachable state *)



(** ** References *)

(** X21. In every state reached through the requests, also through requests
    that fail half way, every reference resolves: a payment names a
    library, a student and a subscription that exist; a subscription a
    library, a student and a seat; a student, a seat and a shift a
    library; a seat allocation a seat, a shift and, if it names one, a
    student.  The keys of the subscriptions are positive, so that
    [createPayment], which skips the update of the paid amount for the
    subscription id 0, skips it for no subscription that exists. *)
Theorem references_resolve (st : Store) :
  reachable st →
  (∀ k p, rows (payments st) !! k = Some p →
     is_Some (rows (libraries st) !! pay_libraryId p)
     ∧ is_Some (rows (students st) !! pay_studentId p)
     ∧ is_Some (rows (subscriptions st) !! pay_subscriptionId p))
  ∧ (∀ k s, rows (subscriptions st) !! k = Some s →
       0 < k
       ∧ is_Some (rows (libraries st) !! sub_libraryId s)
       ∧ is_Some (rows (students st) !! sub_studentId s)
       ∧ is_Some (rows (seats st) !! sub_seatId s))
  ∧ (∀ k s, rows (students st) !! k = Some s →
       is_Some (rows (libraries st) !! stu_libraryId s))
  ∧ (∀ k s, rows (seats st) !! k = Some s →
       is_Some (rows (libraries st) !! seat_libraryId s))
  ∧ (∀ k s, rows (shifts st) !! k = Some s →
       is_Some (rows (libraries st) !! shift_libraryId s))
  ∧ (∀ k a, rows (seatAllocations st) !! k = Some a →
       is_Some (rows (seats st) !! alloc_seatId a)
       ∧ is_Some (rows (shifts st) !! alloc_shiftId a)
       ∧ ∀ x, alloc_studentId a = Some x → is_Some (rows (students st) !! x)).
Proof.
  intros Hr. pose proof (reachable_consistent st Hr) as Hc. split_and!.
  - intros k p Hk. split_and!.
    + by apply (fk_pay_library _ Hc k p Hk).
    + by apply (fk_pay_student _ Hc k p Hk).
    + by apply (fk_pay_subscription _ Hc k p Hk).
  - intros k s Hk. split_and!.
    + destruct (ok_subscriptions _ Hc) as [_ Hok].
      specialize (Hok k s Hk). cbn in Hok. lia.
    + by apply (fk_sub_library _ Hc k s Hk).
    + by apply (fk_sub_student _ Hc k s Hk).
    + by apply (fk_sub_seat _ Hc k s Hk).
  - intros k s Hk. by apply (fk_student_library _ Hc k s Hk).
  - intros k s Hk. by apply (fk_seat_library _ Hc k s Hk).
  - intros k s Hk. by apply (fk_shift_library _ Hc k s Hk).
  - intros k a Hk. split_and!.
    + by apply (fk_alloc_seat _ Hc k a Hk).
    + by apply (fk_alloc_shift _ Hc k a Hk).
    + intros x Hx. by apply (fk_alloc_student _ Hc k a Hk).
Qed.

Lemma references_resolve_witness :
  reachable seat1_occupied
  ∧ (∃ p, rows (payments seat1_occupied) !! 1 = Some p)
  ∧ ∀ k p, rows (payments seat1_occupied) !! k = Some p →
      is_Some (rows (subscriptions seat1_occupied) !! pay_subscriptionId p).
Proof.
  assert (reachable seat1_occupied) as Hr by repeat constructor.
  split; [exact Hr|]. split; [vm_compute; eauto|].
  intros k p Hk.
  exact (proj2 (proj2 (proj1 (references_resolve seat1_occupied Hr) k p Hk))).
Defined.

(** ** Two payments *)


